(** * The central service of the DNS control plane

    A shallow embedding of [moniker/central/service.py] (class [Service]):
    the policy-gated domain and record operations, the blacklist and
    subdomain checks, the health check and the notification dispatch,
    together with the properties the specification states about them. *)

From stdpp Require Import gmap strings list fin_maps pretty.
From Stdlib Require Import ZArith Ascii String.

Open Scope string_scope.

(** ** Python values *)

(** The scalar values that travel in [values], [criterion] and policy
    [target] dictionaries. *)
Inductive pyval :=
| VNone
| VBool (b : bool)
| VInt (n : Z)
| VStr (s : string).

Global Instance pyval_eq_dec : EqDecision pyval.
Proof. solve_decision. Defined.

(** A value as returned by a collaborator: a scalar or a dictionary. *)
Inductive pyobj :=
| OVal (v : pyval)
| ODict (d : gmap string pyval).

Global Instance pyobj_eq_dec : EqDecision pyobj.
Proof. solve_decision. Defined.

(** Python truth value testing: [None], [False], [0], the empty string and
    the empty dictionary are false, everything else is true. *)
Definition truthy_val (v : pyval) : bool :=
  match v with
  | VNone => false
  | VBool b => b
  | VInt n => negb (n =? 0)%Z
  | VStr s => negb (String.eqb s "")
  end.

Definition truthy (o : pyobj) : bool :=
  match o with
  | OVal v => truthy_val v
  | ODict d => negb (bool_decide (d = ∅))
  end.

(** [s.endswith(t)]: [s] is [t], or the rest of [s] ends with [t]. *)
Fixpoint endswith (s t : string) : bool :=
  if String.eqb s t then true
  else match s with
       | EmptyString => false
       | String _ s' => endswith s' t
       end.

(** [s.split(sep)] for a one-character separator: always at least one
    label, and a trailing separator yields a last empty label. *)
Fixpoint split (sep : Ascii.ascii) (s : string) : list string :=
  match s with
  | EmptyString => [""]
  | String c s' =>
      if Ascii.eqb c sep then "" :: split sep s'
      else match split sep s' with
           | [] => [String c ""]
           | l :: ls => String c l :: ls
           end
  end.

(** [sep.join(labels)] *)
Definition join (sep : string) (labels : list string) : string :=
  String.concat sep labels.

(** ** Exceptions and the monad of service operations *)

(** The exceptions of the service and of the Python runtime that the code
    meets, all of classes derived from [Exception], and [Foreign], an
    exception of any other class that a collaborator raises: the name of
    its class, whether the class derives from [Exception]
    ([eventlet.Timeout], [GreenletExit] and [KeyboardInterrupt] do not),
    and the text [str(e)] gives, if it gives one. *)
Inductive exn :=
| Forbidden (msg : string)
| BadRequest (msg : string)
| DomainNotFound
| RecordNotFound
| NoServersConfigured
| DuplicateDomain
| KeyError (key : string)
| TypeError (msg : string)
| AttributeError (msg : string)
| Exception (msg : string)
| Foreign (cls : string) (derived : bool) (text : option string).

Global Instance exn_eq_dec : EqDecision exn.
Proof. solve_decision. Defined.

(** Whether [except Exception] catches the exception. *)
Definition derives_from_Exception (e : exn) : bool :=
  match e with
  | Foreign _ derived _ => derived
  | _ => true
  end.

Inductive Res (A : Type) :=
| Ok (a : A)
| Raise (e : exn).
Arguments Ok {A} a.
Arguments Raise {A} e.

(** What [str] raises for an exception whose text cannot be rendered, as
    for a unicode message outside ASCII in Python 2. *)
Definition unprintable : exn :=
  Foreign "UnicodeEncodeError" true
          (Some "'ascii' codec can't encode characters").

(** [str(e)]: the message the exception was built with; for a foreign
    exception its text, if [str] returns one. *)
Definition str (e : exn) : Res string :=
  match e with
  | Forbidden msg | BadRequest msg | TypeError msg | AttributeError msg
  | Exception msg => Ok msg
  | KeyError key => Ok ("'" +:+ key +:+ "'")
  | DomainNotFound | RecordNotFound | NoServersConfigured | DuplicateDomain =>
      Ok ""
  | Foreign _ _ (Some text) => Ok text
  | Foreign _ _ None => Raise unprintable
  end.

(** ** Stored entities *)

Module Ctx.
(** The request context: the caller's tenant and the admin flag. *)
Record t := mk { tenant_id : pyval; is_admin : bool }.
End Ctx.

Module Domain.
Record t := mk {
  id : string;
  name : string;
  email : pyval;
  tenant_id : pyval;
  parent_domain_id : pyval
}.

(** The row as the dictionary Storage compares criteria against. *)
Definition to_dict (d : t) : gmap string pyval :=
  {[ "id" := VStr (id d); "name" := VStr (name d); "email" := email d;
     "tenant_id" := tenant_id d; "parent_domain_id" := parent_domain_id d ]}.
End Domain.

Module DnsRecord.
Record t := mk {
  id : string;
  domain_id : string;
  name : string;
  type : pyval;
  data : pyval;
  priority : pyval
}.

Definition to_dict (r : t) : gmap string pyval :=
  {[ "id" := VStr (id r); "domain_id" := VStr (domain_id r);
     "name" := VStr (name r); "type" := type r; "data" := data r;
     "priority" := priority r ]}.
End DnsRecord.

Module Server.
Record t := mk { id : string; name : string }.
End Server.

(** ** Storage *)

Module StorageConn.
(** Modelled from the spec: the storage driver ([moniker.storage]) is an
    external collaborator; this is the contract of section 6, an
    in-memory table per entity with exact-match criteria, a NotFound
    error on a failed single-item lookup and unique domain names. *)
Record t := mk {
  domains : list Domain.t;
  records : list DnsRecord.t;
  servers : list Server.t;
  next_id : nat
}.

(** Modelled from the spec: identifiers are opaque strings. *)
Definition new_id (n : nat) : string := "id-" +:+ pretty n.

(** Modelled from the spec: a column of [values] that is not supplied is
    stored as [None]. *)
Definition col (values : gmap string pyval) (k : string) : pyval :=
  default VNone (values !! k).

(** Modelled from the spec: a criterion is a mapping of exact-match
    filters; a row matches when every entry of the criterion is an entry
    of the row. *)
Definition find_domains (criterion : gmap string pyval) (st : t)
  : list Domain.t :=
  filter (λ d, criterion ⊆ Domain.to_dict d) (domains st).

(** Modelled from the spec: the same exact-match filter on records. *)
Definition find_records (criterion : gmap string pyval) (st : t)
  : list DnsRecord.t :=
  filter (λ r, criterion ⊆ DnsRecord.to_dict r) (records st).

(** Modelled from the spec: the single-item lookup by criterion of the
    storage driver, which fails with DomainNotFound when no row matches. *)
Definition find_domain (context : Ctx.t) (criterion : gmap string pyval)
    (st : t) : Res Domain.t :=
  match find_domains criterion st with
  | d :: _ => Ok d
  | [] => Raise DomainNotFound
  end.

(** Modelled from the spec: the single-item lookup by id of the storage
    driver. *)
Definition get_domain (context : Ctx.t) (domain_id : string) (st : t)
  : Res Domain.t :=
  find_domain context {[ "id" := VStr domain_id ]} st.

(** Modelled from the spec: the list lookup of the storage driver, every
    row that matches the criterion. *)
Definition get_domains (context : Ctx.t) (criterion : gmap string pyval)
    (st : t) : Res (list Domain.t) :=
  Ok (find_domains criterion st).

(** Modelled from the spec: the list of servers of the storage driver,
    called without a criterion. *)
Definition get_servers (context : Ctx.t) (st : t) : Res (list Server.t) :=
  Ok (servers st).

(** Modelled from the spec: the single-item lookup of a record by id,
    which fails with RecordNotFound when no row matches. *)
Definition get_record (context : Ctx.t) (record_id : string) (st : t)
  : Res DnsRecord.t :=
  match find_records {[ "id" := VStr record_id ]} st with
  | r :: _ => Ok r
  | [] => Raise RecordNotFound
  end.

(** Modelled from the spec: the insert of the storage driver; the name
    must be a string and is unique among the stored domains, the row gets
    a new id and the supplied columns. *)
Definition create_domain (context : Ctx.t) (values : gmap string pyval)
    (st : t) : Res Domain.t * t :=
  match values !! "name" with
  | Some (VStr name) =>
      if bool_decide (name ∈ Domain.name <$> domains st)
      then (Raise DuplicateDomain, st)
      else
        let domain :=
          Domain.mk (new_id (next_id st)) name (col values "email")
                    (col values "tenant_id")
                    (col values "parent_domain_id") in
        (Ok domain,
         mk (domains st ++ [domain]) (records st) (servers st)
            (S (next_id st)))
  | _ => (Raise (Exception "invalid domain values"), st)
  end.

(** Modelled from the spec: the row after an update of the storage
    driver, the supplied columns replacing the stored ones. *)
Definition updated_domain (d : Domain.t) (values : gmap string pyval)
  : Domain.t :=
  Domain.mk (Domain.id d)
    (match values !! "name" with
     | Some (VStr name) => name
     | _ => Domain.name d
     end)
    (default (Domain.email d) (values !! "email"))
    (default (Domain.tenant_id d) (values !! "tenant_id"))
    (default (Domain.parent_domain_id d) (values !! "parent_domain_id")).

(** Modelled from the spec: the update of the storage driver, of the row
    with that id. *)
Definition update_domain (context : Ctx.t) (domain_id : string)
    (values : gmap string pyval) (st : t) : Res Domain.t * t :=
  match get_domain context domain_id st with
  | Ok d =>
      let d' := updated_domain d values in
      (Ok d',
       mk ((λ x, if bool_decide (Domain.id x = domain_id) then d' else x)
             <$> domains st)
          (records st) (servers st) (next_id st))
  | Raise e => (Raise e, st)
  end.

(** Modelled from the spec: the insert of a record of the storage driver,
    under the given domain. *)
Definition create_record (context : Ctx.t) (domain_id : string)
    (values : gmap string pyval) (st : t) : Res DnsRecord.t * t :=
  match values !! "name" with
  | Some (VStr name) =>
      let record :=
        DnsRecord.mk (new_id (next_id st)) domain_id name
                     (col values "type") (col values "data")
                     (col values "priority") in
      (Ok record,
       mk (domains st) (records st ++ [record]) (servers st)
          (S (next_id st)))
  | _ => (Raise (Exception "invalid record values"), st)
  end.

(** Modelled from the spec: the record after an update of the storage
    driver. *)
Definition updated_record (r : DnsRecord.t) (values : gmap string pyval)
  : DnsRecord.t :=
  DnsRecord.mk (DnsRecord.id r)
    (match values !! "domain_id" with
     | Some (VStr domain_id) => domain_id
     | _ => DnsRecord.domain_id r
     end)
    (match values !! "name" with
     | Some (VStr name) => name
     | _ => DnsRecord.name r
     end)
    (default (DnsRecord.type r) (values !! "type"))
    (default (DnsRecord.data r) (values !! "data"))
    (default (DnsRecord.priority r) (values !! "priority")).

(** Modelled from the spec: the update of the storage driver, of the
    record with that id. *)
Definition update_record (context : Ctx.t) (record_id : string)
    (values : gmap string pyval) (st : t) : Res DnsRecord.t * t :=
  match get_record context record_id st with
  | Ok r =>
      let r' := updated_record r values in
      (Ok r',
       mk (domains st)
          ((λ x, if bool_decide (DnsRecord.id x = record_id) then r' else x)
             <$> records st)
          (servers st) (next_id st))
  | Raise e => (Raise e, st)
  end.

(** Modelled from the spec: the delete of the storage driver, which
    removes the record with that id and fails with RecordNotFound when
    there is none.  The spec does not say what it returns; the deleted
    record is taken as its result. *)
Definition delete_record (context : Ctx.t) (record_id : string) (st : t)
  : Res DnsRecord.t * t :=
  match get_record context record_id st with
  | Ok r =>
      (Ok r,
       mk (domains st)
          (filter (λ x, DnsRecord.id x ≠ record_id) (records st))
          (servers st) (next_id st))
  | Raise e => (Raise e, st)
  end.
End StorageConn.

(** ** The world a request runs in *)

Inductive Entity :=
| EDomain (d : Domain.t)
| ERecord (r : DnsRecord.t).

(** What an operation does besides touching Storage: the calls to the
    backend driver, the notifications [utils.notify] emits, and the
    notifications handed to a handler. *)
Inductive Event :=
| BackendCall (method : string) (args : list Entity)
| Notify (service event_type : string) (payload : Entity)
| HandlerCall (handler : string) (event_type payload : pyobj).

Record World := mkWorld {
  storage_conn : StorageConn.t;
  trace : list Event
}.

(** An operation runs from a world to a result or an exception and the
    world it leaves; a raised exception rolls nothing back. *)
Definition M (A : Type) : Type := World → Res A * World.

Global Instance M_ret : MRet M := λ A a w, (Ok a, w).

Global Instance M_bind : MBind M := λ A B f m w,
  match m w with
  | (Ok a, w') => f a w'
  | (Raise e, w') => (Raise e, w')
  end.

Definition raise {A} (e : exn) : M A := λ w, (Raise e, w).

(** [try: m  except <class>, e: ...]: the handler [h] says what happens
    to each exception, raising again those the clause does not name. *)
Definition try_except {A} (m : M A) (h : exn → M A) : M A := λ w,
  match m w with
  | (Ok a, w') => (Ok a, w')
  | (Raise e, w') => h e w'
  end.

(** [try: m  except Exception, e: h e]: an exception of a class that does
    not derive from [Exception] is not caught. *)
Definition except_Exception {A} (m : M A) (h : exn → M A) : M A :=
  try_except m (λ e, if derives_from_Exception e then h e else raise e).

(** [if c: body], for a body run for its effect. *)
Definition when (c : bool) (body : M unit) : M unit :=
  if c then body else mret ().

(** A result that depends on nothing in the world. *)
Definition lift {A} (r : Res A) : M A := λ w, (r, w).

(** A Storage read and a Storage write. *)
Definition storage_read {A} (f : StorageConn.t → Res A) : M A := λ w,
  (f (storage_conn w), w).

Definition storage_write {A} (f : StorageConn.t → Res A * StorageConn.t)
  : M A := λ w,
  let '(r, st) := f (storage_conn w) in (r, mkWorld st (trace w)).

Definition emit (ev : Event) : M unit := λ w,
  (Ok (), mkWorld (storage_conn w) (trace w ++ [ev])).

(** [d[k]] *)
Definition getitem {V} (d : gmap string V) (k : string) : M V :=
  match d !! k with
  | Some v => mret v
  | None => raise (KeyError k)
  end.

(** A value passed where a library function needs a string. *)
Definition as_str (v : pyval) : M string :=
  match v with
  | VStr s => mret s
  | _ => raise (TypeError "expected string or buffer")
  end.

(** [type(v).__name__], on a 64-bit platform: an integer beyond
    [sys.maxint] is a [long]. *)
Definition type_name (v : pyval) : string :=
  match v with
  | VNone => "NoneType"
  | VBool _ => "bool"
  | VInt n => if ((- 2 ^ 63 <=? n) && (n <? 2 ^ 63))%Z then "int" else "long"
  | VStr _ => "str"
  end.

(** A value whose string method [meth] is called. *)
Definition str_method (v : pyval) (meth : string) : M string :=
  match v with
  | VStr s => mret s
  | _ => raise (AttributeError ("'" +:+ type_name v +:+
                                "' object has no attribute '" +:+ meth +:+
                                "'"))
  end.

(** [a == b] on scalars: booleans compare equal to the integers 0 and 1. *)
Definition py_eq (a b : pyval) : bool :=
  match a, b with
  | VBool x, VInt n | VInt n, VBool x => (n =? (if x then 1 else 0))%Z
  | _, _ => bool_decide (a = b)
  end.

(** [for x in l: body x] *)
Fixpoint for_each {A} (l : list A) (body : A → M unit) : M unit :=
  match l with
  | [] => mret ()
  | x :: l' => body x;; for_each l' body
  end.

(** ** Collaborators and configuration *)

Module Handler.
(** A notification handler: its canonical name, the event types it
    declares, and whether [process_notification] returns ([None]) or
    raises. *)
Record t := mk {
  get_canonical_name : string;
  get_event_types : list string;
  process_notification : pyobj → pyobj → option exn
}.
End Handler.

Record Env := mkEnv {
  (** [policy.check(rule, context, target)]: [true] when it returns,
      [false] when it raises Forbidden *)
  policy : string → Ctx.t → gmap string pyval → bool;
  (** [cfg.CONF['service:central'].domain_name_blacklist] *)
  domain_name_blacklist : list string;
  (** [re.search(pattern, string)]: the pattern is compiled first, which
      raises [re.error] when it is not a regular expression; the search
      of a string then says whether [bool] of the result is true *)
  re_search : string → Res (string → bool);
  (** [cfg.CONF.host] *)
  host : string;
  (** the backend driver: given the calls made so far, whether the
      method returns ([None]) or raises *)
  backend : list Event → string → list Entity → option exn;
  (** [self.backend.ping] and [self.storage_conn.ping] *)
  backend_ping : Ctx.t → Res pyobj;
  storage_ping : Ctx.t → Res pyobj;
  (** [self.handlers], in registration order *)
  handlers : list Handler.t
}.

(** The result of [ping]. *)
Module Ping.
Record t := mk {
  host : string;
  status : bool;
  backend : pyobj;
  storage : pyobj
}.
End Ping.

(** Modelled from the spec: [policy.check] fails with Forbidden; the
    policy module is not among the sources and its message is taken to be
    empty. *)
Definition policy_denied : exn := Forbidden "".

(** [{'status': False, 'message': message}] *)
Definition failed_status (message : string) : pyobj :=
  ODict {[ "status" := VBool false; "message" := VStr message ]}.

(** ** The service *)

Section Service.
Context (env : Env).

(** [policy.check(rule, context, target)] *)
Definition policy_check (rule : string) (context : Ctx.t)
    (target : gmap string pyval) : M unit :=
  if policy env rule context target then mret () else raise policy_denied.

(** [self.backend.<method>(context, *args)]: the call is made, and the
    driver returns or raises. *)
Definition backend_call (method : string) (args : list Entity) : M unit :=
  λ w,
    let w' := mkWorld (storage_conn w) (trace w ++ [BackendCall method args]) in
    match backend env (trace w) method args with
    | None => (Ok (), w')
    | Some e => (Raise e, w')
    end.

(** [utils.notify(context, service, event_type, payload)] *)
Definition notify (context : Ctx.t) (service event_type : string)
    (payload : Entity) : M unit :=
  emit (Notify service event_type payload).

(** *** Notification dispatch *)

Definition _get_handler_event_types : gset string :=
  foldl (λ event_types handler,
           foldl (λ event_types et, event_types ∪ {[ et ]})
                 event_types (Handler.get_event_types handler))
        ∅ (handlers env).

(** [x in s] for a set of strings: a dictionary is not hashable. *)
Definition in_set (x : pyobj) (s : gset string) : M bool :=
  match x with
  | OVal (VStr et) => mret (bool_decide (et ∈ s))
  | OVal _ => mret false
  | ODict _ => raise (TypeError "unhashable type: 'dict'")
  end.

(** [x in handler.get_event_types()] *)
Definition in_event_types (x : pyobj) (types : list string) : bool :=
  bool_decide (x ∈ (λ et, OVal (VStr et)) <$> types).

Definition _process_notification_for_handler (handler : Handler.t)
    (notification : gmap string pyobj) : M unit :=
  event_type ← getitem notification "event_type";
  payload ← getitem notification "payload";
  when (in_event_types event_type (Handler.get_event_types handler))
    (emit (HandlerCall (Handler.get_canonical_name handler)
                       event_type payload);;
     match Handler.process_notification handler event_type payload with
     | None => mret ()
     | Some e => raise e
     end).

Definition _process_notification (notification : gmap string pyobj)
  : M unit :=
  let event_type := default (OVal VNone) (notification !! "event_type") in
  interesting ← in_set event_type _get_handler_event_types;
  when interesting
    (for_each (handlers env)
       (λ handler, _process_notification_for_handler handler notification)).

(** *** Blacklist and subdomain checks *)

(** The loop of [_is_blacklisted_domain_name]: the first pattern that
    matches is returned, [False] when none does. *)
Fixpoint _is_blacklisted_loop (blacklists : list string)
    (domain_name : pyval) : M pyval :=
  match blacklists with
  | [] => mret (VBool false)
  | blacklist :: rest =>
      lift (re_search env blacklist) ≫= λ search : string → bool,
      s ← as_str domain_name;
      if search s then mret (VStr blacklist)
      else _is_blacklisted_loop rest domain_name
  end.

Definition _is_blacklisted_domain_name (context : Ctx.t)
    (domain_name : pyval) : M pyval :=
  _is_blacklisted_loop (domain_name_blacklist env) domain_name.

(** The [while (i < len(labels))] loop of [_is_subdomain]; [n] is
    [len(labels) - i], the number of iterations left. *)
Fixpoint _is_subdomain_loop (context : Ctx.t) (labels : list string)
    (i n : nat) : M (option Domain.t) :=
  match n with
  | 0 => mret None
  | S n' =>
      let name := join "." (drop i labels) in
      found ← try_except
                (domain ← storage_read
                   (StorageConn.find_domain context {[ "name" := VStr name ]});
                 mret (Some domain))
                (λ e, match e with
                      | DomainNotFound => mret None
                      | _ => raise e
                      end);
      match found with
      | Some domain => mret (Some domain)
      | None => _is_subdomain_loop context labels (i + 1) n'
      end
  end.

(** The result is a stored domain, which is a true value, or [False],
    here [None]. *)
Definition _is_subdomain (context : Ctx.t) (domain_name : pyval)
  : M (option Domain.t) :=
  s ← str_method domain_name "split";
  let labels := split "." s in
  _is_subdomain_loop context labels 1 (List.length labels - 1).

(** *** Domain methods *)

Definition create_domain (context : Ctx.t) (values : gmap string pyval)
  : M Domain.t :=
  let values := <["tenant_id" := Ctx.tenant_id context]> values in
  name ← getitem values "name";
  let target : gmap string pyval :=
    {[ "tenant_id" := Ctx.tenant_id context; "domain_name" := name ]} in
  policy_check "create_domain" context target;;
  blacklisted ← _is_blacklisted_domain_name context name;
  when (truthy_val blacklisted)
    (policy_check "use_blacklisted_domain" context ∅);;
  parent_domain ← _is_subdomain context name;
  values ← match parent_domain with
           | Some parent_domain =>
               if py_eq (Domain.tenant_id parent_domain)
                        (Ctx.tenant_id context)
               then mret (<["parent_domain_id" :=
                              VStr (Domain.id parent_domain)]> values)
               else raise (Forbidden ("Unable to create subdomain in " +:+
                                      "another tenants domain"))
           | None => mret values
           end;
  servers ← storage_read (StorageConn.get_servers context);
  when (bool_decide (List.length servers = 0)) (raise NoServersConfigured);;
  domain ← storage_write (StorageConn.create_domain context values);
  backend_call "create_domain" [EDomain domain];;
  notify context "api" "domain.create" (EDomain domain);;
  mret domain.

Definition get_domains (context : Ctx.t)
    (criterion : option (gmap string pyval)) : M (list Domain.t) :=
  let target : gmap string pyval :=
    {[ "tenant_id" := Ctx.tenant_id context ]} in
  policy_check "get_domains" context target;;
  let criterion := default ∅ criterion in
  let criterion :=
    if negb (Ctx.is_admin context)
    then <["tenant_id" := Ctx.tenant_id context]> criterion
    else criterion in
  storage_read (StorageConn.get_domains context criterion).

Definition update_domain (context : Ctx.t) (domain_id : string)
    (values : gmap string pyval) : M Domain.t :=
  domain ← storage_read (StorageConn.get_domain context domain_id);
  let target : gmap string pyval :=
    {[ "domain_id" := VStr domain_id;
       "domain_name" := VStr (Domain.name domain);
       "tenant_id" := Domain.tenant_id domain ]} in
  policy_check "update_domain" context target;;
  match values !! "tenant_id" with
  | Some tenant_id =>
      policy_check "delete_domain" context target;;
      let target : gmap string pyval :=
        {[ "domain_id" := VStr domain_id; "tenant_id" := tenant_id ]} in
      policy_check "create_domain" context target
  | None => mret ()
  end;;
  match values !! "name" with
  | Some name =>
      when (negb (py_eq name (VStr (Domain.name domain))))
        (raise (BadRequest "Renaming a domain is not allowed"))
  | None => mret ()
  end;;
  domain ← storage_write (StorageConn.update_domain context domain_id values);
  backend_call "update_domain" [EDomain domain];;
  notify context "api" "domain.update" (EDomain domain);;
  mret domain.

(** *** Record methods *)

Definition create_record (context : Ctx.t) (domain_id : string)
    (values : gmap string pyval) : M DnsRecord.t :=
  domain ← storage_read (StorageConn.get_domain context domain_id);
  name ← getitem values "name";
  let target : gmap string pyval :=
    {[ "domain_id" := VStr domain_id;
       "domain_name" := VStr (Domain.name domain);
       "record_name" := name;
       "tenant_id" := Domain.tenant_id domain ]} in
  policy_check "create_record" context target;;
  record_name ← str_method name "endswith";
  when (negb (endswith record_name (Domain.name domain)))
    (raise (BadRequest ("Records must be contained within " +:+
                        "their parent zone.")));;
  record ← storage_write (StorageConn.create_record context domain_id values);
  backend_call "create_record" [EDomain domain; ERecord record];;
  notify context "api" "record.create" (ERecord record);;
  mret record.

Definition get_record (context : Ctx.t) (domain_id record_id : string)
  : M DnsRecord.t :=
  domain ← storage_read (StorageConn.get_domain context domain_id);
  record ← storage_read (StorageConn.get_record context record_id);
  when (negb (String.eqb (Domain.id domain) (DnsRecord.domain_id record)))
    (raise RecordNotFound);;
  let target : gmap string pyval :=
    {[ "domain_id" := VStr domain_id;
       "domain_name" := VStr (Domain.name domain);
       "record_id" := VStr (DnsRecord.id record);
       "tenant_id" := Domain.tenant_id domain ]} in
  policy_check "get_record" context target;;
  mret record.

Definition update_record (context : Ctx.t) (domain_id record_id : string)
    (values : gmap string pyval) : M DnsRecord.t :=
  domain ← storage_read (StorageConn.get_domain context domain_id);
  record ← storage_read (StorageConn.get_record context record_id);
  when (negb (String.eqb (Domain.id domain) (DnsRecord.domain_id record)))
    (raise RecordNotFound);;
  let target : gmap string pyval :=
    {[ "domain_id" := VStr domain_id;
       "domain_name" := VStr (Domain.name domain);
       "record_id" := VStr (DnsRecord.id record);
       "tenant_id" := Domain.tenant_id domain ]} in
  policy_check "update_record" context target;;
  match values !! "name" with
  | Some name =>
      record_name ← str_method name "endswith";
      when (negb (endswith record_name (Domain.name domain)))
        (raise (BadRequest ("Records must be contained within " +:+
                            "their parent zone.")))
  | None => mret ()
  end;;
  record ← storage_write (StorageConn.update_record context record_id values);
  backend_call "update_record" [EDomain domain; ERecord record];;
  notify context "api" "record.update" (ERecord record);;
  mret record.

Definition delete_record (context : Ctx.t) (domain_id record_id : string)
  : M DnsRecord.t :=
  domain ← storage_read (StorageConn.get_domain context domain_id);
  record ← storage_read (StorageConn.get_record context record_id);
  when (negb (String.eqb (Domain.id domain) (DnsRecord.domain_id record)))
    (raise RecordNotFound);;
  let target : gmap string pyval :=
    {[ "domain_id" := VStr domain_id;
       "domain_name" := VStr (Domain.name domain);
       "record_id" := VStr (DnsRecord.id record);
       "tenant_id" := Domain.tenant_id domain ]} in
  policy_check "delete_record" context target;;
  backend_call "delete_record" [EDomain domain; ERecord record];;
  notify context "api" "record.delete" (ERecord record);;
  storage_write (StorageConn.delete_record context record_id).

(** *** Diagnostics *)

Definition ping (context : Ctx.t) : M Ping.t :=
  policy_check "diagnostics_ping" context ∅;;
  backend_status ← except_Exception (lift (backend_ping env context))
                     (λ e, message ← lift (str e);
                           mret (failed_status message));
  storage_status ← except_Exception (lift (storage_ping env context))
                     (λ e, message ← lift (str e);
                           mret (failed_status message));
  let status :=
    if truthy backend_status && truthy storage_status then true else false in
  mret (Ping.mk (host env) status backend_status storage_status).
End Service.

(** ** Vocabulary of the properties *)

Global Instance Domain_eq_dec : EqDecision Domain.t.
Proof. solve_decision. Defined.

Global Instance DnsRecord_eq_dec : EqDecision DnsRecord.t.
Proof. solve_decision. Defined.

(** Identifiers are keys: no two stored domains, and no two stored
    records, share one. *)
Definition unique_ids (st : StorageConn.t) : Prop :=
  NoDup (Domain.id <$> StorageConn.domains st) ∧
  NoDup (DnsRecord.id <$> StorageConn.records st).

Global Instance unique_ids_dec st : Decision (unique_ids st).
Proof. unfold unique_ids. apply _. Defined.

(** Identifiers still to be handed out are not in use. *)
Definition fresh_ids (st : StorageConn.t) : Prop :=
  ∀ k, (StorageConn.next_id st ≤ k)%nat →
       (StorageConn.new_id k ∉ Domain.id <$> StorageConn.domains st) ∧
       (StorageConn.new_id k ∉ DnsRecord.id <$> StorageConn.records st).

Definition storage_ok (st : StorageConn.t) : Prop :=
  unique_ids st ∧ fresh_ids st.

(** An operation that leaves Storage well formed, however it ends. *)
Definition keeps_storage_ok {A} (m : M A) : Prop :=
  ∀ w, storage_ok (storage_conn w) → storage_ok (storage_conn (m w).2).

(** An exception that [except Exception, e] catches and whose [str(e)]
    returns. *)
Definition reportable (e : exn) : Prop :=
  derives_from_Exception e = true ∧ ∃ message, str e = Ok message.

(** The entry [ping] reports for one collaborator: its answer or, when it
    raised an exception that is caught, the failure with its text. *)
Definition entry_of (r : Res pyobj) (entry : pyobj) : Prop :=
  match r with
  | Ok v => entry = v
  | Raise e => ∃ message, str e = Ok message ∧ entry = failed_status message
  end.

(** What comes out of one [try] block of [ping]: the entry, or the
    exception that escapes it. *)
Definition status_of (r : Res pyobj) : Res pyobj :=
  match r with
  | Ok v => Ok v
  | Raise e =>
      if derives_from_Exception e then
        match str e with
        | Ok message => Ok (failed_status message)
        | Raise e' => Raise e'
        end
      else Raise e
  end.

(** The ancestor queried at offset [i] of the labels. *)
Definition ancestor (context : Ctx.t) (st : StorageConn.t)
    (labels : list string) (i : nat) : Res Domain.t :=
  StorageConn.find_domain context
    {[ "name" := VStr (join "." (drop i labels)) ]} st.

(** [found] is the first hit among the offsets [lo], ..., [hi - 1]. *)
Definition nearest (context : Ctx.t) (st : StorageConn.t)
    (labels : list string) (lo hi : nat) (found : option Domain.t) : Prop :=
  match found with
  | Some d =>
      ∃ i, lo ≤ i < hi ∧ ancestor context st labels i = Ok d ∧
           ∀ j, lo ≤ j < i → ancestor context st labels j = Raise DomainNotFound
  | None =>
      ∀ i, lo ≤ i < hi → ancestor context st labels i = Raise DomainNotFound
  end.

Definition create_target (context : Ctx.t) (name : string)
  : gmap string pyval :=
  {[ "tenant_id" := Ctx.tenant_id context; "domain_name" := VStr name ]}.

Definition domain_target (D : Domain.t) : gmap string pyval :=
  {[ "domain_id" := VStr (Domain.id D);
     "domain_name" := VStr (Domain.name D);
     "tenant_id" := Domain.tenant_id D ]}.

Definition create_record_target (D : Domain.t) (name : pyval)
  : gmap string pyval :=
  {[ "domain_id" := VStr (Domain.id D);
     "domain_name" := VStr (Domain.name D);
     "record_name" := name;
     "tenant_id" := Domain.tenant_id D ]}.

Definition record_target (D : Domain.t) (R : DnsRecord.t)
  : gmap string pyval :=
  {[ "domain_id" := VStr (Domain.id D);
     "domain_name" := VStr (Domain.name D);
     "record_id" := VStr (DnsRecord.id R);
     "tenant_id" := Domain.tenant_id D ]}.

Definition cross_tenant : exn :=
  Forbidden "Unable to create subdomain in another tenants domain".

Definition rename_rejected : exn :=
  BadRequest "Renaming a domain is not allowed".

Definition outside_zone : exn :=
  BadRequest "Records must be contained within their parent zone.".

Section Dispatched.
Context (et : string) (payload : pyobj).

(** The handlers that declare the event type, the call each one gets,
    and the world after a list of them was called. *)
Definition interested (h : Handler.t) : Prop :=
  et ∈ Handler.get_event_types h.

Global Instance interested_dec h : Decision (interested h).
Proof. unfold interested. apply _. Defined.

Definition call (h : Handler.t) : Event :=
  HandlerCall (Handler.get_canonical_name h) (OVal (VStr et)) payload.

Definition returns (h : Handler.t) : Prop :=
  Handler.process_notification h (OVal (VStr et)) payload = None.

Definition called (w : World) (hs : list Handler.t) : World :=
  mkWorld (storage_conn w) (trace w ++ (call <$> hs)).
End Dispatched.

Section Vocabulary.
Context (env : Env).

(** The pattern is a regular expression and the name matches it. *)
Definition matches (blacklist domain_name : string) : bool :=
  match re_search env blacklist with
  | Ok search => search domain_name
  | Raise _ => false
  end.

(** The pattern is a regular expression and the name does not match
    it. *)
Definition misses (blacklist domain_name : string) : bool :=
  match re_search env blacklist with
  | Ok search => negb (search domain_name)
  | Raise _ => false
  end.

(** Every configured pattern is a regular expression. *)
Definition valid_patterns : Prop :=
  ∀ blacklist, blacklist ∈ domain_name_blacklist env →
               ∃ search, re_search env blacklist = Ok search.

(** The first configured pattern that matches, if any, and what
    [_is_blacklisted_domain_name] returns for it. *)
Definition first_match (domain_name : string) : option string :=
  head (filter (λ blacklist, matches blacklist domain_name = true)
               (domain_name_blacklist env)).

Definition blacklisted (domain_name : string) : pyval :=
  match first_match domain_name with
  | Some blacklist => VStr blacklist
  | None => VBool false
  end.

(** The last steps of [create_domain]: the server check, the Storage
    write, the backend call and the notification. *)
Definition persist_domain (context : Ctx.t) (values : gmap string pyval)
  : M Domain.t :=
  servers ← storage_read (StorageConn.get_servers context);
  when (bool_decide (List.length servers = 0)) (raise NoServersConfigured);;
  domain ← storage_write (StorageConn.create_domain context values);
  backend_call env "create_domain" [EDomain domain];;
  notify context "api" "domain.create" (EDomain domain);;
  mret domain.

(** The policy checks of [update_domain]: the update itself and, when a
    tenant is supplied, leaving the old tenant and entering the new one. *)
Definition update_authorized (context : Ctx.t) (D : Domain.t)
    (values : gmap string pyval) : bool :=
  policy env "update_domain" context (domain_target D) &&
  match values !! "tenant_id" with
  | Some tenant_id =>
      policy env "delete_domain" context (domain_target D) &&
      policy env "create_domain" context
        {[ "domain_id" := VStr (Domain.id D); "tenant_id" := tenant_id ]}
  | None => true
  end.

(** After the Storage write of [record], which left Storage as [st]: the
    backend call and, when it returns, the notification. *)
Definition propagate (method event_type : string) (D : Domain.t)
    (record : DnsRecord.t) (st : StorageConn.t) (w : World)
  : Res DnsRecord.t * World :=
  let called :=
    (trace w ++ [BackendCall method [EDomain D; ERecord record]])%list in
  match backend env (trace w) method [EDomain D; ERecord record] with
  | None =>
      (Ok record,
       mkWorld st (called ++ [Notify "api" event_type (ERecord record)]))
  | Some e => (Raise e, mkWorld st called)
  end.
End Vocabulary.

(** ** The rest of the service *)

Module TsigKey.
(** Modelled from the spec: a TSIG key has an id, a name, an algorithm and
    a secret. *)
Record t := mk {
  id : string;
  name : pyval;
  algorithm : pyval;
  secret : pyval
}.

Definition to_dict (k : t) : gmap string pyval :=
  {[ "id" := VStr (id k); "name" := name k; "algorithm" := algorithm k;
     "secret" := secret k ]}.
End TsigKey.

Global Instance Server_eq_dec : EqDecision Server.t.
Proof. solve_decision. Defined.

Global Instance TsigKey_eq_dec : EqDecision TsigKey.t.
Proof. solve_decision. Defined.

(** What an operation of the whole service can raise: the exceptions met
    so far and the two other NotFound errors of Storage. *)
Inductive failure :=
| Error (e : exn)
| ServerNotFound
| TsigKeyNotFound.

Inductive Outcome (A : Type) :=
| Returned (a : A)
| Failed (f : failure).
Arguments Returned {A} a.
Arguments Failed {A} f.

Module StorageMore.
(** Modelled from the spec: the methods of the storage driver
    ([moniker.storage]) for domains and records that the operations above
    did not need, and those for servers and TSIG keys; the same contract
    of section 6. *)
Definition server_to_dict (s : Server.t) : gmap string pyval :=
  {[ "id" := VStr (Server.id s); "name" := VStr (Server.name s) ]}.

(** Modelled from the spec: the delete of the storage driver, which
    removes the row with that id and fails with DomainNotFound when there
    is none.  The spec does not say what it returns; the deleted row is
    taken as its result. *)
Definition delete_domain (context : Ctx.t) (domain_id : string)
    (st : StorageConn.t) : Res Domain.t * StorageConn.t :=
  match StorageConn.get_domain context domain_id st with
  | Ok d =>
      (Ok d,
       StorageConn.mk
         (filter (λ x, Domain.id x ≠ domain_id) (StorageConn.domains st))
         (StorageConn.records st) (StorageConn.servers st)
         (StorageConn.next_id st))
  | Raise e => (Raise e, st)
  end.

(** Modelled from the spec: the list lookup of records of the storage
    driver, the records of that domain that match the criterion, if one
    is given. *)
Definition get_records (context : Ctx.t) (domain_id : string)
    (criterion : option (gmap string pyval)) (st : StorageConn.t)
  : Res (list DnsRecord.t) :=
  Ok (filter (λ r, DnsRecord.domain_id r = domain_id ∧
                   default ∅ criterion ⊆ DnsRecord.to_dict r)
             (StorageConn.records st)).

(** Modelled from the spec: the list lookup of servers of the storage
    driver with a criterion. *)
Definition get_servers (context : Ctx.t)
    (criterion : option (gmap string pyval)) (st : StorageConn.t)
  : Res (list Server.t) :=
  Ok (filter (λ s, default ∅ criterion ⊆ server_to_dict s)
             (StorageConn.servers st)).

(** Modelled from the spec: the single-item lookup of a server by id of
    the storage driver, which fails with ServerNotFound when no row
    matches. *)
Definition get_server (context : Ctx.t) (server_id : string)
    (st : StorageConn.t) : Outcome Server.t :=
  match filter (λ s, Server.id s = server_id) (StorageConn.servers st) with
  | s :: _ => Returned s
  | [] => Failed ServerNotFound
  end.

(** Modelled from the spec: the insert of a server of the storage driver;
    the name must be a string and the row gets a new id. *)
Definition create_server (context : Ctx.t) (values : gmap string pyval)
    (st : StorageConn.t) : Outcome Server.t * StorageConn.t :=
  match values !! "name" with
  | Some (VStr name) =>
      let server := Server.mk (StorageConn.new_id (StorageConn.next_id st))
                              name in
      (Returned server,
       StorageConn.mk (StorageConn.domains st) (StorageConn.records st)
         (StorageConn.servers st ++ [server]) (S (StorageConn.next_id st)))
  | _ => (Failed (Error (Exception "invalid server values")), st)
  end.

(** Modelled from the spec: the update of a server of the storage driver,
    the supplied name replacing the stored one. *)
Definition update_server (context : Ctx.t) (server_id : string)
    (values : gmap string pyval) (st : StorageConn.t)
  : Outcome Server.t * StorageConn.t :=
  match get_server context server_id st with
  | Returned s =>
      let s' := Server.mk (Server.id s)
                  (match values !! "name" with
                   | Some (VStr name) => name
                   | _ => Server.name s
                   end) in
      (Returned s',
       StorageConn.mk (StorageConn.domains st) (StorageConn.records st)
         ((λ x, if bool_decide (Server.id x = server_id) then s' else x)
            <$> StorageConn.servers st)
         (StorageConn.next_id st))
  | Failed f => (Failed f, st)
  end.

(** Modelled from the spec: the delete of a server of the storage driver,
    which removes the row with that id and fails with ServerNotFound when
    there is none.  The spec does not say what it returns; the deleted
    row is taken as its result. *)
Definition delete_server (context : Ctx.t) (server_id : string)
    (st : StorageConn.t) : Outcome Server.t * StorageConn.t :=
  match get_server context server_id st with
  | Returned s =>
      (Returned s,
       StorageConn.mk (StorageConn.domains st) (StorageConn.records st)
         (filter (λ x, Server.id x ≠ server_id) (StorageConn.servers st))
         (StorageConn.next_id st))
  | Failed f => (Failed f, st)
  end.

(** Modelled from the spec: the table of TSIG keys of the storage driver,
    with the same five methods; identifiers come from the same supply. *)
Definition get_tsigkeys (context : Ctx.t)
    (criterion : option (gmap string pyval)) (keys : list TsigKey.t)
  : list TsigKey.t :=
  filter (λ k, default ∅ criterion ⊆ TsigKey.to_dict k) keys.

(** Modelled from the spec: the single-item lookup of a TSIG key by id,
    which fails with TsigKeyNotFound when no row matches. *)
Definition get_tsigkey (context : Ctx.t) (tsigkey_id : string)
    (keys : list TsigKey.t) : Outcome TsigKey.t :=
  match filter (λ k, TsigKey.id k = tsigkey_id) keys with
  | k :: _ => Returned k
  | [] => Failed TsigKeyNotFound
  end.

(** Modelled from the spec: the insert of a TSIG key, the row getting the
    identifier [id] and the supplied columns. *)
Definition create_tsigkey (context : Ctx.t) (values : gmap string pyval)
    (id : string) (keys : list TsigKey.t) : TsigKey.t * list TsigKey.t :=
  let key := TsigKey.mk id (StorageConn.col values "name")
               (StorageConn.col values "algorithm")
               (StorageConn.col values "secret") in
  (key, (keys ++ [key])%list).

(** Modelled from the spec: the TSIG key after an update, the supplied
    columns replacing the stored ones. *)
Definition updated_tsigkey (k : TsigKey.t) (values : gmap string pyval)
  : TsigKey.t :=
  TsigKey.mk (TsigKey.id k)
    (default (TsigKey.name k) (values !! "name"))
    (default (TsigKey.algorithm k) (values !! "algorithm"))
    (default (TsigKey.secret k) (values !! "secret")).

(** Modelled from the spec: the update of the TSIG key with that id. *)
Definition update_tsigkey (context : Ctx.t) (tsigkey_id : string)
    (values : gmap string pyval) (keys : list TsigKey.t)
  : Outcome TsigKey.t * list TsigKey.t :=
  match get_tsigkey context tsigkey_id keys with
  | Returned k =>
      let k' := updated_tsigkey k values in
      (Returned k',
       (λ x, if bool_decide (TsigKey.id x = tsigkey_id) then k' else x)
         <$> keys)
  | Failed f => (Failed f, keys)
  end.

(** Modelled from the spec: the delete of the TSIG key with that id,
    which fails with TsigKeyNotFound when there is none.  The spec does
    not say what it returns; the deleted row is taken as its result. *)
Definition delete_tsigkey (context : Ctx.t) (tsigkey_id : string)
    (keys : list TsigKey.t) : Outcome TsigKey.t * list TsigKey.t :=
  match get_tsigkey context tsigkey_id keys with
  | Returned k =>
      (Returned k, filter (λ x, TsigKey.id x ≠ tsigkey_id) keys)
  | Failed f => (Failed f, keys)
  end.
End StorageMore.

(** *** Domain and record methods *)

Section ServiceDomains.
Context (env : Env).

Definition get_domain (context : Ctx.t) (domain_id : string) : M Domain.t :=
  domain ← storage_read (StorageConn.get_domain context domain_id);
  let target : gmap string pyval :=
    {[ "domain_id" := VStr domain_id;
       "domain_name" := VStr (Domain.name domain);
       "tenant_id" := Domain.tenant_id domain ]} in
  policy_check env "get_domain" context target;;
  mret domain.

Definition delete_domain (context : Ctx.t) (domain_id : string)
  : M Domain.t :=
  domain ← storage_read (StorageConn.get_domain context domain_id);
  let target : gmap string pyval :=
    {[ "domain_id" := VStr domain_id;
       "domain_name" := VStr (Domain.name domain);
       "tenant_id" := Domain.tenant_id domain ]} in
  policy_check env "delete_domain" context target;;
  backend_call env "delete_domain" [EDomain domain];;
  notify context "api" "domain.delete" (EDomain domain);;
  storage_write (StorageMore.delete_domain context domain_id).

Definition get_records (context : Ctx.t) (domain_id : string)
    (criterion : option (gmap string pyval)) : M (list DnsRecord.t) :=
  domain ← storage_read (StorageConn.get_domain context domain_id);
  let target : gmap string pyval :=
    {[ "domain_id" := VStr domain_id;
       "domain_name" := VStr (Domain.name domain);
       "tenant_id" := Domain.tenant_id domain ]} in
  policy_check env "get_records" context target;;
  storage_read (StorageMore.get_records context domain_id criterion).
End ServiceDomains.

(** *** The whole service object *)

(** Anything handed to the backend driver or to [utils.notify]. *)
Inductive Resource :=
| RDomain (d : Domain.t)
| RRecord (r : DnsRecord.t)
| RRecords (rs : list DnsRecord.t)
| RServer (s : Server.t)
| RServers (ss : list Server.t)
| RTsigKey (k : TsigKey.t).

(** What the operations below do besides touching Storage: calls to the
    backend driver, notifications, calls to the parent class
    [rpc_service.Service] and calls on the connection [self.rpc_conn]. *)
Inductive Action :=
| DriverCall (method : string) (args : list Resource)
| Notification (service event_type : string) (payload : Resource)
| SuperCall (method : string)
| CreateConnection
| DeclareTopicConsumer (queue_name topic exchange_name : string)
| ConsumeInThreadGroup
| CloseConnection.

Record Central := mkCentral {
  (** Storage, and the trace of the operations above *)
  world : World;
  (** the TSIG keys in Storage *)
  tsigkeys : list TsigKey.t;
  (** whether [self.rpc_conn] was set *)
  rpc_conn : bool;
  journal : list Action
}.

Definition N (A : Type) : Type := Central → Outcome A * Central.

Global Instance N_ret : MRet N := λ A a c, (Returned a, c).

Global Instance N_bind : MBind N := λ A B f m c,
  match m c with
  | (Returned a, c') => f a c'
  | (Failed e, c') => (Failed e, c')
  end.

Definition fail {A} (f : failure) : N A := λ c, (Failed f, c).

(** Whether [except Exception] catches the failure. *)
Definition caught (f : failure) : bool :=
  match f with
  | Error e => derives_from_Exception e
  | ServerNotFound | TsigKeyNotFound => true
  end.

(** [try: m  except Exception: h]: a failure of a class that does not
    derive from [Exception] is not caught. *)
Definition attempt {A} (m : N A) (h : failure → N A) : N A := λ c,
  match m c with
  | (Returned a, c') => (Returned a, c')
  | (Failed f, c') => if caught f then h f c' else (Failed f, c')
  end.

(** An operation of the first part, run on the world inside. *)
Definition old {A} (m : M A) : N A := λ c,
  let '(r, w) := m (world c) in
  (match r with Ok a => Returned a | Raise e => Failed (Error e) end,
   mkCentral w (tsigkeys c) (rpc_conn c) (journal c)).

Definition read_storage {A} (f : StorageConn.t → Outcome A) : N A := λ c,
  (f (storage_conn (world c)), c).

Definition with_storage {A}
    (f : StorageConn.t → Outcome A * StorageConn.t) : N A := λ c,
  let '(r, st) := f (storage_conn (world c)) in
  (r, mkCentral (mkWorld st (trace (world c))) (tsigkeys c) (rpc_conn c)
        (journal c)).

Definition with_tsigkeys {A}
    (f : list TsigKey.t → Outcome A * list TsigKey.t) : N A := λ c,
  let '(r, keys) := f (tsigkeys c) in
  (r, mkCentral (world c) keys (rpc_conn c) (journal c)).

Definition record_action (a : Action) : N unit := λ c,
  (Returned (),
   mkCentral (world c) (tsigkeys c) (rpc_conn c) (journal c ++ [a])).

(** [for x in l: body x] *)
Fixpoint for_all {A} (l : list A) (body : A → N unit) : N unit :=
  match l with
  | [] => mret ()
  | x :: l' => body x;; for_all l' body
  end.

Record Deployment := mkDeployment {
  (** the collaborators and the configuration of the first part *)
  central_env : Env;
  (** the backend driver, for the methods that take a TSIG key or whose
      result is used, and for [start] and [stop]: given the actions so
      far, what the method returns or raises *)
  driver : list Action → string → list Resource → Res pyobj;
  (** [handler.get_exchange_topics()]: the exchange and its topics *)
  get_exchange_topics : Handler.t → string * list string;
  (** [rpc_service.Service.start] and [.stop]: return or raise *)
  service_super : string → option exn;
  (** the methods of [self.rpc_conn]: return or raise *)
  rpc : Action → option exn
}.

Section Whole.
Context (dep : Deployment).

Definition check (rule : string) (context : Ctx.t)
    (target : gmap string pyval) : N unit :=
  old (policy_check (central_env dep) rule context target).

(** [self.backend.<method>(...)], the call being made and the driver
    returning a value or raising. *)
Definition driver_call (method : string) (args : list Resource) : N pyobj :=
  λ c,
    let c' := mkCentral (world c) (tsigkeys c) (rpc_conn c)
                (journal c ++ [DriverCall method args]) in
    match driver dep (journal c) method args with
    | Ok v => (Returned v, c')
    | Raise e => (Failed (Error e), c')
    end.

(** [utils.notify(context, service, event_type, payload)] *)
Definition announce (context : Ctx.t) (service event_type : string)
    (payload : Resource) : N unit :=
  record_action (Notification service event_type payload).

(** [super(Service, self).<method>()] *)
Definition super_call (method : string) : N unit := λ c,
  let c' := mkCentral (world c) (tsigkeys c) (rpc_conn c)
              (journal c ++ [SuperCall method]) in
  match service_super dep method with
  | None => (Returned (), c')
  | Some e => (Failed (Error e), c')
  end.

(** [self.rpc_conn.<method>(...)]: the attribute exists only if
    [__init__] set it. *)
Definition rpc_call (a : Action) : N unit := λ c,
  if rpc_conn c then
    let c' := mkCentral (world c) (tsigkeys c) (rpc_conn c)
                (journal c ++ [a]) in
    match rpc dep a with
    | None => (Returned (), c')
    | Some e => (Failed (Error e), c')
    end
  else (Failed (Error (AttributeError
                         "'Service' object has no attribute 'rpc_conn'")), c).

(** A new identifier from Storage's supply. *)
Definition next_identifier : N string := λ c,
  let st := storage_conn (world c) in
  (Returned (StorageConn.new_id (StorageConn.next_id st)),
   mkCentral
     (mkWorld (StorageConn.mk (StorageConn.domains st) (StorageConn.records st)
                 (StorageConn.servers st) (S (StorageConn.next_id st)))
              (trace (world c)))
     (tsigkeys c) (rpc_conn c) (journal c)).

(** *** Lifecycle *)

(** The end of [__init__]: the connection is created only if there are
    handlers.  The lines before it build the collaborators, which are the
    parameters here, and [self.handlers], which is [handlers]. *)
Definition __init__ : N unit := λ c,
  if bool_decide (handlers (central_env dep) ≠ [])
  then (Returned (),
        mkCentral (world c) (tsigkeys c) true (journal c ++ [CreateConnection]))
  else (Returned (), c).

Definition _setup_subscriptions : N unit :=
  for_all (handlers (central_env dep)) (λ handler,
    let '(exchange, topics) := get_exchange_topics dep handler in
    for_all topics (λ topic,
      let queue_name :=
        "moniker.notifications." +:+ Handler.get_canonical_name handler
          +:+ "." +:+ exchange +:+ "." +:+ topic in
      rpc_call (DeclareTopicConsumer queue_name topic exchange))).

Definition start : N unit :=
  driver_call "start" [];;
  super_call "start";;
  if bool_decide (handlers (central_env dep) ≠ [])
  then _setup_subscriptions;; rpc_call ConsumeInThreadGroup
  else mret ().

Definition stop : N unit :=
  (if bool_decide (handlers (central_env dep) ≠ [])
   then attempt (rpc_call CloseConnection) (λ _, mret ())
   else mret ());;
  super_call "stop";;
  driver_call "stop" [];;
  mret ().

(** *** Server methods *)

Definition create_server (context : Ctx.t) (values : gmap string pyval)
  : N Server.t :=
  check "create_server" context ∅;;
  server ← with_storage (StorageMore.create_server context values);
  announce context "api" "server.create" (RServer server);;
  mret server.

Definition get_servers (context : Ctx.t)
    (criterion : option (gmap string pyval)) : N (list Server.t) :=
  check "get_servers" context ∅;;
  old (storage_read (StorageMore.get_servers context criterion)).

Definition get_server (context : Ctx.t) (server_id : string) : N Server.t :=
  check "get_server" context {[ "server_id" := VStr server_id ]};;
  read_storage (StorageMore.get_server context server_id).

Definition update_server (context : Ctx.t) (server_id : string)
    (values : gmap string pyval) : N Server.t :=
  check "update_server" context {[ "server_id" := VStr server_id ]};;
  server ← with_storage (StorageMore.update_server context server_id values);
  announce context "api" "server.update" (RServer server);;
  mret server.

Definition delete_server (context : Ctx.t) (server_id : string)
  : N Server.t :=
  check "delete_server" context {[ "server_id" := VStr server_id ]};;
  server ← read_storage (StorageMore.get_server context server_id);
  announce context "api" "server.delete" (RServer server);;
  with_storage (StorageMore.delete_server context server_id).

(** *** TSIG key methods *)

Definition create_tsigkey (context : Ctx.t) (values : gmap string pyval)
  : N TsigKey.t :=
  check "create_tsigkey" context ∅;;
  tsigkey ← (id ← next_identifier;
             with_tsigkeys (λ keys,
               let '(key, keys) :=
                 StorageMore.create_tsigkey context values id keys in
               (Returned key, keys)));
  driver_call "create_tsigkey" [RTsigKey tsigkey];;
  announce context "api" "tsigkey.create" (RTsigKey tsigkey);;
  mret tsigkey.

Definition get_tsigkeys (context : Ctx.t)
    (criterion : option (gmap string pyval)) : N (list TsigKey.t) :=
  check "get_tsigkeys" context ∅;;
  with_tsigkeys (λ keys,
    (Returned (StorageMore.get_tsigkeys context criterion keys), keys)).

Definition get_tsigkey (context : Ctx.t) (tsigkey_id : string)
  : N TsigKey.t :=
  check "get_tsigkey" context {[ "tsigkey_id" := VStr tsigkey_id ]};;
  with_tsigkeys (λ keys,
    (StorageMore.get_tsigkey context tsigkey_id keys, keys)).

Definition update_tsigkey (context : Ctx.t) (tsigkey_id : string)
    (values : gmap string pyval) : N TsigKey.t :=
  check "update_tsigkey" context {[ "tsigkey_id" := VStr tsigkey_id ]};;
  tsigkey ← with_tsigkeys
              (StorageMore.update_tsigkey context tsigkey_id values);
  driver_call "update_tsigkey" [RTsigKey tsigkey];;
  announce context "api" "tsigkey.update" (RTsigKey tsigkey);;
  mret tsigkey.

Definition delete_tsigkey (context : Ctx.t) (tsigkey_id : string)
  : N TsigKey.t :=
  check "delete_tsigkey" context {[ "tsigkey_id" := VStr tsigkey_id ]};;
  tsigkey ← with_tsigkeys (λ keys,
              (StorageMore.get_tsigkey context tsigkey_id keys, keys));
  driver_call "delete_tsigkey" [RTsigKey tsigkey];;
  announce context "api" "tsigkey.delete" (RTsigKey tsigkey);;
  with_tsigkeys (StorageMore.delete_tsigkey context tsigkey_id).

(** *** Diagnostics *)

(** The loop of [sync_all], with the results so far. *)
Fixpoint sync_all_loop (context : Ctx.t) (domains : list Domain.t)
    (results : gmap string pyobj) : N (gmap string pyobj) :=
  match domains with
  | [] => mret results
  | domain :: domains =>
      servers ← old (storage_read (StorageConn.get_servers context));
      records ← old (storage_read
                       (StorageMore.get_records context (Domain.id domain)
                          None));
      result ← driver_call "sync_domain"
                 [RDomain domain; RRecords records; RServers servers];
      sync_all_loop context domains (<[Domain.id domain := result]> results)
  end.

Definition sync_all (context : Ctx.t) : N (gmap string pyobj) :=
  check "diagnostics_sync_all" context ∅;;
  domains ← old (storage_read (StorageConn.get_domains context ∅));
  sync_all_loop context domains ∅.

Definition sync_domain (context : Ctx.t) (domain_id : string) : N pyobj :=
  domain ← old (storage_read (StorageConn.get_domain context domain_id));
  let target : gmap string pyval :=
    {[ "domain_id" := VStr domain_id;
       "domain_name" := VStr (Domain.name domain);
       "tenant_id" := Domain.tenant_id domain ]} in
  check "diagnostics_sync_domain" context target;;
  records ← old (storage_read
                   (StorageMore.get_records context domain_id None));
  driver_call "sync_domain" [RDomain domain; RRecords records].

Definition sync_record (context : Ctx.t) (domain_id record_id : string)
  : N pyobj :=
  domain ← old (storage_read (StorageConn.get_domain context domain_id));
  let target : gmap string pyval :=
    {[ "domain_id" := VStr domain_id;
       "domain_name" := VStr (Domain.name domain);
       "record_id" := VStr record_id;
       "tenant_id" := Domain.tenant_id domain ]} in
  check "diagnostics_sync_record" context target;;
  record ← old (storage_read (StorageConn.get_record context record_id));
  driver_call "sync_record" [RDomain domain; RRecord record].
End Whole.

(** *** Vocabulary of the properties of the rest of the service *)

(** [d] is a stored ancestor of [name]: its name follows a dot in
    [name]. *)
Definition is_ancestor (st : StorageConn.t) (name : string) (d : Domain.t)
  : Prop :=
  d ∈ StorageConn.domains st ∧
  ∃ prefix, name = prefix +:+ "." +:+ Domain.name d.

(** A name one label below [name]. *)
Definition child_of (name child : string) : Prop :=
  ∃ label, split "." label = [label] ∧ child = label +:+ "." +:+ name.

(** The values [create_domain] hands to Storage: the caller's, with the
    caller's tenant and, if an ancestor was found, its id as parent. *)
Definition stored_values (context : Ctx.t) (values : gmap string pyval)
    (found : option Domain.t) : gmap string pyval :=
  let values := <["tenant_id" := Ctx.tenant_id context]> values in
  match found with
  | Some parent_domain =>
      <["parent_domain_id" := VStr (Domain.id parent_domain)]> values
  | None => values
  end.

(** The state after more actions. *)
Definition journaled (c : Central) (actions : list Action) : Central :=
  mkCentral (world c) (tsigkeys c) (rpc_conn c) (journal c ++ actions).

(** The state with another Storage. *)
Definition stored (c : Central) (st : StorageConn.t) : Central :=
  mkCentral (mkWorld st (trace (world c))) (tsigkeys c) (rpc_conn c)
            (journal c).

(** The state with other TSIG keys. *)
Definition keyed (c : Central) (keys : list TsigKey.t) : Central :=
  mkCentral (world c) keys (rpc_conn c) (journal c).

(** The records of a domain, as [sync_domain] and [sync_all] hand them to
    the driver. *)
Definition records_of (st : StorageConn.t) (d : Domain.t)
  : list DnsRecord.t :=
  filter (λ r, DnsRecord.domain_id r = Domain.id d) (StorageConn.records st).

(** The call [sync_all] makes for one domain. *)
Definition sync_call (st : StorageConn.t) (d : Domain.t) : Action :=
  DriverCall "sync_domain"
    [RDomain d; RRecords (records_of st d); RServers (StorageConn.servers st)].

(** An operation that leaves the trace of backend calls and the TSIG keys
    alone and adds nothing to the journal but notifications about
    servers. *)
Definition only_announces_servers {A} (m : N A) : Prop :=
  ∀ c, trace (world (m c).2) = trace (world c) ∧
       tsigkeys (m c).2 = tsigkeys c ∧
       ∀ a, a ∈ journal (m c).2 →
            a ∈ journal c ∨ ∃ et s, a = Notification "api" et (RServer s).

(** The name of the queue of a handler for a topic of an exchange. *)
Definition queue_name (handler exchange topic : string) : string :=
  "moniker.notifications." +:+ handler +:+ "." +:+ exchange +:+ "." +:+ topic.

(** The consumers a handler asks for, one per topic of its exchange. *)
Definition subscriptions_of (dep : Deployment) (handler : Handler.t)
  : list Action :=
  (λ topic,
     DeclareTopicConsumer
       (queue_name (Handler.get_canonical_name handler)
                   (get_exchange_topics dep handler).1 topic)
       topic (get_exchange_topics dep handler).1)
  <$> (get_exchange_topics dep handler).2.

(** The consumers of all handlers, in registration order. *)
Definition subscriptions (dep : Deployment) : list Action :=
  List.concat (subscriptions_of dep <$> handlers (central_env dep)).

(** A caller the policy refuses everything. *)
Definition refused (env : Env) (context : Ctx.t) : Prop :=
  ∀ rule target, policy env rule context target = false.

(** An operation that raises and leaves the world as it was. *)
Definition rejected {A} (m : M A) (w : World) : Prop :=
  ∃ e, m w = (Raise e, w).

(** ** A small deployment to evaluate the service on *)

Module Example.
(** A pattern without metacharacters matches where it occurs; the empty
    pattern matches every name. *)
Fixpoint contains (pattern s : string) : bool :=
  if String.prefix pattern s then true
  else match s with
       | EmptyString => false
       | String _ s' => contains pattern s'
       end.

(** [re.search] for such patterns; a lone parenthesis is not a regular
    expression. *)
Definition search (pattern : string) : Res (string → bool) :=
  if String.eqb pattern "(" then Raise (Exception "unbalanced parenthesis")
  else Ok (contains pattern).

Definition allow_all : string → Ctx.t → gmap string pyval → bool :=
  λ _ _ _, true.
Definition deny_all : string → Ctx.t → gmap string pyval → bool :=
  λ _ _ _, false.
Definition all_but (denied : string)
  : string → Ctx.t → gmap string pyval → bool :=
  λ rule _ _, negb (String.eqb rule denied).

Definition healthy : Ctx.t → Res pyobj :=
  λ _, Ok (ODict {[ "status" := VBool true ]}).
Definition unreachable : Ctx.t → Res pyobj :=
  λ _, Raise (Exception "connection refused").
(** [eventlet.Timeout] derives from [BaseException]. *)
Definition timeout : exn := Foreign "Timeout" false (Some "30 seconds").
Definition timed_out : Ctx.t → Res pyobj := λ _, Raise timeout.
Definition quiet : list Event → string → list Entity → option exn :=
  λ _ _ _, None.

Definition nova : Handler.t :=
  Handler.mk "nova_fixed"
    ["compute.instance.create.end"; "compute.instance.delete.start"]
    (λ _ _, None).
Definition quantum : Handler.t :=
  Handler.mk "quantum_floatingip" ["floatingip.update.end"] (λ _ _, None).
Definition broken : Handler.t :=
  Handler.mk "broken" ["compute.instance.create.end"]
    (λ _ _, Some (Exception "handler failed")).

Definition env_open : Env :=
  mkEnv allow_all ["arpa"] search "central-1" quiet healthy healthy
        [nova; quantum].
Definition env_closed : Env :=
  mkEnv deny_all ["arpa"] search "central-1" quiet healthy healthy [].
Definition env_backend_down : Env :=
  mkEnv allow_all [] search "central-1" quiet unreachable healthy [].
Definition env_backend_timeout : Env :=
  mkEnv allow_all [] search "central-1" quiet timed_out healthy [].
Definition env_bad_pattern : Env :=
  mkEnv allow_all ["("] search "central-1" quiet healthy healthy [].
Definition env_blank_pattern : Env :=
  mkEnv (all_but "use_blacklisted_domain") [""] search "central-1" quiet
        healthy healthy [].
Definition env_broken_handler : Env :=
  mkEnv allow_all [] search "central-1" quiet healthy healthy
        [broken; nova].

Definition tenant_a : Ctx.t := Ctx.mk (VStr "tenant-a") false.
Definition tenant_b : Ctx.t := Ctx.mk (VStr "tenant-b") false.
Definition admin : Ctx.t := Ctx.mk VNone true.

Definition example_com : Domain.t :=
  Domain.mk "d1" "example.com." (VStr "root@example.com")
            (VStr "tenant-a") VNone.
Definition other_org : Domain.t :=
  Domain.mk "d2" "other.org." (VStr "root@other.org")
            (VStr "tenant-b") VNone.
Definition www : DnsRecord.t :=
  DnsRecord.mk "r1" "d1" "www.example.com." (VStr "A") (VStr "192.0.2.1")
               VNone.
Definition mail : DnsRecord.t :=
  DnsRecord.mk "r2" "d2" "mail.other.org." (VStr "A") (VStr "192.0.2.2")
               VNone.
Definition ns1 : Server.t := Server.mk "s1" "ns1.example.org.".

Definition store : StorageConn.t :=
  StorageConn.mk [example_com; other_org] [www; mail] [ns1] 0.
Definition store_without_servers : StorageConn.t :=
  StorageConn.mk [example_com; other_org] [www; mail] [] 0.

Definition world : World := mkWorld store [].
Definition world_without_servers : World := mkWorld store_without_servers [].

Definition instance_created : gmap string pyobj :=
  {[ "event_type" := OVal (VStr "compute.instance.create.end");
     "payload" := ODict {[ "instance_id" := VStr "i-1" ]} ]}.

(** A domain and a record created on the example, and the worlds after
    their creation. *)
Definition example_net : Domain.t :=
  Domain.mk "id-0" "example.net." VNone (VStr "tenant-a") VNone.
Definition world_with_example_net : World :=
  mkWorld
    (StorageConn.mk [example_com; other_org; example_net] [www; mail] [ns1] 1)
    [BackendCall "create_domain" [EDomain example_net];
     Notify "api" "domain.create" (EDomain example_net)].
Definition ftp : DnsRecord.t :=
  DnsRecord.mk "id-0" "d1" "ftp.example.com." VNone VNone VNone.
Definition world_with_ftp : World :=
  mkWorld
    (StorageConn.mk [example_com; other_org] [www; mail; ftp] [ns1] 1)
    [BackendCall "create_record" [EDomain example_com; ERecord ftp];
     Notify "api" "record.create" (ERecord ftp)].

(** The rest of the deployment: a backend driver that answers every call,
    the exchanges and topics of the two handlers, a parent service and a
    connection that do not fail. *)
Definition answering : list Action → string → list Resource → Res pyobj :=
  λ _ _ _, Ok (OVal VNone).
Definition exchange_topics (h : Handler.t) : string * list string :=
  if String.eqb (Handler.get_canonical_name h) "nova_fixed"
  then ("nova", ["monitor.info"; "monitor.error"])
  else ("quantum", ["monitor.info"]).
Definition site : Deployment :=
  mkDeployment env_open answering exchange_topics (λ _, None) (λ _, None).
(** The same deployment with a connection whose [close] times out. *)
Definition site_closing_timeout : Deployment :=
  mkDeployment env_open answering exchange_topics (λ _, None)
    (λ a, match a with CloseConnection => Some timeout | _ => None end).
Definition closed_site : Deployment :=
  mkDeployment env_closed answering exchange_topics (λ _, None) (λ _, None).

(** A TSIG key, and the service before and after [__init__]. *)
Definition transfer : TsigKey.t :=
  TsigKey.mk "k1" (VStr "transfer") (VStr "hmac-md5") (VStr "c2VjcmV0").
Definition updates : TsigKey.t :=
  TsigKey.mk "id-0" (VStr "updates") (VStr "hmac-sha256") VNone.
Definition central : Central := mkCentral world [transfer] false [].
Definition connected : Central :=
  mkCentral world [transfer] true [CreateConnection].
End Example.

(** ** General facts *)

(** *** Strings and Python equality *)

Lemma endswith_unfold s t :
  endswith s t =
  if String.eqb s t then true
  else match s with EmptyString => false | String _ s' => endswith s' t end.
Proof. by destruct s. Qed.

Lemma endswith_refl s : endswith s s = true.
Proof. rewrite endswith_unfold. by rewrite String.eqb_refl. Qed.

Lemma endswith_spec s t : endswith s t = true ↔ ∃ p, s = p +:+ t.
Proof.
  split.
  - induction s as [|c s IH]; rewrite endswith_unfold.
    + destruct (String.eqb_spec "" t) as [<-|]; [|done]. by exists "".
    + destruct (String.eqb_spec (String c s) t) as [->|Hne].
      * by exists "".
      * intros [p ->]%IH. by exists (String c p).
  - intros [p ->]. induction p as [|c p IH].
    + apply endswith_refl.
    + rewrite endswith_unfold.
      by destruct (String.eqb (String c p +:+ t) t).
Qed.

Example split_fqdn :
  split "." "a.b.example.com." = ["a"; "b"; "example"; "com"; ""].
Proof. reflexivity. Qed.

Example split_no_dot : split "." "localhost" = ["localhost"].
Proof. reflexivity. Qed.

Example split_empty : split "." "" = [""].
Proof. reflexivity. Qed.

Example join_labels_from_2 :
  join "." (drop 2 (split "." "a.b.example.com.")) = "example.com.".
Proof. reflexivity. Qed.

Example endswith_inside : endswith "www.example.com." "example.com." = true.
Proof. reflexivity. Qed.

Example endswith_outside : endswith "www.other.com." "example.com." = false.
Proof. reflexivity. Qed.

Example endswith_nothing : endswith "www.example.com." "" = true.
Proof. reflexivity. Qed.

(** The status built for a collaborator that raised is a dictionary with
    two entries, and so a true value. *)
Lemma failed_status_truthy e : truthy (failed_status e) = true.
Proof.
  unfold failed_status, truthy. rewrite bool_decide_eq_false_2; [done|].
  apply insert_non_empty.
Qed.

Lemma py_eq_refl v : py_eq v v = true.
Proof. destruct v; by apply bool_decide_eq_true_2. Qed.

Lemma py_eq_str v s : py_eq v (VStr s) = false ↔ v ≠ VStr s.
Proof.
  assert (py_eq v (VStr s) = bool_decide (v = VStr s)) as -> by by destruct v.
  apply bool_decide_eq_false.
Qed.

(** *** Storage lookups *)

Lemma domain_id_criterion i d :
  ({[ "id" := VStr i ]} : gmap string pyval) ⊆ Domain.to_dict d ↔ Domain.id d = i.
Proof.
  rewrite map_singleton_subseteq_l. unfold Domain.to_dict.
  rewrite lookup_insert_eq. split; [by intros [= ->]|by intros ->].
Qed.

Lemma record_id_criterion i r :
  ({[ "id" := VStr i ]} : gmap string pyval) ⊆ DnsRecord.to_dict r ↔ DnsRecord.id r = i.
Proof.
  rewrite map_singleton_subseteq_l. unfold DnsRecord.to_dict.
  rewrite lookup_insert_eq. split; [by intros [= ->]|by intros ->].
Qed.

Lemma filter_none {A} (P : A → Prop) `{∀ x, Decision (P x)} (l : list A) :
  (∀ y, y ∈ l → ¬ P y) → filter P l = [].
Proof.
  induction l as [|y l IH]; intros Hl; [done|].
  rewrite filter_cons_False by (apply Hl; left).
  apply IH. intros z Hz. apply Hl. by right.
Qed.

Lemma filter_unique_key {A} (key : A → string) (P : A → Prop)
    `{∀ x, Decision (P x)} (l : list A) (x : A) :
  (∀ y, P y ↔ key y = key x) →
  NoDup (key <$> l) → x ∈ l → filter P l = [x].
Proof.
  intros HP. induction l as [|y l IH]; intros Hnd Hin.
  - by apply elem_of_nil in Hin.
  - rewrite fmap_cons in Hnd. apply NoDup_cons in Hnd as [Hy Hnd].
    apply elem_of_cons in Hin as [<-|Hin].
    + rewrite filter_cons_True by by apply HP.
      f_equal. apply filter_none. intros z Hz Pz. apply Hy.
      apply HP in Pz. rewrite <- Pz. by apply list_elem_of_fmap_2.
    + rewrite filter_cons_False; [by apply IH|].
      intros Py. apply HP in Py. apply Hy. rewrite Py.
      by apply list_elem_of_fmap_2.
Qed.

Lemma get_domain_stored context st d :
  unique_ids st → d ∈ StorageConn.domains st →
  StorageConn.get_domain context (Domain.id d) st = Ok d.
Proof.
  intros [Hnd _] Hin. unfold StorageConn.get_domain, StorageConn.find_domain,
    StorageConn.find_domains.
  rewrite (filter_unique_key Domain.id _ _ d); [done| |done..].
  intros y. apply domain_id_criterion.
Qed.

Lemma get_record_stored context st r :
  unique_ids st → r ∈ StorageConn.records st →
  StorageConn.get_record context (DnsRecord.id r) st = Ok r.
Proof.
  intros [_ Hnd] Hin. unfold StorageConn.get_record, StorageConn.find_records.
  rewrite (filter_unique_key DnsRecord.id _ _ r); [done| |done..].
  intros y. apply record_id_criterion.
Qed.

Lemma domain_tenant_criterion (criterion : gmap string pyval) tenant d :
  criterion !! "tenant_id" = Some tenant →
  criterion ⊆ Domain.to_dict d →
  Domain.tenant_id d = tenant.
Proof.
  intros Ht Hsub. eapply lookup_weaken in Ht; [|done].
  unfold Domain.to_dict in Ht. by simplify_map_eq.
Qed.

Lemma find_domain_cases context criterion st :
  (∃ d, StorageConn.find_domain context criterion st = Ok d) ∨
  StorageConn.find_domain context criterion st = Raise DomainNotFound.
Proof.
  unfold StorageConn.find_domain.
  destruct (StorageConn.find_domains criterion st); eauto.
Qed.

Lemma storage_create_domain_ok context values st d st' :
  StorageConn.create_domain context values st = (Ok d, st') →
  Domain.parent_domain_id d = StorageConn.col values "parent_domain_id" ∧
  Domain.tenant_id d = StorageConn.col values "tenant_id" ∧
  values !! "name" = Some (VStr (Domain.name d)) ∧
  StorageConn.domains st' = (StorageConn.domains st ++ [d])%list.
Proof.
  unfold StorageConn.create_domain.
  destruct (values !! "name") as [[| | |name]|]; try done.
  destruct (bool_decide _); [done|]. by intros [= <- <-].
Qed.

Lemma storage_update_record_stored context st R values :
  unique_ids st → R ∈ StorageConn.records st →
  ∃ st', StorageConn.update_record context (DnsRecord.id R) values st
         = (Ok (StorageConn.updated_record R values), st').
Proof.
  intros Hu HR. unfold StorageConn.update_record.
  rewrite get_record_stored by done. eauto.
Qed.

(** *** Identifiers stay unique *)

Lemma new_id_inj k k' : StorageConn.new_id k = StorageConn.new_id k' → k = k'.
Proof.
  unfold StorageConn.new_id. simpl. intros [= H]. by apply (inj pretty).
Qed.

Lemma NoDup_snoc_fresh (l : list string) (x : string) :
  NoDup l → x ∉ l → NoDup (l ++ [x]).
Proof.
  intros Hl Hx. apply NoDup_app. split_and!; [done| |apply NoDup_singleton].
  intros y Hy ->%list_elem_of_singleton. done.
Qed.

Lemma get_domain_id context domain_id st d :
  StorageConn.get_domain context domain_id st = Ok d → Domain.id d = domain_id.
Proof.
  unfold StorageConn.get_domain, StorageConn.find_domain,
    StorageConn.find_domains.
  destruct (filter _ _) as [|d' ds] eqn:Hf; [done|]. intros [= ->].
  assert (d ∈ d :: ds) as Hin by left. rewrite <- Hf in Hin.
  apply list_elem_of_filter in Hin as [Hd _]. by apply domain_id_criterion.
Qed.

Lemma get_record_id context record_id st r :
  StorageConn.get_record context record_id st = Ok r → DnsRecord.id r = record_id.
Proof.
  unfold StorageConn.get_record, StorageConn.find_records.
  destruct (filter _ _) as [|r' rs] eqn:Hf; [done|]. intros [= ->].
  assert (r ∈ r :: rs) as Hin by left. rewrite <- Hf in Hin.
  apply list_elem_of_filter in Hin as [Hr _]. by apply record_id_criterion.
Qed.

Lemma replace_keeps_keys {A} (key : A → string) (k : string) (x' : A)
    (l : list A) :
  key x' = k →
  key <$> ((λ x, if bool_decide (key x = k) then x' else x) <$> l) = key <$> l.
Proof.
  intros Hk. rewrite <- list_fmap_compose. apply list_fmap_ext.
  intros _ x _. simpl. case_bool_decide; congruence.
Qed.

Lemma storage_create_domain_keeps context values st :
  storage_ok st → storage_ok (StorageConn.create_domain context values st).2.
Proof.
  intros [[Hd Hr] Hfresh]. unfold StorageConn.create_domain.
  destruct (values !! "name") as [[| | |name]|]; try done.
  case_bool_decide; [done|].
  destruct (Hfresh (StorageConn.next_id st)) as [Hnd Hnr]; [done|].
  unfold storage_ok, unique_ids, fresh_ids.
  cbn [snd StorageConn.domains StorageConn.records StorageConn.next_id].
  rewrite fmap_app. simpl (_ <$> [_]). split; [split|].
  - by apply NoDup_snoc_fresh.
  - done.
  - intros k Hk. destruct (Hfresh k) as [Hkd Hkr]; [lia|].
    split; [|done]. rewrite elem_of_app, list_elem_of_singleton.
    intros [?|Heq%new_id_inj]; [done|lia].
Qed.

Lemma storage_create_record_keeps context domain_id values st :
  storage_ok st →
  storage_ok (StorageConn.create_record context domain_id values st).2.
Proof.
  intros [[Hd Hr] Hfresh]. unfold StorageConn.create_record.
  destruct (values !! "name") as [[| | |name]|]; try done.
  destruct (Hfresh (StorageConn.next_id st)) as [Hnd Hnr]; [done|].
  unfold storage_ok, unique_ids, fresh_ids.
  cbn [snd StorageConn.domains StorageConn.records StorageConn.next_id].
  rewrite fmap_app. simpl (_ <$> [_]). split; [split|].
  - done.
  - by apply NoDup_snoc_fresh.
  - intros k Hk. destruct (Hfresh k) as [Hkd Hkr]; [lia|].
    split; [done|]. rewrite elem_of_app, list_elem_of_singleton.
    intros [?|Heq%new_id_inj]; [done|lia].
Qed.

Lemma storage_update_domain_keeps context domain_id values st :
  storage_ok st →
  storage_ok (StorageConn.update_domain context domain_id values st).2.
Proof.
  intros Hok. unfold StorageConn.update_domain.
  destruct (StorageConn.get_domain _ _ _) as [d|e] eqn:Hget; [|done].
  apply get_domain_id in Hget. destruct Hok as [[Hd Hr] Hfresh].
  unfold storage_ok, unique_ids, fresh_ids.
  cbn [snd StorageConn.domains StorageConn.records StorageConn.next_id].
  by rewrite (replace_keeps_keys Domain.id).
Qed.

Lemma storage_update_record_keeps context record_id values st :
  storage_ok st →
  storage_ok (StorageConn.update_record context record_id values st).2.
Proof.
  intros Hok. unfold StorageConn.update_record.
  destruct (StorageConn.get_record _ _ _) as [r|e] eqn:Hget; [|done].
  apply get_record_id in Hget. destruct Hok as [[Hd Hr] Hfresh].
  unfold storage_ok, unique_ids, fresh_ids.
  cbn [snd StorageConn.domains StorageConn.records StorageConn.next_id].
  by rewrite (replace_keeps_keys DnsRecord.id).
Qed.

Lemma storage_delete_record_keeps context record_id st :
  storage_ok st →
  storage_ok (StorageConn.delete_record context record_id st).2.
Proof.
  intros Hok. unfold StorageConn.delete_record.
  destruct (StorageConn.get_record _ _ _) as [r|e]; [|done].
  destruct Hok as [[Hd Hr] Hfresh].
  assert ((DnsRecord.id <$> filter (λ x, DnsRecord.id x ≠ record_id)
                              (StorageConn.records st))
          `sublist_of` (DnsRecord.id <$> StorageConn.records st)) as Hsub.
  { apply fmap_sublist, sublist_filter. }
  unfold storage_ok, unique_ids, fresh_ids.
  cbn [snd StorageConn.domains StorageConn.records StorageConn.next_id].
  split; [split|]; [done|by eapply sublist_NoDup|].
  intros k Hk. destruct (Hfresh k) as [Hkd Hkr]; [done|]. split; [done|].
  intros Hin. apply Hkr. by eapply elem_of_sublist.
Qed.

(** *** Running an operation step by step *)

Lemma bind_ok {A B} (m : M A) (f : A → M B) w a w' :
  m w = (Ok a, w') → (m ≫= f) w = f a w'.
Proof. unfold mbind, M_bind. by intros ->. Qed.

Lemma bind_raise {A B} (m : M A) (f : A → M B) w e w' :
  m w = (Raise e, w') → (m ≫= f) w = (Raise e, w').
Proof. unfold mbind, M_bind. by intros ->. Qed.

(** *** Event types *)

Lemma elem_of_add_all (et : string) (l : list string) (acc : gset string) :
  et ∈ foldl (λ event_types et, event_types ∪ {[ et ]}) acc l ↔
  et ∈ acc ∨ et ∈ l.
Proof.
  revert acc. induction l as [|x l IH]; intros acc; simpl.
  - rewrite elem_of_nil. tauto.
  - rewrite IH, elem_of_union, elem_of_singleton, elem_of_cons. tauto.
Qed.

Lemma in_event_types_str (et : string) (types : list string) :
  in_event_types (OVal (VStr et)) types = bool_decide (et ∈ types).
Proof.
  unfold in_event_types. apply bool_decide_ext.
  rewrite list_elem_of_fmap. split.
  - by intros (x & [= ->] & Hx).
  - intros Hx. by exists et.
Qed.

(** ** Properties of the service *)

Section Properties.
Context (env : Env).

(** *** Records addressed through a domain *)

(** Claim C3.  A stored record addressed through a stored domain that does
    not own it is not found: [get_record], [update_record] and
    [delete_record] each raise RecordNotFound and leave Storage and the
    trace of backend calls and notifications as they were. *)
Theorem record_of_another_domain_not_found context w D R values :
  unique_ids (storage_conn w) →
  D ∈ StorageConn.domains (storage_conn w) →
  R ∈ StorageConn.records (storage_conn w) →
  DnsRecord.domain_id R ≠ Domain.id D →
  get_record env context (Domain.id D) (DnsRecord.id R) w
    = (Raise RecordNotFound, w) ∧
  update_record env context (Domain.id D) (DnsRecord.id R) values w
    = (Raise RecordNotFound, w) ∧
  delete_record env context (Domain.id D) (DnsRecord.id R) w
    = (Raise RecordNotFound, w).
Proof.
  intros Hu HD HR Hne.
  assert (String.eqb (Domain.id D) (DnsRecord.domain_id R) = false) as Heq.
  { apply String.eqb_neq. congruence. }
  unfold get_record, update_record, delete_record, mbind, M_bind, storage_read.
  rewrite !get_domain_stored, !get_record_stored by done.
  by rewrite Heq.
Qed.

(** *** Health check *)

Lemma ping_unfold context w :
  ping env context w =
  if policy env "diagnostics_ping" context ∅ then
    match status_of (backend_ping env context) with
    | Ok backend_status =>
        match status_of (storage_ping env context) with
        | Ok storage_status =>
            (Ok (Ping.mk (host env)
                   (truthy backend_status && truthy storage_status)
                   backend_status storage_status), w)
        | Raise e => (Raise e, w)
        end
    | Raise e => (Raise e, w)
    end
  else (Raise policy_denied, w).
Proof.
  assert (∀ r w0,
            except_Exception (lift r)
              (λ e, message ← lift (str e); mret (failed_status message)) w0
            = (status_of r, w0)) as Htry.
  { intros [v|e] w0; unfold except_Exception, try_except, lift; simpl; [done|].
    destruct (derives_from_Exception e); [|done].
    unfold mbind, M_bind. by destruct (str e). }
  unfold ping, policy_check.
  destruct (policy env _ context ∅); [|done].
  erewrite bind_ok by reflexivity. unfold mbind at 1, M_bind at 1.
  rewrite Htry. destruct (status_of (backend_ping env context)); [|done].
  unfold mbind, M_bind. rewrite Htry.
  destruct (status_of (storage_ping env context)); [|done]. simpl.
  match goal with |- context [if ?b then true else false] => by destruct b end.
Qed.

Lemma status_of_reportable r :
  (∀ e, r = Raise e → reportable e) →
  ∃ entry, status_of r = Ok entry ∧ entry_of r entry.
Proof.
  destruct r as [v|e]; simpl; [by eauto|].
  intros He. destruct (He e eq_refl) as [-> [message Hstr]].
  rewrite Hstr. eauto.
Qed.

Lemma status_of_escapes e :
  ¬ reportable e →
  ∃ e', status_of (Raise e) = Raise e' ∧
        (derives_from_Exception e = false → e' = e).
Proof.
  intros He. simpl.
  destruct (derives_from_Exception e) eqn:Hd; [|by exists e].
  destruct (str e) as [message|e'] eqn:Hstr; [|by exists e'].
  destruct He. split; eauto.
Qed.

(** What [ping] reports after a failure: the overall status tests the two
    entries themselves, so a collaborator that raised counts as healthy,
    and the overall status is that of the other one. *)
Lemma ping_status_after_backend_failure context w e r :
  backend_ping env context = Raise e →
  ping env context w = (Ok r, w) →
  Ping.status r = truthy (Ping.storage r).
Proof.
  intros Hb. rewrite ping_unfold, Hb. destruct (policy env _ _ _); [|done].
  cbn [status_of]. destruct (derives_from_Exception e); [|done].
  destruct (str e) as [message|]; [|done].
  destruct (status_of (storage_ping env context)) as [s|]; [|done].
  intros [= <-].
  change (truthy (failed_status message) && truthy s = truthy s).
  by rewrite failed_status_truthy.
Qed.

(** Claim C1, as amended.  A caller refused [diagnostics_ping] gets
    Forbidden.  For a caller granted it, when each collaborator returns
    or raises an exception that [except Exception] catches and whose
    text [str] renders, [ping] returns and leaves the world untouched:
    each entry is the collaborator's own answer, or
    [{status: False, message: str(e)}] when it raised [e], the two being
    computed independently; the overall status is true only if both
    entries are true values, and when neither collaborator raised it is
    true exactly when both answers are true values.  An exception that
    is not caught, or whose text [str] cannot render, makes [ping] raise,
    the world untouched; an exception of the backend whose class does not
    derive from [Exception] is the one [ping] raises. *)
Theorem ping_authorized context w :
  (policy env "diagnostics_ping" context ∅ = false →
   ping env context w = (Raise policy_denied, w)) ∧
  (policy env "diagnostics_ping" context ∅ = true →
   ((∀ e, backend_ping env context = Raise e → reportable e) →
    (∀ e, storage_ping env context = Raise e → reportable e) →
    ∃ r, ping env context w = (Ok r, w) ∧
         entry_of (backend_ping env context) (Ping.backend r) ∧
         entry_of (storage_ping env context) (Ping.storage r) ∧
         (Ping.status r = true →
          truthy (Ping.backend r) = true ∧ truthy (Ping.storage r) = true) ∧
         (∀ b s, backend_ping env context = Ok b →
                 storage_ping env context = Ok s →
                 Ping.status r = truthy b && truthy s)) ∧
   (∀ e, backend_ping env context = Raise e ∨
         storage_ping env context = Raise e →
         ¬ reportable e →
         ∃ e', ping env context w = (Raise e', w)) ∧
   (∀ e, backend_ping env context = Raise e →
         derives_from_Exception e = false →
         ping env context w = (Raise e, w))).
Proof.
  split; intros Hp; rewrite ping_unfold, Hp; [done|]. split_and!.
  - intros Hb Hs.
    destruct (status_of_reportable _ Hb) as (b & -> & Hbackend).
    destruct (status_of_reportable _ Hs) as (s & -> & Hstorage).
    eexists. split; [done|]. simpl. split_and!; [done..| |].
    + by intros ?%andb_prop.
    + intros b' s' Hb' Hs'. rewrite Hb' in Hbackend. rewrite Hs' in Hstorage.
      simpl in *. by subst.
  - intros e [He|He] Hno; rewrite He;
      destruct (status_of_escapes e Hno) as (e' & -> & _); [by eauto|].
    destruct (status_of _); eauto.
  - intros e -> He. simpl. by rewrite He.
Qed.

(** *** Notification dispatch *)

Lemma elem_of_handler_event_types (et : string) :
  et ∈ _get_handler_event_types env ↔
  ∃ h, h ∈ handlers env ∧ et ∈ Handler.get_event_types h.
Proof.
  unfold _get_handler_event_types.
  cut (∀ acc : gset string,
         et ∈ foldl (λ event_types handler,
                       foldl (λ event_types et, event_types ∪ {[ et ]})
                             event_types (Handler.get_event_types handler))
                    acc (handlers env) ↔
         et ∈ acc ∨ ∃ h, h ∈ handlers env ∧ et ∈ Handler.get_event_types h).
  { intros ->. rewrite elem_of_empty. tauto. }
  induction (handlers env) as [|h hs IH]; intros acc; simpl.
  - setoid_rewrite elem_of_nil. split; [tauto|]. by intros [?|(? & [] & _)].
  - rewrite IH, elem_of_add_all. setoid_rewrite elem_of_cons. split.
    + intros [[?|?]|(h' & ? & ?)]; eauto 6.
    + intros [?|(h' & [->|?] & ?)]; eauto 6.
Qed.

Section Dispatch.
Context (notification : gmap string pyobj) (et : string) (payload : pyobj).
Context (Het : notification !! "event_type" = Some (OVal (VStr et))).
Context (Hpayload : notification !! "payload" = Some payload).

Lemma called_nil w : called et payload w [] = w.
Proof. destruct w. unfold called. simpl. by rewrite app_nil_r. Qed.

Lemma called_app w hs1 hs2 :
  called et payload (called et payload w hs1) hs2
  = called et payload w (hs1 ++ hs2).
Proof. unfold called. simpl. by rewrite fmap_app, app_assoc. Qed.

Lemma process_for_handler h w :
  _process_notification_for_handler h notification w =
  if decide (interested et h) then
    (match Handler.process_notification h (OVal (VStr et)) payload with
     | None => Ok ()
     | Some e => Raise e
     end, called et payload w [h])
  else (Ok (), w).
Proof.
  unfold _process_notification_for_handler, getitem. rewrite Het, Hpayload.
  unfold mbind, M_bind, mret, M_ret. simpl. rewrite in_event_types_str.
  unfold interested. destruct (decide _) as [Hi|Hi].
  - rewrite bool_decide_eq_true_2 by done. simpl.
    by destruct (Handler.process_notification _ _ _).
  - by rewrite bool_decide_eq_false_2 by done.
Qed.

Lemma for_each_all_return hs w :
  (∀ h, h ∈ hs → interested et h → returns et payload h) →
  for_each hs (λ handler,
                 _process_notification_for_handler handler notification) w
  = (Ok (), called et payload w (filter (interested et) hs)).
Proof.
  revert w. induction hs as [|h hs IH]; intros w Hok; simpl.
  - by rewrite called_nil.
  - unfold mbind, M_bind. rewrite process_for_handler.
    destruct (decide (interested et h)) as [Hi|Hi].
    + rewrite (Hok h) by (done || left).
      rewrite IH by (intros; apply Hok; [by right|done]).
      rewrite called_app. by rewrite filter_cons_True.
    + rewrite IH by (intros; apply Hok; [by right|done]).
      by rewrite filter_cons_False.
Qed.

Lemma for_each_first_raise hs1 h hs2 e w :
  (∀ h', h' ∈ hs1 → interested et h' → returns et payload h') →
  interested et h →
  Handler.process_notification h (OVal (VStr et)) payload = Some e →
  for_each (hs1 ++ h :: hs2)
    (λ handler, _process_notification_for_handler handler notification) w
  = (Raise e, called et payload w (filter (interested et) hs1 ++ [h])).
Proof.
  intros Hok Hi He. revert w. induction hs1 as [|h1 hs1 IH]; intros w; simpl.
  - unfold mbind, M_bind. rewrite process_for_handler.
    rewrite decide_True by done. by rewrite He.
  - unfold mbind, M_bind. rewrite process_for_handler.
    destruct (decide ((interested et) h1)) as [Hi1|Hi1].
    + rewrite (Hok h1) by (done || left).
      rewrite IH by (intros; apply Hok; [by right|done]).
      rewrite called_app. by rewrite filter_cons_True.
    + rewrite IH by (intros; apply Hok; [by right|done]).
      by rewrite filter_cons_False.
Qed.

Lemma process_notification_unfold w :
  _process_notification env notification w =
  if decide (et ∈ _get_handler_event_types env) then
    for_each (handlers env)
      (λ handler, _process_notification_for_handler handler notification) w
  else (Ok (), w).
Proof.
  unfold _process_notification. rewrite Het. simpl.
  unfold mbind, M_bind, mret, M_ret. simpl.
  by destruct (decide _) as [Hi|Hi];
    [rewrite bool_decide_eq_true_2|rewrite bool_decide_eq_false_2].
Qed.

(** Claim C8, as amended.  For a notification carrying the event type
    [et] and a payload: when no handler declares [et], nothing is
    called; when every handler that declares [et] returns, exactly
    those handlers are called, in registration order; and when one of
    them raises, the handlers before it that declare [et] and then
    that handler are called, the exception propagates and no later
    handler is called. *)
Theorem notification_dispatch w :
  (et ∉ _get_handler_event_types env →
   _process_notification env notification w = (Ok (), w)) ∧
  ((∀ h, h ∈ handlers env → interested et h → returns et payload h) →
   _process_notification env notification w
     = (Ok (), called et payload w (filter (interested et) (handlers env)))) ∧
  (∀ (hs1 : list Handler.t) h hs2 e,
     handlers env = (hs1 ++ h :: hs2)%list →
     (∀ h', h' ∈ hs1 → interested et h' → returns et payload h') →
     interested et h →
     Handler.process_notification h (OVal (VStr et)) payload = Some e →
     _process_notification env notification w
       = (Raise e, called et payload w (filter (interested et) hs1 ++ [h]))).
Proof.
  rewrite process_notification_unfold. split_and!.
  - intros Hn. by rewrite decide_False.
  - intros Hok. destruct (decide _) as [Hi|Hi].
    + by apply for_each_all_return.
    + rewrite filter_none, called_nil; [done|].
      intros h Hh Hih. apply Hi, elem_of_handler_event_types. by exists h.
  - intros hs1 h hs2 e Hhs Hok Hi He.
    rewrite decide_True.
    + rewrite Hhs. by apply for_each_first_raise.
    + apply elem_of_handler_event_types. exists h. split; [|done].
      rewrite Hhs. set_solver.
Qed.
End Dispatch.

(** *** Blacklist and subdomain checks *)

Lemma is_blacklisted_cases context domain_name w :
  _is_blacklisted_domain_name env context (VStr domain_name) w
  = (Ok (blacklisted env domain_name), w) ∨
  ∃ e, _is_blacklisted_domain_name env context (VStr domain_name) w
       = (Raise e, w).
Proof.
  unfold _is_blacklisted_domain_name, blacklisted, first_match.
  induction (domain_name_blacklist env) as [|p ps IH]; simpl; [by left|].
  unfold mbind, M_bind, mret, M_ret, lift, matches. simpl.
  destruct (re_search env p) as [search|e] eqn:Hp; [|by eauto].
  destruct (search domain_name) eqn:Hs.
  - left. rewrite filter_cons_True; [done|]. by rewrite Hp.
  - rewrite filter_cons_False; [apply IH|]. rewrite Hp. congruence.
Qed.

Lemma is_blacklisted_str context domain_name w :
  valid_patterns env →
  _is_blacklisted_domain_name env context (VStr domain_name) w
  = (Ok (blacklisted env domain_name), w).
Proof.
  unfold valid_patterns, _is_blacklisted_domain_name, blacklisted, first_match.
  induction (domain_name_blacklist env) as [|p ps IH]; simpl; [done|].
  intros Hvalid. unfold mbind, M_bind, mret, M_ret, lift, matches. simpl.
  destruct (Hvalid p) as [search Hp]; [left|]. rewrite Hp.
  destruct (search domain_name) eqn:Hs.
  - rewrite filter_cons_True; [done|]. by rewrite Hp.
  - rewrite filter_cons_False; [|rewrite Hp; congruence].
    apply IH. intros q Hq. apply Hvalid. by right.
Qed.

Lemma is_subdomain_loop_nearest context labels n i w :
  ∃ found,
    _is_subdomain_loop context labels i n w = (Ok found, w) ∧
    nearest context (storage_conn w) labels i (i + n) found.
Proof.
  revert i. induction n as [|n IH]; intros i; simpl.
  - exists None. split; [done|]. simpl. intros; lia.
  - unfold mbind at 1, M_bind at 1, try_except, mbind, M_bind, storage_read.
    destruct (find_domain_cases context
                {[ "name" := VStr (join "." (drop i labels)) ]}
                (storage_conn w)) as [[d Hd]|Hd]; rewrite Hd; simpl.
    + exists (Some d). split; [done|]. exists i. split_and!; [lia..|done|].
      intros; lia.
    + destruct (IH (i + 1)) as (found & -> & Hfound).
      exists found. split; [done|]. destruct found as [d|]; simpl in *.
      * destruct Hfound as (k & Hk & Hd' & Hbefore). exists k.
        split_and!; [lia..|done|].
        intros j Hj. destruct (decide (j = i)) as [->|]; [done|].
        apply Hbefore. lia.
      * intros k Hk. destruct (decide (k = i)) as [->|]; [done|].
        apply Hfound. lia.
Qed.

Lemma is_subdomain_nearest context domain_name w :
  ∃ found,
    _is_subdomain context (VStr domain_name) w = (Ok found, w) ∧
    let labels := split "." domain_name in
    nearest context (storage_conn w) labels 1 (List.length labels) found.
Proof.
  unfold _is_subdomain. simpl.
  destruct (is_subdomain_loop_nearest context (split "." domain_name)
              (List.length (split "." domain_name) - 1) 1 w)
    as (found & Hrun & Hfound).
  exists found. split; [by rewrite (bind_ok _ _ w domain_name w)|].
  simpl. replace (List.length (split "." domain_name))
    with (1 + (List.length (split "." domain_name) - 1)); [done|].
  destruct domain_name as [|c s]; simpl; [done|].
  destruct (Ascii.eqb c "."); simpl; [lia|].
  destruct (split "." s); simpl; lia.
Qed.

(** *** Creating a domain *)

Lemma policy_check_granted rule context target w :
  policy env rule context target = true →
  policy_check env rule context target w = (Ok (), w).
Proof. unfold policy_check. by intros ->. Qed.

Lemma policy_check_denied rule context target w :
  policy env rule context target = false →
  policy_check env rule context target w = (Raise policy_denied, w).
Proof. unfold policy_check. by intros ->. Qed.

Lemma create_domain_unfold context values name found w :
  values !! "name" = Some (VStr name) →
  _is_blacklisted_domain_name env context (VStr name) w
  = (Ok (blacklisted env name), w) →
  _is_subdomain context (VStr name) w = (Ok found, w) →
  create_domain env context values w =
  let values := <["tenant_id" := Ctx.tenant_id context]> values in
  if negb (policy env "create_domain" context (create_target context name))
  then (Raise policy_denied, w)
  else if truthy_val (blacklisted env name) &&
          negb (policy env "use_blacklisted_domain" context ∅)
  then (Raise policy_denied, w)
  else match found with
       | Some parent_domain =>
           if py_eq (Domain.tenant_id parent_domain) (Ctx.tenant_id context)
           then persist_domain env context
                  (<["parent_domain_id" := VStr (Domain.id parent_domain)]>
                     values) w
           else (Raise cross_tenant, w)
       | None => persist_domain env context values w
       end.
Proof.
  intros Hname Hblacklist Hsub. unfold create_domain.
  assert (getitem (<["tenant_id" := Ctx.tenant_id context]> values) "name" w
          = (Ok (VStr name), w)) as Hget.
  { unfold getitem. by rewrite lookup_insert_ne, Hname. }
  rewrite (bind_ok _ _ _ _ _ Hget). fold (create_target context name).
  destruct (policy env "create_domain" context _) eqn:Hcreate; simpl;
    [|by rewrite (bind_raise _ _ _ _ _ (policy_check_denied _ _ _ w Hcreate))].
  rewrite (bind_ok _ _ _ _ _ (policy_check_granted _ _ _ w Hcreate)).
  rewrite (bind_ok _ _ _ _ _ Hblacklist).
  assert (∀ k : M Domain.t,
            (when (truthy_val (blacklisted env name))
               (policy_check env "use_blacklisted_domain" context ∅) ≫=
             λ _, k) w =
            if truthy_val (blacklisted env name) &&
               negb (policy env "use_blacklisted_domain" context ∅)
            then (Raise policy_denied, w) else k w) as ->.
  { intros k. unfold when. destruct (truthy_val _); simpl; [|done].
    destruct (policy env "use_blacklisted_domain" context ∅) eqn:Hbl; simpl.
    - by rewrite (bind_ok _ _ _ _ _ (policy_check_granted _ _ _ w Hbl)).
    - by rewrite (bind_raise _ _ _ _ _ (policy_check_denied _ _ _ w Hbl)). }
  destruct (_ && _); [done|].
  rewrite (bind_ok _ _ _ _ _ Hsub).
  destruct found as [d|]; [destruct (py_eq _ _)|].
  - by erewrite bind_ok by reflexivity.
  - by erewrite bind_raise by reflexivity.
  - by erewrite bind_ok by reflexivity.
Qed.

(** A pattern that is not a regular expression stops [create_domain]
    before anything is written. *)
Lemma create_domain_bad_pattern context values name e w :
  values !! "name" = Some (VStr name) →
  _is_blacklisted_domain_name env context (VStr name) w = (Raise e, w) →
  create_domain env context values w =
  (Raise (if policy env "create_domain" context (create_target context name)
          then e else policy_denied), w).
Proof.
  intros Hname Hblacklist. unfold create_domain.
  erewrite bind_ok
    by (unfold getitem; rewrite lookup_insert_ne, Hname by done; reflexivity).
  fold (create_target context name).
  destruct (policy env "create_domain" context _) eqn:Hcreate.
  - erewrite bind_ok by (by apply policy_check_granted).
    by erewrite bind_raise by exact Hblacklist.
  - by erewrite bind_raise by (by apply policy_check_denied).
Qed.

Lemma persist_no_servers context values w :
  StorageConn.servers (storage_conn w) = [] →
  persist_domain env context values w = (Raise NoServersConfigured, w).
Proof.
  intros Hs. unfold persist_domain, mbind, M_bind, storage_read,
    StorageConn.get_servers. by rewrite Hs.
Qed.

Lemma persist_unfold context values w :
  StorageConn.servers (storage_conn w) ≠ [] →
  persist_domain env context values w =
  match StorageConn.create_domain context values (storage_conn w) with
  | (Ok domain, st) =>
      let created := [BackendCall "create_domain" [EDomain domain]] in
      match backend env (trace w) "create_domain" [EDomain domain] with
      | None =>
          (Ok domain,
           mkWorld st ((trace w ++ created)
                       ++ [Notify "api" "domain.create" (EDomain domain)]))
      | Some e => (Raise e, mkWorld st (trace w ++ created))
      end
  | (Raise e, st) => (Raise e, mkWorld st (trace w))
  end.
Proof.
  intros Hs. unfold persist_domain, mbind, M_bind, storage_read, storage_write,
    StorageConn.get_servers, backend_call, notify, emit. simpl.
  destruct (StorageConn.servers (storage_conn w)); [done|]. simpl.
  destruct (StorageConn.create_domain _ _ _) as [[d|e] st]; [|done]. simpl.
  by destruct (backend env _ _ _).
Qed.

Lemma persist_created context values w d w' :
  persist_domain env context values w = (Ok d, w') →
  Domain.parent_domain_id d = StorageConn.col values "parent_domain_id" ∧
  d ∈ StorageConn.domains (storage_conn w').
Proof.
  destruct (decide (StorageConn.servers (storage_conn w) = [])) as [Hs|Hs].
  { by rewrite persist_no_servers. }
  rewrite persist_unfold by done.
  destruct (StorageConn.create_domain _ _ _) as [[d'|e] st] eqn:Hc; [|done].
  apply storage_create_domain_ok in Hc as (Hp & _ & _ & Hd).
  simpl. destruct (backend env _ _ _); [done|].
  intros [= <- <-]. simpl. split; [done|]. rewrite Hd. set_solver.
Qed.

Lemma first_match_matches name blacklist :
  first_match env name = Some blacklist →
  blacklist ∈ domain_name_blacklist env ∧ matches env blacklist name = true.
Proof.
  unfold first_match. intros Hh.
  assert (blacklist ∈ filter (λ b, matches env b name = true)
                             (domain_name_blacklist env)) as Hin.
  { destruct (filter _ _) as [|b bs]; [done|]. simplify_eq/=. left. }
  apply list_elem_of_filter in Hin. tauto.
Qed.

(** Claim C5.  With no server in Storage, [create_domain] of an otherwise
    valid request (the configured patterns are regular expressions, the
    caller may create the domain, the blacklist does not stop it, no
    ancestor belongs to another tenant) raises NoServersConfigured;
    Storage is not written, the backend is not called and nothing is
    notified. *)
Theorem create_domain_no_servers context values name w :
  values !! "name" = Some (VStr name) →
  valid_patterns env →
  policy env "create_domain" context (create_target context name) = true →
  ((∃ blacklist, blacklist ∈ domain_name_blacklist env ∧
                 matches env blacklist name = true) →
   policy env "use_blacklisted_domain" context ∅ = true) →
  (∀ parent, _is_subdomain context (VStr name) w = (Ok (Some parent), w) →
             py_eq (Domain.tenant_id parent) (Ctx.tenant_id context) = true) →
  StorageConn.servers (storage_conn w) = [] →
  create_domain env context values w = (Raise NoServersConfigured, w).
Proof.
  intros Hname Hvalid Hcreate Hbl Hparent Hservers.
  destruct (is_subdomain_nearest context name w) as (found & Hsub & _).
  rewrite (create_domain_unfold _ _ name found)
    by (done || by apply is_blacklisted_str). simpl.
  rewrite Hcreate. simpl.
  assert (truthy_val (blacklisted env name) &&
          negb (policy env "use_blacklisted_domain" context ∅) = false) as ->.
  { unfold blacklisted. destruct (first_match env name) as [b|] eqn:Hb; [|done].
    rewrite Hbl; [apply andb_false_r|].
    exists b. by apply first_match_matches. }
  destruct found as [parent|].
  - rewrite (Hparent parent) by done. by apply persist_no_servers.
  - by apply persist_no_servers.
Qed.

(** Claim C2.  [_is_subdomain] splits the name at the dots and queries
    Storage for the suffixes [labels[i:]], [i = 1 .. len(labels) - 1],
    returning the first hit and [False] when there is none.  With a hit of
    another tenant [create_domain] raises and changes nothing, and what
    it raises is Forbidden when the configured patterns are regular
    expressions; with a hit of the caller's tenant every domain it
    creates has the hit's id as [parent_domain_id], and it does create
    one once the blacklist check, the policy, the server check, Storage
    and the backend let it. *)
Theorem subdomain_resolution context values name w :
  values !! "name" = Some (VStr name) →
  ∃ found,
    _is_subdomain context (VStr name) w = (Ok found, w) ∧
    nearest context (storage_conn w) (split "." name)
            1 (List.length (split "." name)) found ∧
    ∀ parent, found = Some parent →
      (py_eq (Domain.tenant_id parent) (Ctx.tenant_id context) = false →
       ∃ e, create_domain env context values w = (Raise e, w) ∧
            (valid_patterns env → ∃ msg, e = Forbidden msg)) ∧
      (py_eq (Domain.tenant_id parent) (Ctx.tenant_id context) = true →
       (∀ domain w',
          create_domain env context values w = (Ok domain, w') →
          Domain.parent_domain_id domain = VStr (Domain.id parent) ∧
          domain ∈ StorageConn.domains (storage_conn w')) ∧
       (valid_patterns env →
        policy env "create_domain" context (create_target context name) = true →
        (truthy_val (blacklisted env name) = true →
         policy env "use_blacklisted_domain" context ∅ = true) →
        StorageConn.servers (storage_conn w) ≠ [] →
        name ∉ Domain.name <$> StorageConn.domains (storage_conn w) →
        (∀ args, backend env (trace w) "create_domain" args = None) →
        ∃ domain w', create_domain env context values w = (Ok domain, w'))).
Proof.
  intros Hname.
  destruct (is_subdomain_nearest context name w) as (found & Hsub & Hnear).
  exists found. split_and!; [done..|].
  intros parent ->.
  destruct (is_blacklisted_cases context name w) as [Hbl|[e Hbl]]; last first.
  { rewrite (create_domain_bad_pattern _ _ name e) by done. split.
    - intros _. eexists. split; [done|]. intros Hvalid.
      by rewrite is_blacklisted_str in Hbl.
    - intros _. split; [done|]. intros Hvalid.
      by rewrite is_blacklisted_str in Hbl. }
  rewrite (create_domain_unfold _ _ name (Some parent)) by done.
  simpl. split.
  - intros ->. unfold policy_denied, cross_tenant.
    destruct (negb _); [by eauto|]. destruct (_ && _); by eauto.
  - intros ->. split.
    + intros domain w'. destruct (negb _); [done|]. destruct (_ && _); [done|].
      intros [Hp Hin]%persist_created. split; [|done].
      rewrite Hp. unfold StorageConn.col. by rewrite lookup_insert_eq.
    + intros _ -> Hblacklisted Hservers Hfresh Hbackend. simpl.
      assert (truthy_val (blacklisted env name) &&
              negb (policy env "use_blacklisted_domain" context ∅) = false)
        as ->.
      { destruct (truthy_val _); [|done]. by rewrite Hblacklisted. }
      rewrite persist_unfold by done. unfold StorageConn.create_domain.
      rewrite lookup_insert_ne, lookup_insert_ne, Hname by done.
      rewrite bool_decide_eq_false_2 by done. simpl.
      rewrite Hbackend. eauto.
Qed.

(** The blacklist gate where it works: when the patterns are regular
    expressions and the first one that matches is not the empty string,
    a caller without [use_blacklisted_domain] is refused before anything
    is written. *)
Lemma create_domain_blacklisted_denied context values name blacklist w :
  values !! "name" = Some (VStr name) →
  valid_patterns env →
  first_match env name = Some blacklist →
  blacklist ≠ "" →
  policy env "use_blacklisted_domain" context ∅ = false →
  create_domain env context values w = (Raise policy_denied, w).
Proof.
  intros Hname Hvalid Hfirst Hne Hdenied.
  destruct (is_subdomain_nearest context name w) as (found & Hsub & _).
  rewrite (create_domain_unfold _ _ name found)
    by (done || by apply is_blacklisted_str). simpl.
  destruct (negb _); [done|]. unfold blacklisted. rewrite Hfirst, Hdenied.
  simpl. by destruct (String.eqb_spec blacklist "").
Qed.

(** *** Listing domains *)

Lemma get_domains_unfold context criterion w :
  get_domains env context criterion w =
  (if policy env "get_domains" context
        {[ "tenant_id" := Ctx.tenant_id context ]}
   then StorageConn.get_domains context
          (if negb (Ctx.is_admin context)
           then <["tenant_id" := Ctx.tenant_id context]> (default ∅ criterion)
           else default ∅ criterion)
          (storage_conn w)
   else Raise policy_denied, w).
Proof.
  unfold get_domains, policy_check, mbind, M_bind.
  by destruct (policy env _ context _).
Qed.

(** Claim C9.  For a caller who is not an admin the criterion handed to
    Storage is the supplied one with [tenant_id] set to the caller's
    tenant, so Storage returns only stored domains of that tenant; for an
    admin who supplies no criterion it is empty, and Storage returns every
    stored domain. *)
Theorem get_domains_tenant_scope context criterion w :
  let target : gmap string pyval := {[ "tenant_id" := Ctx.tenant_id context ]} in
  let st := storage_conn w in
  (Ctx.is_admin context = false →
   let passed := <["tenant_id" := Ctx.tenant_id context]> (default ∅ criterion) in
   passed !! "tenant_id" = Some (Ctx.tenant_id context) ∧
   get_domains env context criterion w
     = (if policy env "get_domains" context target
        then StorageConn.get_domains context passed st
        else Raise policy_denied, w) ∧
   ∃ ds, StorageConn.get_domains context passed st = Ok ds ∧
         ∀ d, d ∈ ds →
              d ∈ StorageConn.domains st ∧
              Domain.tenant_id d = Ctx.tenant_id context) ∧
  (Ctx.is_admin context = true →
   get_domains env context None w
     = (if policy env "get_domains" context target
        then StorageConn.get_domains context ∅ st
        else Raise policy_denied, w) ∧
   StorageConn.get_domains context ∅ st = Ok (StorageConn.domains st)).
Proof.
  simpl. split; intros Hadmin.
  - split_and!.
    + apply lookup_insert_eq.
    + by rewrite get_domains_unfold, Hadmin.
    + eexists. split; [done|]. intros d [Hd Hin]%list_elem_of_filter.
      split; [done|]. eapply domain_tenant_criterion; [|done].
      apply lookup_insert_eq.
  - split.
    + by rewrite get_domains_unfold, Hadmin.
    + unfold StorageConn.get_domains, StorageConn.find_domains. f_equal.
      induction (StorageConn.domains (storage_conn w)) as [|d ds IH]; [done|].
      rewrite filter_cons_True by apply map_empty_subseteq. by rewrite IH.
Qed.

(** *** Updating a domain *)

(** Claim C4, as amended.  [update_domain] of a stored domain with a
    [name] that differs from the stored one always fails and changes
    nothing (no Storage update, no backend call, no notification): with
    BadRequest when the caller passes the policy checks that come first,
    with Forbidden when one of them refuses. *)
Theorem update_domain_rename_rejected context w D values name :
  unique_ids (storage_conn w) →
  D ∈ StorageConn.domains (storage_conn w) →
  values !! "name" = Some name →
  name ≠ VStr (Domain.name D) →
  update_domain env context (Domain.id D) values w
  = (Raise (if update_authorized env context D values
            then rename_rejected else policy_denied), w).
Proof.
  intros Hu HD Hname Hne. apply py_eq_str in Hne.
  unfold update_domain, update_authorized.
  erewrite bind_ok by (unfold storage_read; by rewrite get_domain_stored).
  fold (domain_target D).
  destruct (policy env "update_domain" context _) eqn:Hupdate; simpl;
    [|by erewrite bind_raise by by apply policy_check_denied].
  erewrite bind_ok by by apply policy_check_granted.
  rewrite Hname.
  destruct (values !! "tenant_id") as [tenant_id|].
  - destruct (policy env "delete_domain" context _) eqn:Hdelete; simpl.
    + destruct (policy env "create_domain" context _) eqn:Hcreate; simpl.
      * erewrite bind_ok;
          [|erewrite bind_ok by (by apply policy_check_granted);
            by apply policy_check_granted].
        erewrite bind_raise; [done|]. by rewrite Hne.
      * erewrite bind_raise; [done|].
        erewrite bind_ok by (by apply policy_check_granted).
        by apply policy_check_denied.
    + erewrite bind_raise; [done|].
      erewrite bind_raise; [done|]. by apply policy_check_denied.
  - erewrite bind_ok by done. erewrite bind_raise; [done|]. by rewrite Hne.
Qed.

(** *** Records and their zone *)

Lemma create_record_unfold context w D values name :
  unique_ids (storage_conn w) →
  D ∈ StorageConn.domains (storage_conn w) →
  values !! "name" = Some (VStr name) →
  create_record env context (Domain.id D) values w =
  if negb (policy env "create_record" context
             (create_record_target D (VStr name)))
  then (Raise policy_denied, w)
  else if negb (endswith name (Domain.name D)) then (Raise outside_zone, w)
  else
    let '(_, st) :=
      StorageConn.create_record context (Domain.id D) values (storage_conn w) in
    propagate env "create_record" "record.create" D
      (DnsRecord.mk (StorageConn.new_id (StorageConn.next_id (storage_conn w)))
                    (Domain.id D) name (StorageConn.col values "type")
                    (StorageConn.col values "data")
                    (StorageConn.col values "priority"))
      st w.
Proof.
  intros Hu HD Hname. unfold create_record.
  erewrite bind_ok by (unfold storage_read; by rewrite get_domain_stored).
  erewrite bind_ok by (unfold getitem; by rewrite Hname).
  fold (create_record_target D (VStr name)).
  destruct (policy env "create_record" context _) eqn:Hcreate; simpl;
    [|by erewrite bind_raise by by apply policy_check_denied].
  erewrite bind_ok by by apply policy_check_granted.
  erewrite bind_ok by done.
  destruct (endswith name (Domain.name D)); simpl;
    [|by erewrite bind_raise by done].
  erewrite bind_ok by done.
  unfold mbind, M_bind, storage_write, StorageConn.create_record, propagate,
    backend_call, notify, emit.
  rewrite Hname. simpl. by destruct (backend env _ _ _).
Qed.

Lemma update_record_unfold context w D R values :
  unique_ids (storage_conn w) →
  D ∈ StorageConn.domains (storage_conn w) →
  R ∈ StorageConn.records (storage_conn w) →
  DnsRecord.domain_id R = Domain.id D →
  update_record env context (Domain.id D) (DnsRecord.id R) values w =
  let store :=
    propagate env "update_record" "record.update" D
      (StorageConn.updated_record R values)
      (StorageConn.update_record context (DnsRecord.id R) values
         (storage_conn w)).2 w in
  if negb (policy env "update_record" context (record_target D R))
  then (Raise policy_denied, w)
  else match values !! "name" with
       | Some (VStr name) =>
           if negb (endswith name (Domain.name D))
           then (Raise outside_zone, w) else store
       | Some v =>
           (Raise (AttributeError ("'" +:+ type_name v +:+
                                   "' object has no attribute 'endswith'")),
            w)
       | None => store
       end.
Proof.
  intros Hu HD HR Hmatch. unfold update_record.
  erewrite bind_ok by (unfold storage_read; by rewrite get_domain_stored).
  erewrite bind_ok by (unfold storage_read; by rewrite get_record_stored).
  rewrite Hmatch, String.eqb_refl. simpl.
  erewrite bind_ok by done. fold (record_target D R).
  destruct (policy env "update_record" context _) eqn:Hupdate; simpl;
    [|by erewrite bind_raise by (by apply policy_check_denied)].
  erewrite bind_ok by (by apply policy_check_granted).
  destruct (storage_update_record_stored context (storage_conn w) R values)
    as [st' Hst']; [done..|].
  assert (∀ w0, w0 = w →
    (storage_write (StorageConn.update_record context (DnsRecord.id R) values)
     ≫= λ record,
       backend_call env "update_record" [EDomain D; ERecord record];;
       notify context "api" "record.update" (ERecord record);;
       mret record) w0
    = propagate env "update_record" "record.update" D
        (StorageConn.updated_record R values)
        (StorageConn.update_record context (DnsRecord.id R) values
           (storage_conn w)).2 w) as Hstore.
  { intros w0 ->.
    unfold mbind, M_bind, storage_write, propagate, backend_call, notify, emit.
    rewrite Hst'. simpl. by destruct (backend env _ _ _). }
  destruct (values !! "name") as [[| | |name]|]; simpl.
  1-3: reflexivity.
  - destruct (endswith name (Domain.name D)) eqn:Hends; simpl.
    + erewrite bind_ok; [by apply Hstore|].
      unfold mbind, M_bind. simpl. by rewrite Hends.
    + erewrite bind_raise; [done|].
      unfold mbind, M_bind. simpl. by rewrite Hends.
  - erewrite bind_ok by done. by apply Hstore.
Qed.

(** Claim C7, as amended.  For a stored domain [D] and a supplied record
    name: if the name does not end with [D]'s name, [create_record] and
    [update_record] fail and change nothing, with BadRequest when the
    caller passes the policy check that comes first and Forbidden
    otherwise; if it does, the check passes and an authorized call goes
    on to the Storage write, the backend call and the notification. *)
Theorem record_zone_containment context w D values name :
  unique_ids (storage_conn w) →
  D ∈ StorageConn.domains (storage_conn w) →
  values !! "name" = Some (VStr name) →
  let st := storage_conn w in
  ((¬ ∃ prefix, name = prefix +:+ Domain.name D) →
   create_record env context (Domain.id D) values w
     = (Raise (if policy env "create_record" context
                    (create_record_target D (VStr name))
               then outside_zone else policy_denied), w) ∧
   ∀ R, R ∈ StorageConn.records st →
        DnsRecord.domain_id R = Domain.id D →
        update_record env context (Domain.id D) (DnsRecord.id R) values w
        = (Raise (if policy env "update_record" context (record_target D R)
                  then outside_zone else policy_denied), w)) ∧
  ((∃ prefix, name = prefix +:+ Domain.name D) →
   (policy env "create_record" context (create_record_target D (VStr name))
      = true →
    ∃ record st',
      StorageConn.create_record context (Domain.id D) values st
        = (Ok record, st') ∧
      create_record env context (Domain.id D) values w
        = propagate env "create_record" "record.create" D record st' w) ∧
   ∀ R, R ∈ StorageConn.records st →
        DnsRecord.domain_id R = Domain.id D →
        policy env "update_record" context (record_target D R) = true →
        ∃ record st',
          StorageConn.update_record context (DnsRecord.id R) values st
            = (Ok record, st') ∧
          update_record env context (Domain.id D) (DnsRecord.id R) values w
            = propagate env "update_record" "record.update" D record st' w).
Proof.
  intros Hu HD Hname st. split.
  - intros Hout. assert (endswith name (Domain.name D) = false) as Hends.
    { destruct (endswith _ _) eqn:He; [|done]. by apply endswith_spec in He. }
    split.
    + rewrite (create_record_unfold _ _ _ _ name), Hends by done.
      by destruct (policy env _ _ _).
    + intros R HR Hmatch. rewrite update_record_unfold, Hname, Hends by done.
      by destruct (policy env _ _ _).
  - intros Hends%endswith_spec. split.
    + intros Hpolicy.
      rewrite (create_record_unfold _ _ _ _ name), Hends, Hpolicy by done.
      unfold StorageConn.create_record. rewrite Hname. simpl. eauto.
    + intros R HR Hmatch Hpolicy.
      rewrite update_record_unfold, Hname, Hends, Hpolicy by done. simpl.
      destruct (storage_update_record_stored context st R values)
        as [st' Hst']; [done..|].
      exists (StorageConn.updated_record R values), st'. fold st.
      by rewrite Hst'.
Qed.

(** Claim C10, as amended.  [update_record] of a record through the
    domain that owns it, with no [name] among the values, never runs the
    zone check, whatever the stored name is: a caller granted
    [update_record] gets the Storage update, the backend call and the
    notification, and the call fails only if the backend raises; a caller
    refused by the policy gets Forbidden and nothing changes. *)
Theorem update_record_without_name context w D R values :
  unique_ids (storage_conn w) →
  D ∈ StorageConn.domains (storage_conn w) →
  R ∈ StorageConn.records (storage_conn w) →
  DnsRecord.domain_id R = Domain.id D →
  values !! "name" = None →
  if policy env "update_record" context (record_target D R)
  then ∃ st',
         StorageConn.update_record context (DnsRecord.id R) values
           (storage_conn w)
         = (Ok (StorageConn.updated_record R values), st') ∧
         update_record env context (Domain.id D) (DnsRecord.id R) values w
         = propagate env "update_record" "record.update" D
             (StorageConn.updated_record R values) st' w
  else update_record env context (Domain.id D) (DnsRecord.id R) values w
       = (Raise policy_denied, w).
Proof.
  intros Hu HD HR Hmatch Hname.
  rewrite update_record_unfold, Hname by done. simpl.
  destruct (policy env _ _ _); simpl; [|done].
  destruct (storage_update_record_stored context (storage_conn w) R values)
    as [st' Hst']; [done..|].
  exists st'. by rewrite Hst'.
Qed.
End Properties.

(** ** Storage stays well formed *)

Lemma keeps_ret {A} (a : A) : keeps_storage_ok (mret a).
Proof. by intros w. Qed.

Lemma keeps_raise {A} (e : exn) : keeps_storage_ok (@raise A e).
Proof. by intros w. Qed.

Lemma keeps_lift {A} (r : Res A) : keeps_storage_ok (lift r).
Proof. by intros w. Qed.

Lemma keeps_bind {A B} (m : M A) (f : A → M B) :
  keeps_storage_ok m → (∀ a, keeps_storage_ok (f a)) →
  keeps_storage_ok (m ≫= f).
Proof.
  intros Hm Hf w Hw. specialize (Hm w Hw). unfold mbind, M_bind.
  destruct (m w) as [[a|e] w']; [by apply Hf|done].
Qed.

Lemma keeps_try_except {A} (m : M A) (h : exn → M A) :
  keeps_storage_ok m → (∀ e, keeps_storage_ok (h e)) →
  keeps_storage_ok (try_except m h).
Proof.
  intros Hm Hh w Hw. specialize (Hm w Hw). unfold try_except.
  destruct (m w) as [[a|e] w']; [done|by apply Hh].
Qed.

Lemma keeps_when (c : bool) (body : M unit) :
  keeps_storage_ok body → keeps_storage_ok (when c body).
Proof. intros Hbody. destruct c; [done|apply keeps_ret]. Qed.

Lemma keeps_storage_read {A} (f : StorageConn.t → Res A) :
  keeps_storage_ok (storage_read f).
Proof. by intros w. Qed.

Lemma keeps_storage_write {A} (f : StorageConn.t → Res A * StorageConn.t) :
  (∀ st, storage_ok st → storage_ok (f st).2) →
  keeps_storage_ok (storage_write f).
Proof.
  intros Hf w Hw. specialize (Hf _ Hw). unfold storage_write.
  by destruct (f (storage_conn w)).
Qed.

Lemma keeps_emit (ev : Event) : keeps_storage_ok (emit ev).
Proof. by intros w. Qed.

Lemma keeps_getitem {V} (d : gmap string V) (k : string) :
  keeps_storage_ok (getitem d k).
Proof. intros w. unfold getitem. by destruct (d !! k). Qed.

Lemma keeps_as_str (v : pyval) : keeps_storage_ok (as_str v).
Proof. intros w. by destruct v. Qed.

Lemma keeps_str_method (v : pyval) (meth : string) :
  keeps_storage_ok (str_method v meth).
Proof. intros w. by destruct v. Qed.

Lemma keeps_for_each {A} (l : list A) (body : A → M unit) :
  (∀ x, keeps_storage_ok (body x)) → keeps_storage_ok (for_each l body).
Proof.
  intros Hbody. induction l as [|x l IH]; simpl; [apply keeps_ret|].
  by apply keeps_bind.
Qed.

Create HintDb keeps discriminated.

#[local] Hint Resolve keeps_ret keeps_raise keeps_lift keeps_storage_read
  keeps_emit keeps_getitem keeps_as_str keeps_str_method keeps_when
  storage_create_domain_keeps storage_create_record_keeps
  storage_update_domain_keeps storage_update_record_keeps
  storage_delete_record_keeps : keeps.

(** One step through an operation: a bind, a handler, a loop, a Storage
    write, or a case analysis on what the code branches on. *)
Ltac keeps_step :=
  first
    [ apply keeps_bind; [|intros ?]
    | apply keeps_try_except; [|intros ?]
    | apply keeps_when
    | apply keeps_for_each; intros ?
    | apply keeps_storage_write; intros ? ?
    | match goal with
      | |- keeps_storage_ok (match ?x with _ => _ end) => destruct x
      | |- keeps_storage_ok (let '(_, _) := ?x in _) => destruct x
      end
    | solve [eauto with keeps] ].

Section Invariant.
Context (env : Env).

Lemma keeps_policy_check rule context target :
  keeps_storage_ok (policy_check env rule context target).
Proof. intros w. unfold policy_check. by destruct (policy env _ _ _). Qed.

Lemma keeps_backend_call method args :
  keeps_storage_ok (backend_call env method args).
Proof. intros w. unfold backend_call. by destruct (backend env _ _ _). Qed.

Lemma keeps_notify context service event_type payload :
  keeps_storage_ok (notify context service event_type payload).
Proof. apply keeps_emit. Qed.

Hint Resolve keeps_policy_check keeps_backend_call keeps_notify : keeps.

Lemma keeps_is_subdomain_loop context labels i n :
  keeps_storage_ok (_is_subdomain_loop context labels i n).
Proof. revert i. induction n as [|n IH]; intros i; simpl; repeat keeps_step. Qed.

Lemma keeps_is_blacklisted_loop blacklists domain_name :
  keeps_storage_ok (_is_blacklisted_loop env blacklists domain_name).
Proof. induction blacklists as [|b bs IH]; simpl; repeat keeps_step. Qed.

Hint Resolve keeps_is_subdomain_loop keeps_is_blacklisted_loop : keeps.

(** Whatever the service is asked and however the call ends, unique and
    fresh identifiers in Storage stay unique and fresh. *)
Theorem service_keeps_storage_ok context domain_id record_id values criterion
    notification :
  keeps_storage_ok (create_domain env context values) ∧
  keeps_storage_ok (get_domains env context criterion) ∧
  keeps_storage_ok (update_domain env context domain_id values) ∧
  keeps_storage_ok (create_record env context domain_id values) ∧
  keeps_storage_ok (get_record env context domain_id record_id) ∧
  keeps_storage_ok (update_record env context domain_id record_id values) ∧
  keeps_storage_ok (delete_record env context domain_id record_id) ∧
  keeps_storage_ok (ping env context) ∧
  keeps_storage_ok (_process_notification env notification).
Proof.
  unfold create_domain, get_domains, update_domain, create_record, get_record,
    update_record, delete_record, ping, _process_notification,
    _process_notification_for_handler, _is_subdomain,
    _is_blacklisted_domain_name, in_set.
  split_and!; cbv zeta; repeat keeps_step.
Qed.
End Invariant.

(** ** Properties of the rest of the service *)

(** *** Labels *)

Lemma append_assoc (a b c : string) : (a +:+ b) +:+ c = a +:+ b +:+ c.
Proof.
  induction a as [|x a IH]; [done|].
  change (String x ((a +:+ b) +:+ c) = String x (a +:+ b +:+ c)).
  by rewrite IH.
Qed.

Lemma split_not_nil sep s : split sep s ≠ [].
Proof.
  destruct s as [|c s]; simpl; [done|].
  destruct (Ascii.eqb c sep); [done|]. by destruct (split sep s).
Qed.

Lemma split_cons sep c s :
  split sep (String c s) =
  if Ascii.eqb c sep then "" :: split sep s
  else match split sep s with
       | [] => [String c ""]
       | l :: ls => String c l :: ls
       end.
Proof. done. Qed.

Lemma join_cons sep l ls :
  ls ≠ [] → join sep (l :: ls) = l +:+ sep +:+ join sep ls.
Proof. by destruct ls. Qed.

Lemma join_split s : join "." (split "." s) = s.
Proof.
  induction s as [|c s IH]; [done|]. rewrite split_cons.
  pose proof (split_not_nil "." s) as Hne.
  destruct (Ascii.eqb_spec c ".") as [->|Hc].
  - rewrite join_cons by done. simpl. by rewrite IH.
  - destruct (split "." s) as [|l ls]; [done|].
    destruct ls as [|l' ls].
    + simpl in *. by rewrite IH.
    + rewrite join_cons by done. rewrite join_cons in IH by done.
      by rewrite <- IH.
Qed.

Lemma split_app a b :
  split "." (a +:+ "." +:+ b) = (split "." a ++ split "." b)%list.
Proof.
  induction a as [|c a IH].
  - done.
  - change (String c a +:+ "." +:+ b) with (String c (a +:+ "." +:+ b)).
    rewrite !split_cons, IH. destruct (Ascii.eqb c "."); [done|].
    pose proof (split_not_nil "." a) as Hne.
    by destruct (split "." a).
Qed.

Lemma join_app (l1 l2 : list string) :
  l1 ≠ [] → l2 ≠ [] →
  join "." (l1 ++ l2) = join "." l1 +:+ "." +:+ join "." l2.
Proof.
  intros H1 H2. induction l1 as [|x l1 IH]; [done|].
  destruct l1 as [|y l1].
  - change ([x] ++ l2)%list with (x :: l2). by rewrite join_cons.
  - change ((x :: y :: l1) ++ l2)%list with (x :: ((y :: l1) ++ l2))%list.
    rewrite join_cons by done. rewrite IH by done.
    rewrite (join_cons _ x (y :: l1)) by done.
    by rewrite !append_assoc.
Qed.

(** The name from offset [i] on follows a dot in the name from a smaller
    offset on. *)
Lemma join_drop_suffix (labels : list string) i j :
  i < j < List.length labels →
  ∃ q, join "." (drop i labels) = q +:+ "." +:+ join "." (drop j labels).
Proof.
  intros Hij. exists (join "." (take (j - i) (drop i labels))).
  rewrite <- join_app.
  - f_equal. rewrite <- (take_drop (j - i) (drop i labels)) at 1.
    f_equal. rewrite drop_drop. f_equal. lia.
  - intros Hnil. apply (f_equal List.length) in Hnil.
    rewrite length_take, length_drop in Hnil. simpl in Hnil. lia.
  - intros Hnil. apply (f_equal List.length) in Hnil.
    rewrite length_drop in Hnil. simpl in Hnil. lia.
Qed.

Lemma name_criterion (n : string) d :
  ({[ "name" := VStr n ]} : gmap string pyval) ⊆ Domain.to_dict d ↔
  Domain.name d = n.
Proof.
  rewrite map_singleton_subseteq_l. unfold Domain.to_dict.
  rewrite lookup_insert_ne, lookup_insert_eq by done.
  split; [by intros [= ->]|by intros ->].
Qed.

Lemma find_domain_by_name context (n : string) st d :
  StorageConn.find_domain context {[ "name" := VStr n ]} st = Ok d →
  d ∈ StorageConn.domains st ∧ Domain.name d = n.
Proof.
  unfold StorageConn.find_domain, StorageConn.find_domains.
  destruct (filter _ _) as [|d' ds] eqn:Hf; [done|]. intros [= ->].
  assert (d ∈ d :: ds) as Hin by left. rewrite <- Hf in Hin.
  apply list_elem_of_filter in Hin as [Hd Hin]. split; [done|].
  by apply name_criterion.
Qed.

Lemma find_domain_by_name_found context (n : string) st d :
  d ∈ StorageConn.domains st → Domain.name d = n →
  ∃ d', StorageConn.find_domain context {[ "name" := VStr n ]} st = Ok d'.
Proof.
  intros Hin Hn. unfold StorageConn.find_domain, StorageConn.find_domains.
  destruct (filter _ _) as [|d' ds] eqn:Hf; [|eauto].
  exfalso. eapply filter_nil_not_elem_of; [exact Hf| |exact Hin].
  by apply name_criterion.
Qed.

Lemma ancestor_offset st name d :
  is_ancestor st name d →
  ∃ i, 1 ≤ i < List.length (split "." name) ∧
       join "." (drop i (split "." name)) = Domain.name d.
Proof.
  intros [_ [prefix ->]]. exists (List.length (split "." prefix)).
  rewrite split_app, drop_app_length, join_split, length_app.
  pose proof (split_not_nil "." prefix).
  pose proof (split_not_nil "." (Domain.name d)).
  destruct (split "." prefix), (split "." (Domain.name d)); simpl; try done.
  split; [lia|done].
Qed.

(** Property X1.  [_is_subdomain] always returns and leaves the world as it
    was.  The domain it returns is a stored domain whose name follows a dot
    in the given name, and the longest such: the name of every other stored
    ancestor is a suffix of its name.  It returns [False] exactly when no
    stored domain is an ancestor. *)
Theorem is_subdomain_finds_nearest_ancestor context name w :
  ∃ found,
    _is_subdomain context (VStr name) w = (Ok found, w) ∧
    match found with
    | Some d =>
        is_ancestor (storage_conn w) name d ∧
        ∀ d', is_ancestor (storage_conn w) name d' →
              ∃ q, Domain.name d = q +:+ Domain.name d'
    | None => ∀ d, ¬ is_ancestor (storage_conn w) name d
    end.
Proof.
  destruct (is_subdomain_nearest context name w) as (found & Hrun & Hnear).
  exists found. split; [done|]. simpl in Hnear.
  destruct found as [d|]; simpl in Hnear.
  - destruct Hnear as (i & Hi & Hd & Hfirst).
    unfold ancestor in Hd.
    apply (find_domain_by_name context) in Hd as [Hin Hname]. split.
    + split; [done|].
      exists (join "." (take i (split "." name))). rewrite Hname.
      rewrite <- join_app.
      * by rewrite take_drop, join_split.
      * intros Hnil. apply (f_equal List.length) in Hnil.
        rewrite length_take in Hnil. simpl in Hnil. lia.
      * intros Hnil. apply (f_equal List.length) in Hnil.
        rewrite length_drop in Hnil. simpl in Hnil. lia.
    + intros d' Hd'. destruct (ancestor_offset _ _ _ Hd') as (j & Hj & Hjname).
      destruct Hd' as [Hin' _].
      destruct (decide (j < i)) as [Hlt|Hge].
      * specialize (Hfirst j ltac:(lia)). unfold ancestor in Hfirst.
        destruct (find_domain_by_name_found context _ _ _ Hin' (eq_sym Hjname))
          as [d'' Hd'']. by rewrite Hd'' in Hfirst.
      * destruct (decide (i = j)) as [->|Hne].
        { exists "". rewrite Hname. exact Hjname. }
        destruct (join_drop_suffix (split "." name) i j) as [q Hq]; [lia|].
        exists (q +:+ "."). rewrite Hname, Hq, Hjname.
        by rewrite !append_assoc.
  - intros d Hd. destruct (ancestor_offset _ _ _ Hd) as (j & Hj & Hjname).
    destruct Hd as [Hin _]. specialize (Hnear j Hj). unfold ancestor in Hnear.
    destruct (find_domain_by_name_found context _ _ _ Hin (eq_sym Hjname))
      as [d'' Hd'']. by rewrite Hd'' in Hnear.
Qed.

(** *** Creating a domain, in full *)

Lemma world_eta w : mkWorld (storage_conn w) (trace w) = w.
Proof. by destruct w. Qed.

Section CreateDomain.
Context (env : Env).

Lemma create_domain_not_a_name context values w :
  (∀ name, values !! "name" ≠ Some (VStr name)) →
  ∃ e, create_domain env context values w = (Raise e, w).
Proof.
  intros Hname. unfold create_domain.
  destruct (values !! "name") as [v|] eqn:Hv.
  - erewrite bind_ok
      by (unfold getitem; rewrite lookup_insert_ne, Hv by done; reflexivity).
    destruct (policy env "create_domain" context
                {[ "tenant_id" := Ctx.tenant_id context; "domain_name" := v ]})
      eqn:Hp.
    + erewrite bind_ok by (by apply policy_check_granted).
      unfold _is_blacklisted_domain_name.
      destruct (domain_name_blacklist env) as [|b bs].
      * erewrite bind_ok by reflexivity. erewrite bind_ok by reflexivity.
        destruct v as [| | |s]; try (eexists; reflexivity).
        by destruct (Hname s).
      * simpl. unfold mbind at 1 2, M_bind at 1 2, lift.
        destruct (re_search env b); [|by eexists].
        destruct v as [| | |s]; try (eexists; reflexivity).
        by destruct (Hname s).
    + erewrite bind_raise by (by apply policy_check_denied). eauto.
  - erewrite bind_raise
      by (unfold getitem; rewrite lookup_insert_ne, Hv by done; reflexivity).
    eauto.
Qed.

(** Either [create_domain] raises before the server check, leaving the
    world as it was, or it goes on to the last steps with the values
    settled. *)
Lemma create_domain_cases context values w :
  (∃ e, create_domain env context values w = (Raise e, w)) ∨
  (∃ name found,
     values !! "name" = Some (VStr name) ∧
     _is_subdomain context (VStr name) w = (Ok found, w) ∧
     create_domain env context values w
     = persist_domain env context (stored_values context values found) w).
Proof.
  destruct (values !! "name") as [[| | |name]|] eqn:Hv;
    try (left; apply create_domain_not_a_name; by rewrite Hv).
  destruct (is_subdomain_nearest context name w) as (found & Hsub & _).
  destruct (is_blacklisted_cases env context name w) as [Hbl|[e Hbl]];
    [|left; rewrite (create_domain_bad_pattern env _ _ name e) by done;
      by eauto].
  rewrite (create_domain_unfold env _ _ name found) by done. simpl.
  destruct (negb _); [left; eauto|]. destruct (_ && _); [left; eauto|].
  destruct found as [parent|].
  - destruct (py_eq _ _); [|left; eauto]. right. by exists name, (Some parent).
  - right. by exists name, None.
Qed.

Lemma persist_cases context values w :
  (∃ e, persist_domain env context values w = (Raise e, w)) ∨
  (∃ d st,
     StorageConn.create_domain context values (storage_conn w) = (Ok d, st) ∧
     persist_domain env context values w =
     match backend env (trace w) "create_domain" [EDomain d] with
     | None =>
         (Ok d,
          mkWorld st (trace w ++ [BackendCall "create_domain" [EDomain d];
                                  Notify "api" "domain.create" (EDomain d)]))
     | Some e =>
         (Raise e,
          mkWorld st (trace w ++ [BackendCall "create_domain" [EDomain d]]))
     end).
Proof.
  destruct (decide (StorageConn.servers (storage_conn w) = [])) as [Hs|Hs].
  { left. rewrite persist_no_servers by done. eauto. }
  rewrite persist_unfold by done.
  destruct (StorageConn.create_domain _ _ _) as [[d|e] st] eqn:Hc.
  - right. exists d, st. split; [done|]. simpl.
    destruct (backend env _ _ _); [done|]. by rewrite <- app_assoc.
  - left. exists e. f_equal.
    assert (st = storage_conn w) as ->; [|apply world_eta].
    unfold StorageConn.create_domain in Hc.
    destruct (values !! "name") as [[| | |name]|]; try by injection Hc.
    destruct (bool_decide _); by injection Hc.
Qed.

(** Property X2.  [create_domain] ends in one of three ways.  It raises with
    Storage and trace untouched; or it appends one domain of the caller's
    tenant to Storage and calls the backend with it, and then either the
    backend returns, the notification [domain.create] follows and the domain
    is returned, or the backend raises, the exception reaches the caller, no
    notification is sent and the domain stays in Storage. *)
Theorem create_domain_outcomes context values w :
  (∃ e, create_domain env context values w = (Raise e, w)) ∨
  (∃ d,
     StorageConn.domains (storage_conn (create_domain env context values w).2)
       = (StorageConn.domains (storage_conn w) ++ [d])%list ∧
     Domain.tenant_id d = Ctx.tenant_id context ∧
     let called := BackendCall "create_domain" [EDomain d] in
     match backend env (trace w) "create_domain" [EDomain d] with
     | None =>
         (create_domain env context values w).1 = Ok d ∧
         trace (create_domain env context values w).2
           = (trace w
              ++ [called; Notify "api" "domain.create" (EDomain d)])%list
     | Some e =>
         (create_domain env context values w).1 = Raise e ∧
         trace (create_domain env context values w).2
           = (trace w ++ [called])%list
     end).
Proof.
  destruct (create_domain_cases context values w)
    as [?|(name & found & Hname & Hsub & ->)]; [by left|].
  destruct (persist_cases context (stored_values context values found) w)
    as [?|(d & st & Hc & ->)]; [by left|].
  right. exists d.
  apply storage_create_domain_ok in Hc as (_ & Htenant & _ & Hdomains).
  assert (Domain.tenant_id d = Ctx.tenant_id context) as Ht.
  { rewrite Htenant. unfold StorageConn.col, stored_values.
    destruct found; by simplify_map_eq. }
  by destruct (backend env _ _ _).
Qed.

Lemma storage_create_domain_new_name context values st d st' :
  StorageConn.create_domain context values st = (Ok d, st') →
  Domain.name d ∉ (Domain.name <$> StorageConn.domains st).
Proof.
  unfold StorageConn.create_domain.
  destruct (values !! "name") as [[| | |name]|]; try done.
  case_bool_decide; [done|]. by intros [= <- <-].
Qed.

Lemma create_domain_returned context values w d w' :
  create_domain env context values w = (Ok d, w') →
  ∃ found,
    (∃ name, values !! "name" = Some (VStr name) ∧
             _is_subdomain context (VStr name) w = (Ok found, w)) ∧
    StorageConn.create_domain context (stored_values context values found)
      (storage_conn w) = (Ok d, storage_conn w').
Proof.
  intros Hrun.
  destruct (create_domain_cases context values w)
    as [[e He]|(name & found & Hname & Hsub & Hpersist)]; [congruence|].
  exists found. split; [eauto|]. rewrite Hpersist in Hrun.
  destruct (persist_cases context (stored_values context values found) w)
    as [[e He]|(d0 & st & Hc & Hp)]; [congruence|].
  rewrite Hp in Hrun. destruct (backend env _ _ _); [done|].
  by injection Hrun as <- <-.
Qed.

Lemma find_created_domain context st d :
  Domain.name d ∉ (Domain.name <$> StorageConn.domains st) →
  ∀ st', StorageConn.domains st' = (StorageConn.domains st ++ [d])%list →
  StorageConn.find_domain context {[ "name" := VStr (Domain.name d) ]} st'
  = Ok d.
Proof.
  intros Hnew st' Hst'.
  unfold StorageConn.find_domain, StorageConn.find_domains.
  rewrite Hst', filter_app, filter_none.
  - simpl. rewrite filter_cons_True; [done|]. by apply name_criterion.
  - intros y Hy Hmatch%name_criterion. apply Hnew. rewrite <- Hmatch.
    by apply list_elem_of_fmap_2.
Qed.

Lemma is_subdomain_of_child context w d child :
  child_of (Domain.name d) child →
  StorageConn.find_domain context {[ "name" := VStr (Domain.name d) ]}
    (storage_conn w) = Ok d →
  _is_subdomain context (VStr child) w = (Ok (Some d), w).
Proof.
  intros (label & Hlabel & ->) Hfind.
  destruct (is_subdomain_nearest context (label +:+ "." +:+ Domain.name d) w)
    as (found & -> & Hnear).
  cbv zeta in Hnear. rewrite split_app, Hlabel in Hnear.
  change ([label] ++ split "." (Domain.name d))%list
    with (label :: split "." (Domain.name d)) in Hnear.
  assert (ancestor context (storage_conn w)
            (label :: split "." (Domain.name d)) 1 = Ok d) as Hone.
  { unfold ancestor.
    change (drop 1 (label :: split "." (Domain.name d)))
      with (split "." (Domain.name d)).
    by rewrite join_split. }
  assert (1 < List.length (label :: split "." (Domain.name d))) as Hlen.
  { pose proof (split_not_nil "." (Domain.name d)).
    destruct (split "." (Domain.name d)); [done|]. simpl. lia. }
  destruct found as [d'|]; unfold nearest in Hnear.
  - destruct Hnear as (i & Hi & Hd' & Hfirst).
    destruct (decide (i = 1)) as [->|Hne].
    + rewrite Hone in Hd'. by injection Hd' as ->.
    + specialize (Hfirst 1 ltac:(lia)). rewrite Hone in Hfirst. done.
  - specialize (Hnear 1 ltac:(lia)). rewrite Hone in Hnear. done.
Qed.

(** Property X3.  Once [create_domain] has returned a domain, a later
    [create_domain] for a name one label below it finds it as the parent:
    a caller of another tenant is refused and nothing changes, with
    Forbidden when the configured patterns are regular expressions, and
    for a caller of the same tenant every domain returned has the first
    domain's id as its [parent_domain_id]. *)
Theorem created_domain_guards_children context values w d w' :
  create_domain env context values w = (Ok d, w') →
  ∀ context' values' child,
    child_of (Domain.name d) child →
    values' !! "name" = Some (VStr child) →
    (py_eq (Ctx.tenant_id context) (Ctx.tenant_id context') = false →
     ∃ e, create_domain env context' values' w' = (Raise e, w') ∧
          (valid_patterns env → ∃ msg, e = Forbidden msg)) ∧
    (py_eq (Ctx.tenant_id context) (Ctx.tenant_id context') = true →
     ∀ d' w'', create_domain env context' values' w' = (Ok d', w'') →
               Domain.parent_domain_id d' = VStr (Domain.id d)).
Proof.
  intros Hrun context' values' child Hchild Hname.
  destruct (create_domain_returned _ _ _ _ _ Hrun) as (found & _ & Hc).
  pose proof (storage_create_domain_new_name _ _ _ _ _ Hc) as Hnew.
  pose proof (storage_create_domain_ok _ _ _ _ _ Hc) as (_ & Ht & _ & Hdoms).
  assert (Domain.tenant_id d = Ctx.tenant_id context) as Htenant.
  { rewrite Ht. unfold StorageConn.col, stored_values.
    destruct found; by simplify_map_eq. }
  pose proof (is_subdomain_of_child context' w' d child Hchild
                (find_created_domain context' _ d Hnew _ Hdoms)) as Hsub.
  destruct (is_blacklisted_cases env context' child w') as [Hbl|[e Hbl]];
    last first.
  { rewrite (create_domain_bad_pattern env _ _ child e) by done. split.
    - intros _. eexists. split; [done|]. intros Hvalid.
      by rewrite is_blacklisted_str in Hbl.
    - by intros _ d' w''. }
  rewrite (create_domain_unfold env _ _ child (Some d)) by done. simpl.
  rewrite Htenant. split.
  - intros ->. unfold policy_denied, cross_tenant.
    destruct (negb _); [by eauto|]. destruct (_ && _); by eauto.
  - intros -> d' w''. destruct (negb _); [done|]. destruct (_ && _); [done|].
    intros [Hp _]%persist_created. rewrite Hp. unfold StorageConn.col.
    by rewrite lookup_insert_eq.
Qed.

(** Property X4.  When no stored ancestor is found, [create_domain] does not
    touch [values['parent_domain_id']]: the domain it returns carries
    whatever the caller supplied there. *)
Theorem create_domain_keeps_supplied_parent context values name w d w' :
  values !! "name" = Some (VStr name) →
  _is_subdomain context (VStr name) w = (Ok None, w) →
  create_domain env context values w = (Ok d, w') →
  Domain.parent_domain_id d = StorageConn.col values "parent_domain_id".
Proof.
  intros Hname Hsub Hrun.
  destruct (is_blacklisted_cases env context name w) as [Hbl|[e Hbl]];
    [|by rewrite (create_domain_bad_pattern env _ _ name e) in Hrun].
  rewrite (create_domain_unfold env _ _ name None) in Hrun by done.
  simpl in Hrun. destruct (negb _); [done|]. destruct (_ && _); [done|].
  apply persist_created in Hrun as [-> _]. unfold StorageConn.col.
  by rewrite lookup_insert_ne.
Qed.

(** Property X5.  [create_domain] reads [values['name']] before anything
    else: without that key it raises [KeyError], and with a name that is not
    a string it raises; in both cases nothing is written or sent. *)
Theorem create_domain_needs_a_name context values w :
  (values !! "name" = None →
   create_domain env context values w = (Raise (KeyError "name"), w)) ∧
  ((∀ name, values !! "name" ≠ Some (VStr name)) →
   ∃ e, create_domain env context values w = (Raise e, w)).
Proof.
  split; [|apply create_domain_not_a_name].
  intros Hname. unfold create_domain.
  by erewrite bind_raise
    by (unfold getitem; rewrite lookup_insert_ne, Hname by done; reflexivity).
Qed.
End CreateDomain.

(** *** Reading and deleting a domain *)

Lemma get_domain_unknown context domain_id st :
  (∀ d, d ∈ StorageConn.domains st → Domain.id d ≠ domain_id) →
  StorageConn.get_domain context domain_id st = Raise DomainNotFound.
Proof.
  intros Hno. unfold StorageConn.get_domain, StorageConn.find_domain,
    StorageConn.find_domains.
  rewrite filter_none; [done|].
  intros d Hd Hmatch%domain_id_criterion. by apply (Hno d).
Qed.

Lemma get_record_unknown context record_id st :
  (∀ r, r ∈ StorageConn.records st → DnsRecord.id r ≠ record_id) →
  StorageConn.get_record context record_id st = Raise RecordNotFound.
Proof.
  intros Hno. unfold StorageConn.get_record, StorageConn.find_records.
  rewrite filter_none; [done|].
  intros r Hr Hmatch%record_id_criterion. by apply (Hno r).
Qed.

Section Domains.
Context (env : Env).

(** Property X6.  [get_domain] never changes the world.  The lookup comes
    before the policy check: an unknown id raises DomainNotFound whoever
    asks; for a stored domain the policy [get_domain] is asked with the
    stored name and tenant, and the domain is returned or Forbidden raised. *)
Theorem get_domain_outcomes context domain_id w :
  (get_domain env context domain_id w).2 = w ∧
  ((∀ d, d ∈ StorageConn.domains (storage_conn w) →
         Domain.id d ≠ domain_id) →
   get_domain env context domain_id w = (Raise DomainNotFound, w)) ∧
  (∀ D, unique_ids (storage_conn w) →
        D ∈ StorageConn.domains (storage_conn w) →
        Domain.id D = domain_id →
        get_domain env context domain_id w
        = (if policy env "get_domain" context (domain_target D)
           then Ok D else Raise policy_denied, w)).
Proof.
  unfold get_domain, mbind, M_bind, storage_read, policy_check.
  split_and!.
  - destruct (StorageConn.get_domain _ _ _); [|done].
    by destruct (policy env _ _ _).
  - intros Hno. by rewrite get_domain_unknown.
  - intros D Hu HD <-. rewrite get_domain_stored by done.
    fold (domain_target D). by destruct (policy env _ _ _).
Qed.

Lemma storage_delete_domain_stored context st D :
  unique_ids st → D ∈ StorageConn.domains st →
  ∃ st', StorageMore.delete_domain context (Domain.id D) st = (Ok D, st') ∧
         StorageConn.get_domain context (Domain.id D) st'
           = Raise DomainNotFound ∧
         StorageConn.records st' = StorageConn.records st ∧
         StorageConn.servers st' = StorageConn.servers st ∧
         ∀ d, d ∈ StorageConn.domains st' ↔
              d ∈ StorageConn.domains st ∧ Domain.id d ≠ Domain.id D.
Proof.
  intros Hu HD. unfold StorageMore.delete_domain.
  rewrite get_domain_stored by done. eexists. split; [done|].
  split_and!; [|done..|].
  - apply get_domain_unknown. simpl. by intros d [? _]%list_elem_of_filter.
  - intros d. simpl. rewrite list_elem_of_filter. tauto.
Qed.

(** Property X7.  [delete_domain] of a stored domain: a refused caller gets
    Forbidden and nothing changes; otherwise the backend is called first,
    and only if it returns is the notification [domain.delete] sent and the
    domain, and no other, removed from Storage, after which its id is
    unknown.  If the backend raises the domain stays in Storage. *)
Theorem delete_domain_outcomes context w D :
  unique_ids (storage_conn w) →
  D ∈ StorageConn.domains (storage_conn w) →
  ∃ st',
    StorageConn.get_domain context (Domain.id D) st' = Raise DomainNotFound ∧
    (∀ d, d ∈ StorageConn.domains st' ↔
          d ∈ StorageConn.domains (storage_conn w) ∧
          Domain.id d ≠ Domain.id D) ∧
    let called := BackendCall "delete_domain" [EDomain D] in
    delete_domain env context (Domain.id D) w =
    if policy env "delete_domain" context (domain_target D) then
      match backend env (trace w) "delete_domain" [EDomain D] with
      | None =>
          (Ok D,
           mkWorld st'
             (trace w ++ [called; Notify "api" "domain.delete" (EDomain D)]))
      | Some e => (Raise e, mkWorld (storage_conn w) (trace w ++ [called]))
      end
    else (Raise policy_denied, w).
Proof.
  intros Hu HD.
  destruct (storage_delete_domain_stored context _ D Hu HD)
    as (st' & Hdel & Hgone & _ & _ & Hrest).
  exists st'. split_and!; [done..|]. simpl.
  unfold delete_domain, mbind, M_bind, storage_read, storage_write,
    policy_check, backend_call, notify, emit.
  rewrite get_domain_stored by done. fold (domain_target D).
  destruct (policy env _ _ _); [|done]. simpl.
  destruct (backend env _ _ _); [done|]. simpl. rewrite Hdel.
  by rewrite <- app_assoc.
Qed.

(** Property X8.  [get_records] of a stored domain leaves the world as it
    was and, for a caller granted [get_records] on that domain, returns
    exactly the stored records of that domain that match the criterion. *)
Theorem get_records_outcomes context w D criterion :
  unique_ids (storage_conn w) →
  D ∈ StorageConn.domains (storage_conn w) →
  ∃ rs,
    (∀ r, r ∈ rs ↔
          r ∈ StorageConn.records (storage_conn w) ∧
          DnsRecord.domain_id r = Domain.id D ∧
          default ∅ criterion ⊆ DnsRecord.to_dict r) ∧
    get_records env context (Domain.id D) criterion w
    = (if policy env "get_records" context (domain_target D)
       then Ok rs else Raise policy_denied, w).
Proof.
  intros Hu HD. eexists. split; last first.
  - unfold get_records, mbind, M_bind, storage_read, policy_check.
    rewrite get_domain_stored by done. fold (domain_target D).
    destruct (policy env _ _ _); [|done]. reflexivity.
  - intros r. rewrite list_elem_of_filter. tauto.
Qed.
End Domains.

(** *** Creating and deleting a record *)

Section Records.
Context (env : Env).

Lemma storage_delete_record_stored context st R :
  unique_ids st → R ∈ StorageConn.records st →
  ∃ st', StorageConn.delete_record context (DnsRecord.id R) st = (Ok R, st') ∧
         StorageConn.get_record context (DnsRecord.id R) st'
           = Raise RecordNotFound ∧
         StorageConn.domains st' = StorageConn.domains st ∧
         ∀ r, r ∈ StorageConn.records st' ↔
              r ∈ StorageConn.records st ∧ DnsRecord.id r ≠ DnsRecord.id R.
Proof.
  intros Hu HR. unfold StorageConn.delete_record.
  rewrite get_record_stored by done. eexists. split; [done|].
  split_and!; [|done|].
  - apply get_record_unknown. simpl. by intros r [? _]%list_elem_of_filter.
  - intros r. simpl. rewrite list_elem_of_filter. tauto.
Qed.

(** Property X9.  [delete_record] of a stored record through its own domain:
    a refused caller gets Forbidden and nothing changes; otherwise the
    backend is called first, and only if it returns is the notification
    [record.delete] sent and that record, and no other, removed, after which
    [get_record] raises RecordNotFound for every caller.  If the backend
    raises the record stays in Storage. *)
Theorem delete_record_outcomes context w D R :
  unique_ids (storage_conn w) →
  D ∈ StorageConn.domains (storage_conn w) →
  R ∈ StorageConn.records (storage_conn w) →
  DnsRecord.domain_id R = Domain.id D →
  ∃ st',
    (∀ context', get_record env context' (Domain.id D) (DnsRecord.id R)
                   (mkWorld st' (trace w))
                 = (Raise RecordNotFound, mkWorld st' (trace w))) ∧
    (∀ r, r ∈ StorageConn.records st' ↔
          r ∈ StorageConn.records (storage_conn w) ∧
          DnsRecord.id r ≠ DnsRecord.id R) ∧
    let called := BackendCall "delete_record" [EDomain D; ERecord R] in
    delete_record env context (Domain.id D) (DnsRecord.id R) w =
    if policy env "delete_record" context (record_target D R) then
      match backend env (trace w) "delete_record" [EDomain D; ERecord R] with
      | None =>
          (Ok R,
           mkWorld st'
             (trace w ++ [called; Notify "api" "record.delete" (ERecord R)]))
      | Some e => (Raise e, mkWorld (storage_conn w) (trace w ++ [called]))
      end
    else (Raise policy_denied, w).
Proof.
  intros Hu HD HR Hmatch.
  destruct (storage_delete_record_stored context _ R Hu HR)
    as (st' & Hdel & Hgone & Hdoms & Hrest).
  exists st'. split_and!; [|done|].
  - intros context'. unfold get_record, mbind, M_bind, storage_read. simpl.
    assert (StorageConn.get_domain context' (Domain.id D) st' = Ok D) as ->.
    { unfold StorageConn.get_domain, StorageConn.find_domain,
        StorageConn.find_domains. rewrite Hdoms.
      by apply (get_domain_stored context' (storage_conn w)). }
    assert (StorageConn.get_record context' (DnsRecord.id R) st'
            = Raise RecordNotFound) as ->; [|done].
    apply get_record_unknown. intros r Hr. by apply Hrest in Hr as [_ ?].
  - simpl. unfold delete_record, mbind, M_bind, storage_read, storage_write,
      policy_check, backend_call, notify, emit.
    rewrite get_domain_stored, get_record_stored by done.
    rewrite Hmatch, String.eqb_refl. simpl. fold (record_target D R).
    destruct (policy env _ _ _); [|done]. simpl.
    destruct (backend env _ _ _); [done|]. simpl. rewrite Hdel.
    by rewrite <- app_assoc.
Qed.

Lemma create_record_returned context domain_id values w r w' :
  create_record env context domain_id values w = (Ok r, w') →
  (∃ D, StorageConn.get_domain context domain_id (storage_conn w) = Ok D) ∧
  StorageConn.create_record context domain_id values (storage_conn w)
    = (Ok r, storage_conn w').
Proof.
  unfold create_record, mbind, M_bind, storage_read, storage_write, getitem,
    policy_check, backend_call, notify, emit.
  destruct (StorageConn.get_domain _ _ _) as [D|]; [|done].
  destruct (values !! "name") as [name|] eqn:Hname; [|done]. simpl.
  destruct (policy env _ _ _); [|done]. simpl.
  destruct name as [| | |name]; try done. simpl.
  destruct (endswith name (Domain.name D)); [|done]. simpl.
  destruct (StorageConn.create_record _ _ _ _) as [[r0|e] st]; [|done]. simpl.
  destruct (backend env _ _ _); [done|]. simpl.
  intros [= <- <-]. eauto.
Qed.

(** Property X10.  A record returned by [create_record] belongs to the
    domain it was created in, and [get_record] with that domain's id and the
    new record's id returns it to every caller granted [get_record]. *)
Theorem created_record_is_found context domain_id values w r w' :
  storage_ok (storage_conn w) →
  create_record env context domain_id values w = (Ok r, w') →
  DnsRecord.domain_id r = domain_id ∧
  ∀ context' D,
    StorageConn.get_domain context' domain_id (storage_conn w') = Ok D →
    get_record env context' domain_id (DnsRecord.id r) w'
    = (if policy env "get_record" context' (record_target D r)
       then Ok r else Raise policy_denied, w').
Proof.
  intros Hok Hrun.
  destruct (create_record_returned _ _ _ _ _ _ Hrun) as [_ Hc].
  pose proof (storage_create_record_keeps context domain_id values _ Hok)
    as [Hu' _].
  rewrite Hc in Hu'. simpl in Hu'.
  unfold StorageConn.create_record in Hc.
  destruct (values !! "name") as [[| | |name]|]; try done.
  injection Hc as <- Hst. split; [done|].
  intros context' D HD.
  unfold get_record, mbind, M_bind, storage_read, policy_check. rewrite HD.
  set (r := DnsRecord.mk _ _ _ _ _ _) in *.
  assert (StorageConn.get_record context' (DnsRecord.id r) (storage_conn w')
          = Ok r) as ->.
  { apply get_record_stored; [done|]. rewrite <- Hst. simpl. set_solver. }
  apply get_domain_id in HD. subst domain_id.
  change (DnsRecord.domain_id r) with (Domain.id D). rewrite String.eqb_refl.
  simpl. fold (record_target D r).
  by destruct (policy env _ _ _).
Qed.
End Records.

(** *** Updating a domain; notifications and the blacklist *)

Section UpdateAndDispatch.
Context (env : Env).

Lemma storage_update_domain_stored context st D values :
  unique_ids st → D ∈ StorageConn.domains st →
  ∃ st', StorageConn.update_domain context (Domain.id D) values st
         = (Ok (StorageConn.updated_domain D values), st') ∧
         StorageConn.get_domain context (Domain.id D) st'
         = Ok (StorageConn.updated_domain D values).
Proof.
  intros Hu HD. unfold StorageConn.update_domain.
  rewrite get_domain_stored by done. eexists. split; [done|].
  set (D' := StorageConn.updated_domain D values).
  set (st' := StorageConn.mk _ _ _ _).
  assert (Domain.id D' = Domain.id D) as Hid by done.
  rewrite <- Hid. apply get_domain_stored.
  - destruct Hu as [Hd Hr]. split; [|done]. simpl.
    by rewrite (replace_keeps_keys Domain.id).
  - simpl. apply list_elem_of_fmap. exists D. split; [|done].
    by rewrite bool_decide_eq_true_2.
Qed.

(** Property X11.  [update_domain] of a stored domain with values that do
    not rename it: a caller refused by one of the policy checks gets
    Forbidden and nothing changes; otherwise Storage holds the updated
    domain, with the same name and the supplied tenant if there is one, the
    backend is called with it, and the notification [domain.update] follows
    only if the backend returns.  A backend failure leaves the update in
    Storage. *)
Theorem update_domain_outcomes context w D values :
  unique_ids (storage_conn w) →
  D ∈ StorageConn.domains (storage_conn w) →
  (∀ name, values !! "name" = Some name → name = VStr (Domain.name D)) →
  let D' := StorageConn.updated_domain D values in
  ∃ st',
    StorageConn.get_domain context (Domain.id D) st' = Ok D' ∧
    Domain.name D' = Domain.name D ∧
    Domain.tenant_id D' = default (Domain.tenant_id D) (values !! "tenant_id") ∧
    let called := BackendCall "update_domain" [EDomain D'] in
    update_domain env context (Domain.id D) values w =
    if update_authorized env context D values then
      match backend env (trace w) "update_domain" [EDomain D'] with
      | None =>
          (Ok D',
           mkWorld st'
             (trace w ++ [called; Notify "api" "domain.update" (EDomain D')]))
      | Some e => (Raise e, mkWorld st' (trace w ++ [called]))
      end
    else (Raise policy_denied, w).
Proof.
  intros Hu HD Hname D'.
  destruct (storage_update_domain_stored context _ D values Hu HD)
    as (st' & Hupd & Hget).
  exists st'. split_and!; [done| |done|].
  { unfold D', StorageConn.updated_domain. simpl.
    destruct (values !! "name") as [name|] eqn:Hn; [|done].
    by rewrite (Hname name eq_refl). }
  simpl. unfold update_domain, update_authorized.
  erewrite bind_ok by (unfold storage_read; by rewrite get_domain_stored).
  fold (domain_target D).
  assert (∀ w0, w0 = w →
    (match values !! "name" with
     | Some name =>
         when (negb (py_eq name (VStr (Domain.name D))))
           (raise (BadRequest "Renaming a domain is not allowed"))
     | None => mret ()
     end ≫= λ _,
       storage_write (StorageConn.update_domain context (Domain.id D) values)
       ≫= λ domain,
         backend_call env "update_domain" [EDomain domain];;
         notify context "api" "domain.update" (EDomain domain);;
         mret domain) w0
    = match backend env (trace w) "update_domain" [EDomain D'] with
      | None =>
          (Ok D',
           mkWorld st'
             (trace w ++ [BackendCall "update_domain" [EDomain D'];
                          Notify "api" "domain.update" (EDomain D')]))
      | Some e =>
          (Raise e,
           mkWorld st' (trace w ++ [BackendCall "update_domain" [EDomain D']]))
      end) as Hstore.
  { intros w0 ->.
    assert ((match values !! "name" with
             | Some name =>
                 when (negb (py_eq name (VStr (Domain.name D))))
                   (raise (BadRequest "Renaming a domain is not allowed"))
             | None => mret ()
             end) w = (Ok (), w)) as Hcheck.
    { destruct (values !! "name") as [name|] eqn:Hn; [|done].
      by rewrite (Hname name eq_refl), py_eq_refl. }
    rewrite (bind_ok _ _ _ _ _ Hcheck).
    unfold mbind, M_bind, storage_write, backend_call, notify, emit.
    rewrite Hupd. simpl. fold D'.
    destruct (backend env _ _ _); [done|]. simpl. by rewrite <- app_assoc. }
  destruct (policy env "update_domain" context _) eqn:Hupdate; simpl;
    [|by erewrite bind_raise by (by apply policy_check_denied)].
  erewrite bind_ok by (by apply policy_check_granted).
  destruct (values !! "tenant_id") as [tenant_id|].
  - destruct (policy env "delete_domain" context _) eqn:Hdelete; simpl.
    + destruct (policy env "create_domain" context _) eqn:Hcreate; simpl.
      * erewrite bind_ok;
          [|erewrite bind_ok by (by apply policy_check_granted);
            by apply policy_check_granted].
        by apply Hstore.
      * erewrite bind_raise; [done|].
        erewrite bind_ok by (by apply policy_check_granted).
        by apply policy_check_denied.
    + erewrite bind_raise; [done|].
      erewrite bind_raise; [done|]. by apply policy_check_denied.
  - erewrite bind_ok by done. by apply Hstore.
Qed.

(** Property X12.  A notification without [event_type] is dropped silently
    by [_process_notification].  One whose event type some handler declares
    but which has no [payload] raises [KeyError] at the first handler,
    before any handler is called. *)
Theorem malformed_notification notification w :
  (notification !! "event_type" = None →
   _process_notification env notification w = (Ok (), w)) ∧
  (∀ et, notification !! "event_type" = Some (OVal (VStr et)) →
         et ∈ _get_handler_event_types env →
         notification !! "payload" = None →
         _process_notification env notification w
         = (Raise (KeyError "payload"), w)).
Proof.
  split.
  - intros Hno. unfold _process_notification. by rewrite Hno.
  - intros et Het Hin Hno. unfold _process_notification. rewrite Het. simpl.
    unfold mbind at 1, M_bind at 1, mret, M_ret.
    rewrite bool_decide_eq_true_2 by done. simpl.
    apply elem_of_handler_event_types in Hin as (h & Hh & _).
    destruct (handlers env) as [|h0 hs]; [by apply elem_of_nil in Hh|].
    simpl. erewrite bind_raise; [done|].
    unfold _process_notification_for_handler, getitem. rewrite Het, Hno.
    reflexivity.
Qed.

(** Property X13.  [_get_handler_event_types] is the union of the event
    types of the handlers: an event type is in it exactly when some handler
    declares it, and without handlers it is empty. *)
Theorem handler_event_types_union et :
  (et ∈ _get_handler_event_types env ↔
   ∃ h, h ∈ handlers env ∧ et ∈ Handler.get_event_types h) ∧
  (handlers env = [] → _get_handler_event_types env = ∅).
Proof.
  split; [apply elem_of_handler_event_types|].
  unfold _get_handler_event_types. by intros ->.
Qed.

(** Property X14.  [_is_blacklisted_domain_name] leaves the world as it
    was and tries the configured patterns in order.  It returns the first
    pattern that matches, the patterns before it being regular
    expressions that do not match; it raises the error of the first
    pattern that is not a regular expression when none before it
    matches; and it returns [False] when all are regular expressions and
    none matches. *)
Theorem blacklist_result context name w :
  ∃ r,
    _is_blacklisted_domain_name env context (VStr name) w = (r, w) ∧
    ((r = Ok (VBool false) ∧
      ∀ p, p ∈ domain_name_blacklist env → misses env p name = true) ∨
     (∃ p before after,
        domain_name_blacklist env = (before ++ p :: after)%list ∧
        (∀ q, q ∈ before → misses env q name = true) ∧
        ((matches env p name = true ∧ r = Ok (VStr p)) ∨
         (∃ e, re_search env p = Raise e ∧ r = Raise e)))).
Proof.
  unfold _is_blacklisted_domain_name.
  induction (domain_name_blacklist env) as [|p ps IH]; simpl.
  - eexists. split; [done|]. left. split; [done|]. by intros p ?%elem_of_nil.
  - unfold mbind at 1 2, M_bind at 1 2, lift, mret, M_ret. simpl.
    destruct (re_search env p) as [search|e] eqn:Hp.
    + destruct (search name) eqn:Hs.
      * eexists. split; [done|]. right. exists p, [], ps.
        split_and!; [done| |].
        -- by intros q ?%elem_of_nil.
        -- left. unfold matches. by rewrite Hp.
      * assert (misses env p name = true) as Hmiss.
        { unfold misses. by rewrite Hp, Hs. }
        destruct IH as (r & -> & Hr). exists r. split; [done|].
        destruct Hr as [[-> Hnone]|(q & before & after & -> & Hb & Hq)].
        -- left. split; [done|]. intros q [->|?]%elem_of_cons; auto.
        -- right. exists q, (p :: before), after. split_and!; [done| |done].
           intros q' [->|?]%elem_of_cons; auto.
    + eexists. split; [done|]. right. exists p, [], ps.
      split_and!; [done| |].
      * by intros q ?%elem_of_nil.
      * right. by exists e.
Qed.
End UpdateAndDispatch.

(** *** Synchronising the backend *)

Lemma journaled_nil c : journaled c [] = c.
Proof. destruct c. unfold journaled. simpl. by rewrite app_nil_r. Qed.

Lemma journaled_app c l1 l2 :
  journaled (journaled c l1) l2 = journaled c (l1 ++ l2).
Proof. unfold journaled. simpl. by rewrite app_assoc. Qed.

Lemma central_eta c :
  mkCentral (world c) (tsigkeys c) (rpc_conn c) (journal c) = c.
Proof. by destruct c. Qed.

Lemma nbind_returned {A B} (m : N A) (f : A → N B) c a c' :
  m c = (Returned a, c') → (m ≫= f) c = f a c'.
Proof. unfold mbind, N_bind. by intros ->. Qed.

Lemma nbind_failed {A B} (m : N A) (f : A → N B) c e c' :
  m c = (Failed e, c') → (m ≫= f) c = (Failed e, c').
Proof. unfold mbind, N_bind. by intros ->. Qed.

Lemma old_read {A} (f : StorageConn.t → Res A) c :
  old (storage_read f) c =
  (match f (storage_conn (world c)) with
   | Ok a => Returned a
   | Raise e => Failed (Error e)
   end, c).
Proof. unfold old, storage_read. simpl. by rewrite central_eta. Qed.

Lemma get_records_of context st d :
  StorageMore.get_records context (Domain.id d) None st = Ok (records_of st d).
Proof.
  unfold StorageMore.get_records, records_of. f_equal.
  apply list_filter_iff. intros r. split; [tauto|].
  intros ?. split; [done|]. apply map_empty_subseteq.
Qed.

Section Sync.
Context (dep : Deployment).

Lemma check_unfold rule context target c :
  check dep rule context target c =
  (if policy (central_env dep) rule context target
   then Returned () else Failed (Error policy_denied), c).
Proof.
  unfold check, old, policy_check.
  destruct (policy _ _ _ _); simpl; by rewrite central_eta.
Qed.

Lemma driver_call_unfold method args c :
  driver_call dep method args c =
  (match driver dep (journal c) method args with
   | Ok v => Returned v
   | Raise e => Failed (Error e)
   end, journaled c [DriverCall method args]).
Proof. unfold driver_call. by destruct (driver dep _ _ _). Qed.

Lemma bind_check {B} rule context target (k : N B) c :
  (check dep rule context target ≫= λ _, k) c =
  if policy (central_env dep) rule context target
  then k c else (Failed (Error policy_denied), c).
Proof.
  unfold mbind, N_bind. rewrite check_unfold.
  by destruct (policy _ _ _ _).
Qed.

(** Property X15.  [sync_record] hands any stored record to the backend
    together with the stored domain named in the call, for a caller granted
    [diagnostics_sync_record]: unlike [get_record], it does not compare the
    record's [domain_id] with the domain.  A refused caller gets Forbidden;
    neither Storage nor the keys change. *)
Theorem sync_record_outcomes context c D R :
  unique_ids (storage_conn (world c)) →
  D ∈ StorageConn.domains (storage_conn (world c)) →
  R ∈ StorageConn.records (storage_conn (world c)) →
  sync_record dep context (Domain.id D) (DnsRecord.id R) c =
  if policy (central_env dep) "diagnostics_sync_record" context
       (record_target D R)
  then (match driver dep (journal c) "sync_record" [RDomain D; RRecord R] with
        | Ok v => Returned v
        | Raise e => Failed (Error e)
        end,
        journaled c [DriverCall "sync_record" [RDomain D; RRecord R]])
  else (Failed (Error policy_denied), c).
Proof.
  intros Hu HD HR. unfold sync_record.
  erewrite nbind_returned by (by rewrite old_read, get_domain_stored).
  fold (record_target D R). rewrite bind_check.
  destruct (policy _ _ _ _); [|done].
  erewrite nbind_returned by (by rewrite old_read, get_record_stored).
  apply driver_call_unfold.
Qed.

(** Property X16.  [sync_domain] of a stored domain calls the backend once,
    with the domain and exactly the stored records of that domain and
    without the servers, and returns or raises what the backend does; a
    refused caller gets Forbidden and no call is made. *)
Theorem sync_domain_outcomes context c D :
  unique_ids (storage_conn (world c)) →
  D ∈ StorageConn.domains (storage_conn (world c)) →
  let args := [RDomain D; RRecords (records_of (storage_conn (world c)) D)] in
  (∀ r, r ∈ records_of (storage_conn (world c)) D ↔
        r ∈ StorageConn.records (storage_conn (world c)) ∧
        DnsRecord.domain_id r = Domain.id D) ∧
  sync_domain dep context (Domain.id D) c =
  if policy (central_env dep) "diagnostics_sync_domain" context
       (domain_target D)
  then (match driver dep (journal c) "sync_domain" args with
        | Ok v => Returned v
        | Raise e => Failed (Error e)
        end, journaled c [DriverCall "sync_domain" args])
  else (Failed (Error policy_denied), c).
Proof.
  intros Hu HD args. split.
  { intros r. unfold records_of. rewrite list_elem_of_filter. tauto. }
  unfold sync_domain.
  erewrite nbind_returned by (by rewrite old_read, get_domain_stored).
  fold (domain_target D). rewrite bind_check.
  destruct (policy _ _ _ _); [|done].
  erewrite nbind_returned by (by rewrite old_read, get_records_of).
  apply driver_call_unfold.
Qed.

Lemma sync_all_loop_returns context domains results c :
  (∀ j args, ∃ v, driver dep j "sync_domain" args = Ok v) →
  ∃ results',
    sync_all_loop dep context domains results c
    = (Returned results',
       journaled c (sync_call (storage_conn (world c)) <$> domains)) ∧
    ∀ i, is_Some (results' !! i) ↔
         is_Some (results !! i) ∨ ∃ d, d ∈ domains ∧ Domain.id d = i.
Proof.
  intros Hdriver. revert results c.
  induction domains as [|d ds IH]; intros results c; simpl.
  - exists results. rewrite journaled_nil. split; [done|].
    intros i. split; [tauto|]. by intros [?|(? & ?%elem_of_nil & _)].
  - erewrite nbind_returned by (by rewrite old_read).
    erewrite nbind_returned by (by rewrite old_read, get_records_of).
    destruct (Hdriver (journal c)
                [RDomain d; RRecords (records_of (storage_conn (world c)) d);
                 RServers (StorageConn.servers (storage_conn (world c)))])
      as [v Hv].
    erewrite nbind_returned by (by rewrite driver_call_unfold, Hv).
    fold (sync_call (storage_conn (world c)) d).
    destruct (IH (<[Domain.id d := v]> results)
                 (journaled c [sync_call (storage_conn (world c)) d]))
      as (results' & -> & Hkeys).
    exists results'. split.
    + by rewrite journaled_app.
    + intros i. rewrite Hkeys, lookup_insert_is_Some.
      setoid_rewrite elem_of_cons. split.
      * intros [[Heq|[_ ?]]|(d' & ? & ?)];
          [right; exists d|left|right; exists d']; eauto.
      * intros [?|(d' & [Hd|?] & Hi)].
        -- destruct (decide (Domain.id d = i)); eauto.
        -- subst. eauto.
        -- right. eauto.
Qed.

(** Property X17.  [sync_all] is refused with Forbidden, nothing being
    called, or, when the backend returns each time, calls the backend once
    for every stored domain, of every tenant and in Storage order, with that
    domain's records and all servers; the mapping returned has exactly the
    stored domains' ids as keys. *)
Theorem sync_all_outcomes context c :
  let st := storage_conn (world c) in
  (policy (central_env dep) "diagnostics_sync_all" context ∅ = false →
   sync_all dep context c = (Failed (Error policy_denied), c)) ∧
  (policy (central_env dep) "diagnostics_sync_all" context ∅ = true →
   (∀ j args, ∃ v, driver dep j "sync_domain" args = Ok v) →
   ∃ results,
     sync_all dep context c
     = (Returned results,
        journaled c (sync_call st <$> StorageConn.domains st)) ∧
     ∀ i, is_Some (results !! i) ↔
          ∃ d, d ∈ StorageConn.domains st ∧ Domain.id d = i).
Proof.
  simpl. unfold sync_all. split; intros Hp.
  - by rewrite bind_check, Hp.
  - intros Hdriver. rewrite bind_check, Hp.
    erewrite nbind_returned by (by rewrite old_read).
    assert (StorageConn.find_domains ∅ (storage_conn (world c))
            = StorageConn.domains (storage_conn (world c))) as ->.
    { unfold StorageConn.find_domains.
      induction (StorageConn.domains _) as [|d ds IH]; [done|].
      rewrite filter_cons_True by apply map_empty_subseteq. by rewrite IH. }
    destruct (sync_all_loop_returns context
                (StorageConn.domains (storage_conn (world c))) ∅ c Hdriver)
      as (results & -> & Hkeys).
    exists results. split; [done|]. intros i. rewrite Hkeys.
    rewrite lookup_empty. split; [|eauto].
    by intros [[? [=]]|?].
Qed.
End Sync.

(** *** Servers *)

Lemma quiet_ret {A} (a : A) : only_announces_servers (mret a : N A).
Proof. intros c. simpl. eauto. Qed.

Lemma quiet_bind {A B} (m : N A) (f : A → N B) :
  only_announces_servers m → (∀ a, only_announces_servers (f a)) →
  only_announces_servers (m ≫= f).
Proof.
  intros Hm Hf c. destruct (Hm c) as (Ht & Hk & Hj). unfold mbind, N_bind.
  destruct (m c) as [[a|e] c']; simpl in *; [|done].
  destruct (Hf a c') as (Ht' & Hk' & Hj'). split_and!; [congruence..|].
  intros x Hx. destruct (Hj' x Hx) as [?|?]; eauto.
Qed.

Lemma quiet_with_storage {A} (f : StorageConn.t → Outcome A * StorageConn.t) :
  only_announces_servers (with_storage f).
Proof.
  intros c. unfold with_storage. destruct (f _); simpl. eauto.
Qed.

Lemma quiet_read_storage {A} (f : StorageConn.t → Outcome A) :
  only_announces_servers (read_storage f).
Proof. intros c. simpl. eauto. Qed.

Lemma quiet_old_read {A} (f : StorageConn.t → Res A) :
  only_announces_servers (old (storage_read f)).
Proof. intros c. rewrite old_read. simpl. eauto. Qed.

Lemma quiet_announce context et s :
  only_announces_servers (announce context "api" et (RServer s)).
Proof.
  intros c. simpl. split_and!; [done..|].
  intros a [?|Ha%list_elem_of_singleton]%elem_of_app; subst; eauto.
Qed.

Section Servers.
Context (dep : Deployment).

Lemma quiet_check rule context target :
  only_announces_servers (check dep rule context target).
Proof. intros c. rewrite check_unfold. simpl. eauto. Qed.

(** Property X18.  The five server methods never call the backend: whatever
    their arguments and however they end, the trace of backend calls and the
    TSIG keys are as before, and the only actions added are notifications
    about a server. *)
Theorem server_methods_skip_backend context server_id values criterion :
  only_announces_servers (create_server dep context values) ∧
  only_announces_servers (get_servers dep context criterion) ∧
  only_announces_servers (get_server dep context server_id) ∧
  only_announces_servers (update_server dep context server_id values) ∧
  only_announces_servers (delete_server dep context server_id).
Proof.
  unfold create_server, get_servers, get_server, update_server, delete_server.
  split_and!;
    repeat first
      [ apply quiet_bind; [|intros ?]
      | apply quiet_check | apply quiet_with_storage
      | apply quiet_read_storage | apply quiet_old_read
      | apply quiet_announce | apply quiet_ret ].
Qed.

Lemma delete_server_unfold context server_id c :
  let st := storage_conn (world c) in
  let target : gmap string pyval := {[ "server_id" := VStr server_id ]} in
  delete_server dep context server_id c =
  if policy (central_env dep) "delete_server" context target then
    match StorageMore.get_server context server_id st with
    | Returned s =>
        (Returned s,
         journaled (stored c (StorageMore.delete_server context server_id st).2)
           [Notification "api" "server.delete" (RServer s)])
    | Failed f => (Failed f, c)
    end
  else (Failed (Error policy_denied), c).
Proof.
  cbv zeta. unfold delete_server. rewrite bind_check.
  destruct (policy _ _ _ _); [|done].
  unfold mbind, N_bind, read_storage, announce, record_action, with_storage,
    StorageMore.delete_server.
  destruct (StorageMore.get_server context server_id (storage_conn (world c)))
    eqn:Hget; simpl; [|done].
  by rewrite Hget.
Qed.

Lemma get_server_unknown context server_id st :
  (∀ s, s ∈ StorageConn.servers st → Server.id s ≠ server_id) →
  StorageMore.get_server context server_id st = Failed ServerNotFound.
Proof.
  intros Hno. unfold StorageMore.get_server. rewrite filter_none; [done|].
  intros s Hs Hid. by apply (Hno s).
Qed.

Lemma delete_server_returned context server_id c s c' :
  delete_server dep context server_id c = (Returned s, c') →
  Server.id s = server_id ∧
  s ∈ StorageConn.servers (storage_conn (world c)) ∧
  (∀ s', s' ∈ StorageConn.servers (storage_conn (world c')) ↔
         s' ∈ StorageConn.servers (storage_conn (world c)) ∧
         Server.id s' ≠ server_id) ∧
  StorageConn.domains (storage_conn (world c'))
    = StorageConn.domains (storage_conn (world c)) ∧
  ∀ context',
    (delete_server dep context' server_id c').1
    = Failed (if policy (central_env dep) "delete_server" context'
                   {[ "server_id" := VStr server_id ]}
              then ServerNotFound else Error policy_denied).
Proof.
  rewrite delete_server_unfold. destruct (policy _ _ _ _); [|done].
  unfold StorageMore.delete_server.
  destruct (StorageMore.get_server _ _ _) as [s0|] eqn:Hget; [|done].
  intros [= -> <-]. simpl.
  unfold StorageMore.get_server in Hget.
  destruct (filter _ _) as [|s' ss] eqn:Hf; [done|]. injection Hget as ->.
  assert (s ∈ s :: ss) as Hin by left. rewrite <- Hf in Hin.
  apply list_elem_of_filter in Hin as [Hid Hin].
  split_and!; [done..| |done|].
  - intros s'. rewrite list_elem_of_filter. tauto.
  - intros context'. rewrite delete_server_unfold.
    destruct (policy _ _ _ _); [|done]. simpl.
    rewrite get_server_unknown; [done|]. simpl.
    by intros s' [? _]%list_elem_of_filter.
Qed.

Lemma create_domain_without_servers env context values w :
  StorageConn.servers (storage_conn w) = [] →
  ∃ e, create_domain env context values w = (Raise e, w).
Proof.
  intros Hs.
  destruct (create_domain_cases env context values w)
    as [?|(name & found & _ & _ & ->)]; [done|].
  rewrite persist_no_servers by done. eauto.
Qed.

(** Property X19.  When [delete_server] returns, a stored server with
    that id was looked up and announced in the one notification
    [server.delete], exactly the servers with that id are removed from
    Storage, and deleting the same id again fails with ServerNotFound, or
    Forbidden for a refused caller.  For a granted caller an unknown id
    fails with ServerNotFound and changes nothing. *)
Theorem deleted_server_is_gone context server_id c :
  (∀ r c',
     delete_server dep context server_id c = (Returned r, c') →
     ∃ s,
       StorageMore.get_server context server_id (storage_conn (world c))
       = Returned s ∧
       Server.id s = server_id ∧
       s ∈ StorageConn.servers (storage_conn (world c)) ∧
       journal c' = (journal c
                     ++ [Notification "api" "server.delete" (RServer s)])%list ∧
       (∀ s', s' ∈ StorageConn.servers (storage_conn (world c')) ↔
              s' ∈ StorageConn.servers (storage_conn (world c)) ∧
              Server.id s' ≠ server_id) ∧
       ∀ context',
         (delete_server dep context' server_id c').1
         = Failed (if policy (central_env dep) "delete_server" context'
                        {[ "server_id" := VStr server_id ]}
                   then ServerNotFound else Error policy_denied)) ∧
  ((∀ s, s ∈ StorageConn.servers (storage_conn (world c)) →
         Server.id s ≠ server_id) →
   policy (central_env dep) "delete_server" context
     {[ "server_id" := VStr server_id ]} = true →
   delete_server dep context server_id c = (Failed ServerNotFound, c)).
Proof.
  split.
  - intros r c' Hrun.
    destruct (delete_server_returned _ _ _ _ _ Hrun) as (? & ? & ? & _ & ?).
    rewrite delete_server_unfold in Hrun. destruct (policy _ _ _ _); [|done].
    destruct (StorageMore.get_server _ _ _) as [s|] eqn:Hget; [|done].
    injection Hrun as <- <-. by exists s.
  - intros Hno Hp. rewrite delete_server_unfold, Hp.
    by rewrite get_server_unknown.
Qed.

(** Property X20.  After [delete_server] has removed the only server,
    [create_domain] raises for every caller, configuration and values, and
    writes nothing. *)
Theorem no_domain_after_last_server context c s r c' :
  StorageConn.servers (storage_conn (world c)) = [s] →
  delete_server dep context (Server.id s) c = (Returned r, c') →
  ∀ env context' values,
    ∃ e, create_domain env context' values (world c') = (Raise e, world c').
Proof.
  intros Hs Hrun env context' values.
  apply create_domain_without_servers.
  destruct (delete_server_returned _ _ _ _ _ Hrun) as (_ & _ & Hrest & _).
  destruct (StorageConn.servers (storage_conn (world c'))) as [|s' ss] eqn:Hc';
    [done|].
  assert (s' ∈ s' :: ss) as Hin by left.
  apply Hrest in Hin as [Hin Hid]. rewrite Hs in Hin.
  by apply list_elem_of_singleton in Hin as ->.
Qed.
End Servers.

(** *** TSIG keys and the life of the service *)

Section Keys.
Context (dep : Deployment).

Lemma get_tsigkey_unknown context tsigkey_id keys :
  (∀ k, k ∈ keys → TsigKey.id k ≠ tsigkey_id) →
  StorageMore.get_tsigkey context tsigkey_id keys = Failed TsigKeyNotFound.
Proof.
  intros Hno. unfold StorageMore.get_tsigkey. rewrite filter_none; [done|].
  intros k Hk Hid. by apply (Hno k).
Qed.

(** Property X21.  [create_tsigkey]: a refused caller gets Forbidden and
    nothing changes.  Otherwise the key is stored first, with a new id and
    the supplied columns, then the backend is called with it; the
    notification [tsigkey.create] follows only if the backend returns, and a
    backend failure leaves the key stored. *)
Theorem create_tsigkey_outcomes context values c :
  let st := storage_conn (world c) in
  let key :=
    TsigKey.mk (StorageConn.new_id (StorageConn.next_id st))
      (StorageConn.col values "name") (StorageConn.col values "algorithm")
      (StorageConn.col values "secret") in
  let called := DriverCall "create_tsigkey" [RTsigKey key] in
  (policy (central_env dep) "create_tsigkey" context ∅ = false →
   create_tsigkey dep context values c = (Failed (Error policy_denied), c)) ∧
  (policy (central_env dep) "create_tsigkey" context ∅ = true →
   tsigkeys (create_tsigkey dep context values c).2
     = (tsigkeys c ++ [key])%list ∧
   match driver dep (journal c) "create_tsigkey" [RTsigKey key] with
   | Ok _ =>
       (create_tsigkey dep context values c).1 = Returned key ∧
       journal (create_tsigkey dep context values c).2
       = (journal c
          ++ [called; Notification "api" "tsigkey.create" (RTsigKey key)])%list
   | Raise e =>
       (create_tsigkey dep context values c).1 = Failed (Error e) ∧
       journal (create_tsigkey dep context values c).2
       = (journal c ++ [called])%list
   end).
Proof.
  cbv zeta. unfold create_tsigkey. rewrite bind_check.
  split; intros ->; [done|].
  unfold mbind, N_bind, next_identifier, with_tsigkeys,
    StorageMore.create_tsigkey, driver_call, announce, record_action. simpl.
  destruct (driver dep _ _ _); simpl; [|done]. by rewrite <- app_assoc.
Qed.

(** Property X22.  [delete_tsigkey] for a granted caller: an unknown id
    fails with TsigKeyNotFound and changes nothing.  For a stored key the
    backend is called first; only if it returns is the notification
    [tsigkey.delete] sent and the key removed, after which its id is
    unknown; if the backend raises the key stays stored. *)
Theorem delete_tsigkey_outcomes context tsigkey_id c :
  policy (central_env dep) "delete_tsigkey" context
    {[ "tsigkey_id" := VStr tsigkey_id ]} = true →
  match StorageMore.get_tsigkey context tsigkey_id (tsigkeys c) with
  | Failed f => delete_tsigkey dep context tsigkey_id c = (Failed f, c)
  | Returned k =>
      let called := DriverCall "delete_tsigkey" [RTsigKey k] in
      let remaining := filter (λ x, TsigKey.id x ≠ tsigkey_id) (tsigkeys c) in
      StorageMore.get_tsigkey context tsigkey_id remaining
        = Failed TsigKeyNotFound ∧
      delete_tsigkey dep context tsigkey_id c =
      match driver dep (journal c) "delete_tsigkey" [RTsigKey k] with
      | Ok _ =>
          (Returned k,
           journaled (keyed c remaining)
             [called; Notification "api" "tsigkey.delete" (RTsigKey k)])
      | Raise e => (Failed (Error e), journaled c [called])
      end
  end.
Proof.
  intros Hp. unfold delete_tsigkey. rewrite bind_check, Hp.
  destruct (StorageMore.get_tsigkey context tsigkey_id (tsigkeys c))
    as [k|f] eqn:Hget.
  - split.
    { apply get_tsigkey_unknown. by intros k' [? _]%list_elem_of_filter. }
    erewrite nbind_returned
      by (unfold with_tsigkeys; rewrite Hget, central_eta; reflexivity).
    unfold mbind, N_bind. rewrite driver_call_unfold.
    destruct (driver dep _ _ _); [|done].
    unfold announce, record_action, with_tsigkeys, StorageMore.delete_tsigkey.
    simpl. rewrite Hget. unfold journaled, keyed. simpl.
    by rewrite <- app_assoc.
  - erewrite nbind_failed; [done|].
    unfold with_tsigkeys. by rewrite Hget, central_eta.
Qed.
End Keys.

Section Lifecycle.
Context (dep : Deployment).

Lemma rpc_call_quiet a c :
  rpc_conn c = true → rpc dep a = None →
  rpc_call dep a c = (Returned (), journaled c [a]).
Proof.
  intros Hc Ha. unfold rpc_call, journaled. rewrite Ha.
  by destruct (rpc_conn c).
Qed.

Lemma declare_topics handler c :
  rpc_conn c = true → (∀ a, rpc dep a = None) →
  ∀ topics exchange,
    for_all topics (λ topic,
      rpc_call dep
        (DeclareTopicConsumer
           ("moniker.notifications." +:+ Handler.get_canonical_name handler
              +:+ "." +:+ exchange +:+ "." +:+ topic) topic exchange)) c
    = (Returned (),
       journaled c
         ((λ topic,
             DeclareTopicConsumer
               (queue_name (Handler.get_canonical_name handler) exchange topic)
               topic exchange) <$> topics)).
Proof.
  intros Hc Hrpc topics exchange. revert c Hc.
  induction topics as [|t ts IH]; intros c Hc; simpl.
  - by rewrite journaled_nil.
  - erewrite nbind_returned by (by apply rpc_call_quiet).
    rewrite IH by done. by rewrite journaled_app.
Qed.

Lemma setup_handlers hs c :
  rpc_conn c = true → (∀ a, rpc dep a = None) →
  for_all hs (λ handler,
    let '(exchange, topics) := get_exchange_topics dep handler in
    for_all topics (λ topic,
      let queue_name :=
        "moniker.notifications." +:+ Handler.get_canonical_name handler
          +:+ "." +:+ exchange +:+ "." +:+ topic in
      rpc_call dep (DeclareTopicConsumer queue_name topic exchange))) c
  = (Returned (), journaled c (List.concat (subscriptions_of dep <$> hs))).
Proof.
  intros Hc Hrpc. revert c Hc.
  induction hs as [|h hs IH]; intros c Hc; simpl.
  - by rewrite journaled_nil.
  - rewrite (nbind_returned _ _ c () (journaled c (subscriptions_of dep h))).
    + rewrite IH by done. by rewrite journaled_app.
    + unfold subscriptions_of.
      destruct (get_exchange_topics dep h) as [exchange topics]. simpl.
      by apply declare_topics.
Qed.

(** Property X23.  With a connection, [_setup_subscriptions] declares one
    consumer per handler and topic, in the order of the handlers and of
    their topics, each on the queue
    [moniker.notifications.<handler>.<exchange>.<topic>]: as many consumers
    as there are topics over all handlers. *)
Theorem setup_subscriptions_declares c :
  rpc_conn c = true → (∀ a, rpc dep a = None) →
  _setup_subscriptions dep c = (Returned (), journaled c (subscriptions dep)) ∧
  List.length (subscriptions dep)
  = sum_list ((λ h, List.length (get_exchange_topics dep h).2)
              <$> handlers (central_env dep)).
Proof.
  intros Hc Hrpc. split; [by apply setup_handlers|].
  unfold subscriptions.
  induction (handlers (central_env dep)) as [|h hs IH]; [done|].
  rewrite !fmap_cons, List.concat_cons, length_app, IH.
  unfold subscriptions_of. by rewrite length_fmap.
Qed.

(** Property X24.  After [__init__], [start] with collaborators that do not
    fail starts the backend, then the parent service and, only if there are
    handlers, declares their consumers and starts consuming; without
    handlers the connection is not used at all. *)
Theorem start_after_init c0 :
  (∀ j, ∃ v, driver dep j "start" [] = Ok v) →
  service_super dep "start" = None →
  (∀ a, rpc dep a = None) →
  let c := (__init__ dep c0).2 in
  start dep c =
  (Returned (),
   journaled c
     ([DriverCall "start" []; SuperCall "start"]
      ++ (if bool_decide (handlers (central_env dep) ≠ [])
          then subscriptions dep ++ [ConsumeInThreadGroup] else []))).
Proof.
  intros Hdriver Hsuper Hrpc c. unfold start.
  destruct (Hdriver (journal c)) as [v Hv].
  erewrite nbind_returned by (by rewrite driver_call_unfold, Hv).
  erewrite nbind_returned by (unfold super_call; by rewrite Hsuper).
  unfold c, __init__. case_bool_decide as Hh; simpl.
  - erewrite nbind_returned by (by apply setup_handlers).
    rewrite rpc_call_quiet by done.
    unfold journaled. simpl. f_equal. f_equal.
    by rewrite <- !app_assoc.
  - unfold journaled. simpl. f_equal. f_equal. by rewrite <- !app_assoc.
Qed.

(** Property X25.  [stop] closes the connection only if there are
    handlers.  A failure of [close] that [except Exception] catches, the
    missing connection included, is ignored: [stop] goes on to stop the
    parent service and then the backend.  An exception of [close] whose
    class does not derive from [Exception] is raised by [stop], and
    neither the parent nor the backend is stopped.  A failure of the
    parent's [stop] is not swallowed either: it reaches the caller and the
    backend is not stopped. *)
Theorem stop_ignores_close_failure c :
  let closes := bool_decide (handlers (central_env dep) ≠ []) && rpc_conn c in
  let closing := if closes then [CloseConnection] else [] in
  let escapes :=
    if closes then
      match rpc dep CloseConnection with
      | Some e => if derives_from_Exception e then None else Some e
      | None => None
      end
    else None in
  let c1 := journaled c (closing ++ [SuperCall "stop"]) in
  stop dep c =
  match escapes with
  | Some e => (Failed (Error e), journaled c closing)
  | None =>
      match service_super dep "stop" with
      | Some e => (Failed (Error e), c1)
      | None =>
          (match driver dep (journal c1) "stop" [] with
           | Ok _ => Returned ()
           | Raise e => Failed (Error e)
           end, journaled c1 [DriverCall "stop" []])
      end
  end.
Proof.
  cbv zeta. unfold stop.
  assert (∀ c', (super_call dep "stop" ≫= λ _,
                   driver_call dep "stop" [] ≫= λ _, mret ()) c' =
                match service_super dep "stop" with
                | Some e => (Failed (Error e), journaled c' [SuperCall "stop"])
                | None =>
                    (match driver dep (journal c' ++ [SuperCall "stop"])
                             "stop" [] with
                     | Ok _ => Returned ()
                     | Raise e => Failed (Error e)
                     end,
                     journaled (journaled c' [SuperCall "stop"])
                       [DriverCall "stop" []])
                end) as Hrest.
  { intros c'. unfold mbind, N_bind, super_call, driver_call.
    destruct (service_super dep "stop"); [done|]. simpl.
    by destruct (driver dep _ _ _). }
  case_bool_decide as Hh; simpl.
  - unfold attempt, rpc_call. destruct c as [wd ks [] jl]; simpl.
    + destruct (rpc dep CloseConnection) as [e|] eqn:Hclose; simpl.
      * destruct (derives_from_Exception e) eqn:He.
        -- erewrite nbind_returned
             by (simpl; rewrite ?Hclose; simpl; rewrite ?He; reflexivity).
           rewrite Hrest. unfold journaled. simpl. by rewrite <- !app_assoc.
        -- erewrite nbind_failed; [reflexivity|].
           simpl. rewrite ?Hclose. simpl. by rewrite ?He.
      * erewrite nbind_returned by (simpl; rewrite ?Hclose; reflexivity).
        rewrite Hrest. unfold journaled. simpl. by rewrite <- !app_assoc.
    + erewrite nbind_returned by reflexivity. rewrite Hrest. reflexivity.
  - erewrite nbind_returned by reflexivity. rewrite Hrest. reflexivity.
Qed.
End Lifecycle.

(** *** A refused caller *)

Section Refused.
Context (env : Env) (context : Ctx.t) (Hrefused : refused env context).

Lemma refused_check {B} rule target (k : M B) w :
  rejected (policy_check env rule context target ≫= λ _, k) w.
Proof.
  exists policy_denied. unfold mbind, M_bind, policy_check.
  by rewrite Hrefused.
Qed.

Lemma refused_after_read {A B} (f : StorageConn.t → Res A) (k : A → M B) w :
  (∀ a, rejected (k a) w) → rejected (storage_read f ≫= k) w.
Proof.
  intros Hk. unfold rejected, mbind, M_bind, storage_read.
  destruct (f (storage_conn w)) as [a|e]; [apply Hk|by exists e].
Qed.

Lemma refused_after_getitem {B} (values : gmap string pyval) key
    (k : pyval → M B) w :
  (∀ a, rejected (k a) w) → rejected (getitem values key ≫= k) w.
Proof.
  intros Hk. unfold rejected, mbind, M_bind, getitem.
  destruct (values !! key) as [a|]; [apply Hk|by eexists].
Qed.

Lemma refused_after_when {B} (b : bool) e (k : M B) w :
  rejected k w → rejected (when b (raise e) ≫= λ _, k) w.
Proof.
  intros Hk. unfold rejected, mbind, M_bind, when, raise.
  destruct b; [by exists e|apply Hk].
Qed.

(** Property X26.  A caller the policy refuses everything changes nothing
    through the domain and record methods and [ping]: each of them raises,
    be it Forbidden, a NotFound of the lookup that comes first or a
    [KeyError], with Storage and trace as they were. *)
Theorem refused_caller_changes_nothing domain_id record_id values criterion w :
  rejected (create_domain env context values) w ∧
  rejected (get_domains env context criterion) w ∧
  rejected (get_domain env context domain_id) w ∧
  rejected (update_domain env context domain_id values) w ∧
  rejected (delete_domain env context domain_id) w ∧
  rejected (create_record env context domain_id values) w ∧
  rejected (get_records env context domain_id criterion) w ∧
  rejected (get_record env context domain_id record_id) w ∧
  rejected (update_record env context domain_id record_id values) w ∧
  rejected (delete_record env context domain_id record_id) w ∧
  rejected (ping env context) w.
Proof.
  unfold create_domain, get_domains, get_domain, update_domain, delete_domain,
    create_record, get_records, get_record, update_record, delete_record, ping.
  split_and!; cbv zeta;
    repeat first
      [ apply refused_check
      | apply refused_after_read; intros ?
      | apply refused_after_getitem; intros ?
      | apply refused_after_when ].
Qed.
End Refused.

Section RefusedWhole.
Context (dep : Deployment) (context : Ctx.t)
  (Hrefused : refused (central_env dep) context).

(** Property X27.  The server methods, the TSIG key methods and [sync_all]
    start with the policy check: a caller the policy refuses gets Forbidden
    from each of them, whatever the arguments, and nothing is read, written,
    called or notified. *)
Theorem refused_caller_is_gated server_id tsigkey_id values criterion c :
  create_server dep context values c = (Failed (Error policy_denied), c) ∧
  get_servers dep context criterion c = (Failed (Error policy_denied), c) ∧
  get_server dep context server_id c = (Failed (Error policy_denied), c) ∧
  update_server dep context server_id values c
    = (Failed (Error policy_denied), c) ∧
  delete_server dep context server_id c = (Failed (Error policy_denied), c) ∧
  create_tsigkey dep context values c = (Failed (Error policy_denied), c) ∧
  get_tsigkeys dep context criterion c = (Failed (Error policy_denied), c) ∧
  get_tsigkey dep context tsigkey_id c = (Failed (Error policy_denied), c) ∧
  update_tsigkey dep context tsigkey_id values c
    = (Failed (Error policy_denied), c) ∧
  delete_tsigkey dep context tsigkey_id c
    = (Failed (Error policy_denied), c) ∧
  sync_all dep context c = (Failed (Error policy_denied), c).
Proof.
  unfold create_server, get_servers, get_server, update_server, delete_server,
    create_tsigkey, get_tsigkeys, get_tsigkey, update_tsigkey, delete_tsigkey,
    sync_all.
  rewrite !bind_check, !Hrefused. by split_and!.
Qed.
End RefusedWhole.

(** ** The properties on the example deployment *)

(** A decidable fact about the example, by evaluation. *)
Ltac by_evaluation := apply (bool_decide_unpack _); vm_compute; exact I.

(** The example Storage is well formed. *)
Lemma example_storage_ok : storage_ok Example.store.
Proof.
  split; [by_evaluation|].
  intros k _. unfold StorageConn.new_id. simpl.
  rewrite !elem_of_cons, !elem_of_nil. split; intros H; by repeat destruct H as [H|H].
Qed.

(** The patterns of an example deployment are regular expressions unless
    the lone parenthesis is among them. *)
Lemma example_valid_patterns env :
  re_search env = Example.search →
  "(" ∉ domain_name_blacklist env →
  valid_patterns env.
Proof.
  intros Hsearch Hno p Hp. rewrite Hsearch. unfold Example.search.
  destruct (String.eqb_spec p "(") as [->|]; [done|by eauto].
Qed.

(** The domain [example.com.] addressed with a record of [other.org.]. *)
Lemma record_of_another_domain_not_found_witness :
  get_record Example.env_open Example.tenant_a "d1" "r2" Example.world
    = (Raise RecordNotFound, Example.world) ∧
  update_record Example.env_open Example.tenant_a "d1" "r2"
      {[ "data" := VStr "192.0.2.9" ]} Example.world
    = (Raise RecordNotFound, Example.world) ∧
  delete_record Example.env_open Example.tenant_a "d1" "r2" Example.world
    = (Raise RecordNotFound, Example.world).
Proof.
  apply (record_of_another_domain_not_found Example.env_open Example.tenant_a
           Example.world Example.example_com Example.mail).
  - by_evaluation.
  - by_evaluation.
  - by_evaluation.
  - by_evaluation.
Defined.

(** The backend driver raises, Storage answers. *)
Lemma ping_authorized_witness :
  ∃ r, ping Example.env_backend_down Example.tenant_a Example.world
         = (Ok r, Example.world) ∧
       Ping.backend r = failed_status "connection refused" ∧
       Ping.storage r = ODict {[ "status" := VBool true ]}.
Proof.
  destruct (proj1 (proj2 (ping_authorized Example.env_backend_down
                            Example.tenant_a Example.world) eq_refl))
    as (r & Hrun & (message & Hstr & Hbackend) & Hstorage & _).
  - intros e [= <-]. split; [reflexivity|]. by eexists.
  - intros e [=].
  - exists r. split_and!; [exact Hrun| |exact Hstorage].
    injection Hstr as <-. exact Hbackend.
Defined.

(** Claim C1 as stated fails three times: a caller refused
    [diagnostics_ping] makes [ping] raise; an exception of the backend
    whose class does not derive from [Exception], here the timeout of
    eventlet, is not caught and [ping] raises it; and when the backend
    raises an exception that is caught while Storage answers with a true
    value, the overall status is [True], the backend entry being a
    dictionary, which is a true value. *)
Lemma ping_counterexample :
  ping Example.env_closed Example.tenant_a Example.world
    = (Raise (Forbidden ""), Example.world) ∧
  ping Example.env_backend_timeout Example.tenant_a Example.world
    = (Raise Example.timeout, Example.world) ∧
  ∃ r, ping Example.env_backend_down Example.tenant_a Example.world
         = (Ok r, Example.world) ∧
       Ping.backend r = failed_status "connection refused" ∧
       Ping.status r = true.
Proof.
  split_and!; [reflexivity..|]. eexists. split_and!; reflexivity.
Qed.

(** [a.b.example.com.] under the stored [example.com.] of tenant A:
    refused to tenant B, created with its parent recorded for tenant A. *)
Lemma subdomain_resolution_witness :
  (∃ msg, create_domain Example.env_open Example.tenant_b
            {[ "name" := VStr "a.b.example.com." ]} Example.world
          = (Raise (Forbidden msg), Example.world)) ∧
  (∃ domain w', create_domain Example.env_open Example.tenant_a
                  {[ "name" := VStr "a.b.example.com." ]} Example.world
                = (Ok domain, w') ∧
                Domain.parent_domain_id domain = VStr "d1").
Proof.
  split.
  - destruct (subdomain_resolution Example.env_open Example.tenant_b
                {[ "name" := VStr "a.b.example.com." ]} "a.b.example.com."
                Example.world) as (found & Hsub & _ & Hparent);
      [vm_compute; reflexivity|].
    vm_compute in Hsub. injection Hsub as <-.
    destruct (proj1 (Hparent Example.example_com eq_refl) eq_refl)
      as (e & Hrun & Hforbidden).
    destruct Hforbidden as [msg ->];
      [apply example_valid_patterns; [reflexivity|by_evaluation]|].
    exists msg. exact Hrun.
  - destruct (subdomain_resolution Example.env_open Example.tenant_a
                {[ "name" := VStr "a.b.example.com." ]} "a.b.example.com."
                Example.world) as (found & Hsub & _ & Hparent);
      [vm_compute; reflexivity|].
    vm_compute in Hsub. injection Hsub as <-.
    destruct (Hparent Example.example_com eq_refl) as [_ Hsame].
    destruct (Hsame eq_refl) as [Hcreated Hcreates].
    destruct Hcreates as (domain & w' & Hrun).
    + apply example_valid_patterns; [reflexivity|by_evaluation].
    + reflexivity.
    + reflexivity.
    + discriminate.
    + by_evaluation.
    + reflexivity.
    + exists domain, w'. split; [exact Hrun|].
      apply (Hcreated domain w' Hrun).
Defined.

(** A pattern that is not a regular expression: [create_domain] raises
    the error of [re.search] before it looks for a parent or for
    servers, whatever the name. *)
Lemma bad_pattern_stops_create_domain :
  ¬ valid_patterns Example.env_bad_pattern ∧
  create_domain Example.env_bad_pattern Example.tenant_a
    {[ "name" := VStr "mail.example.com." ]} Example.world_without_servers
  = (Raise (Exception "unbalanced parenthesis"),
     Example.world_without_servers).
Proof.
  split; [|vm_compute; reflexivity].
  intros Hvalid. destruct (Hvalid "(") as [search Hsearch]; [by left|].
  discriminate Hsearch.
Qed.

(** A valid request against a Storage without servers. *)
Lemma create_domain_no_servers_witness :
  create_domain Example.env_open Example.tenant_a
    {[ "name" := VStr "mail.example.com." ]} Example.world_without_servers
  = (Raise NoServersConfigured, Example.world_without_servers).
Proof.
  apply (create_domain_no_servers Example.env_open Example.tenant_a
           {[ "name" := VStr "mail.example.com." ]} "mail.example.com.").
  - reflexivity.
  - apply example_valid_patterns; [reflexivity|by_evaluation].
  - reflexivity.
  - reflexivity.
  - intros parent Hsub. vm_compute in Hsub. injection Hsub as <-. reflexivity.
  - reflexivity.
Defined.

(** Claim C6, on the code.  With the empty pattern on the blacklist every
    name matches, yet a caller who is refused [use_blacklisted_domain]
    creates the domain: the pattern [_is_blacklisted_domain_name] returns
    is the empty string, which [create_domain] tests as a false value. *)
Theorem blank_pattern_passes_blacklist :
  let env := Example.env_blank_pattern in
  let values : gmap string pyval := {[ "name" := VStr "example.net." ]} in
  "" ∈ domain_name_blacklist env ∧
  matches env "" "example.net." = true ∧
  policy env "use_blacklisted_domain" Example.tenant_b ∅ = false ∧
  _is_blacklisted_domain_name env Example.tenant_b (VStr "example.net.")
    Example.world = (Ok (VStr ""), Example.world) ∧
  ∃ domain w',
    create_domain env Example.tenant_b values Example.world = (Ok domain, w') ∧
    Domain.name domain = "example.net." ∧
    domain ∈ StorageConn.domains (storage_conn w').
Proof.
  simpl. split_and!; [by_evaluation|reflexivity..|].
  eexists _, _. split_and!; [vm_compute; reflexivity|reflexivity|by_evaluation].
Qed.

(** Tenant B asks for the domains of tenant A and gets its own; the
    admin gets both. *)
Lemma get_domains_tenant_scope_witness :
  get_domains Example.env_open Example.tenant_b
    (Some {[ "tenant_id" := VStr "tenant-a" ]}) Example.world
  = (Ok [Example.other_org], Example.world) ∧
  get_domains Example.env_open Example.admin None Example.world
  = (Ok [Example.example_com; Example.other_org], Example.world).
Proof.
  split.
  - destruct (get_domains_tenant_scope Example.env_open Example.tenant_b
                (Some {[ "tenant_id" := VStr "tenant-a" ]}) Example.world)
      as [Hscoped _].
    destruct (Hscoped eq_refl) as (_ & Hrun & _).
    rewrite Hrun. vm_compute. reflexivity.
  - destruct (get_domains_tenant_scope Example.env_open Example.admin
                None Example.world) as [_ Hadmin].
    destruct (Hadmin eq_refl) as [Hrun Hall].
    rewrite Hrun, Hall. reflexivity.
Defined.

(** The owner of [example.com.] tries to rename it. *)
Lemma update_domain_rename_rejected_witness :
  update_domain Example.env_open Example.tenant_a
    (Domain.id Example.example_com)
    {[ "name" := VStr "renamed.com." ]} Example.world
  = (Raise rename_rejected, Example.world).
Proof.
  rewrite (update_domain_rename_rejected Example.env_open Example.tenant_a
             Example.world Example.example_com
             {[ "name" := VStr "renamed.com." ]} (VStr "renamed.com.")).
  - reflexivity.
  - by_evaluation.
  - by_evaluation.
  - vm_compute. reflexivity.
  - discriminate.
Defined.

(** Claim C4 as stated fails: a caller refused [update_domain] gets
    Forbidden, not BadRequest, for a rename. *)
Lemma update_domain_rename_counterexample :
  Example.example_com ∈ StorageConn.domains (storage_conn Example.world) ∧
  ({[ "name" := VStr "renamed.com." ]} : gmap string pyval) !! "name"
    = Some (VStr "renamed.com.") ∧
  VStr "renamed.com." ≠ VStr (Domain.name Example.example_com) ∧
  update_domain Example.env_closed Example.tenant_b "d1"
    {[ "name" := VStr "renamed.com." ]} Example.world
  = (Raise (Forbidden ""), Example.world).
Proof. split_and!; [by_evaluation|reflexivity|discriminate|reflexivity]. Qed.

(** [www.other.com.] is refused under [example.com.], [ftp.example.com.]
    goes on to Storage. *)
Lemma record_zone_containment_witness :
  create_record Example.env_open Example.tenant_a
    (Domain.id Example.example_com)
    {[ "name" := VStr "www.other.com." ]} Example.world
  = (Raise outside_zone, Example.world) ∧
  ∃ record st',
    create_record Example.env_open Example.tenant_a
      (Domain.id Example.example_com)
      {[ "name" := VStr "ftp.example.com." ]} Example.world
    = propagate Example.env_open "create_record" "record.create"
        Example.example_com record st' Example.world ∧
    DnsRecord.name record = "ftp.example.com.".
Proof.
  split.
  - destruct (record_zone_containment Example.env_open Example.tenant_a
                Example.world Example.example_com
                {[ "name" := VStr "www.other.com." ]} "www.other.com.")
      as [Houtside _]; [by_evaluation|by_evaluation|vm_compute; reflexivity|].
    destruct Houtside as [Hcreate _].
    + intros [prefix Hprefix].
      assert (endswith "www.other.com." (Domain.name Example.example_com)
              = true) as Hends by (apply endswith_spec; by exists prefix).
      vm_compute in Hends. discriminate.
    + rewrite Hcreate. reflexivity.
  - destruct (record_zone_containment Example.env_open Example.tenant_a
                Example.world Example.example_com
                {[ "name" := VStr "ftp.example.com." ]} "ftp.example.com.")
      as [_ Hinside]; [by_evaluation|by_evaluation|vm_compute; reflexivity|].
    destruct Hinside as [Hcreate _].
    + by exists "ftp.".
    + destruct (Hcreate eq_refl) as (record & st' & Hstored & Hrun).
      exists record, st'. split; [exact Hrun|].
      vm_compute in Hstored. by injection Hstored as <- _.
Defined.

(** Claim C7 as stated fails: a caller refused [create_record] gets
    Forbidden, not BadRequest, for a name outside the zone. *)
Lemma record_zone_counterexample :
  Example.example_com ∈ StorageConn.domains (storage_conn Example.world) ∧
  endswith "www.other.com." (Domain.name Example.example_com) = false ∧
  create_record Example.env_closed Example.tenant_b "d1"
    {[ "name" := VStr "www.other.com." ]} Example.world
  = (Raise (Forbidden ""), Example.world).
Proof. split_and!; [by_evaluation|reflexivity..]. Qed.

(** The owner changes the data of [www.example.com.]. *)
Lemma update_record_without_name_witness :
  ∃ st',
    StorageConn.update_record Example.tenant_a (DnsRecord.id Example.www)
      {[ "data" := VStr "192.0.2.9" ]} (storage_conn Example.world)
    = (Ok (StorageConn.updated_record Example.www
             {[ "data" := VStr "192.0.2.9" ]}), st') ∧
    update_record Example.env_open Example.tenant_a
      (Domain.id Example.example_com) (DnsRecord.id Example.www)
      {[ "data" := VStr "192.0.2.9" ]} Example.world
    = propagate Example.env_open "update_record" "record.update"
        Example.example_com
        (StorageConn.updated_record Example.www
           {[ "data" := VStr "192.0.2.9" ]}) st' Example.world.
Proof.
  apply (update_record_without_name Example.env_open Example.tenant_a
           Example.world Example.example_com Example.www
           {[ "data" := VStr "192.0.2.9" ]}).
  - by_evaluation.
  - by_evaluation.
  - by_evaluation.
  - reflexivity.
  - vm_compute. reflexivity.
Defined.

(** Claim C10 as stated fails: for a caller refused [update_record] the
    update does not proceed to Storage. *)
Lemma update_record_without_name_counterexample :
  Example.www ∈ StorageConn.records (storage_conn Example.world) ∧
  DnsRecord.domain_id Example.www = Domain.id Example.example_com ∧
  ({[ "data" := VStr "192.0.2.9" ]} : gmap string pyval) !! "name" = None ∧
  update_record Example.env_closed Example.tenant_a "d1" "r1"
    {[ "data" := VStr "192.0.2.9" ]} Example.world
  = (Raise (Forbidden ""), Example.world).
Proof. split_and!; [by_evaluation|reflexivity..]. Qed.

(** Of the two handlers, only the one that declares the event type is
    called. *)
Lemma notification_dispatch_witness :
  _process_notification Example.env_open Example.instance_created
    Example.world
  = (Ok (),
     mkWorld Example.store
       [HandlerCall "nova_fixed" (OVal (VStr "compute.instance.create.end"))
          (ODict {[ "instance_id" := VStr "i-1" ]})]).
Proof.
  destruct (notification_dispatch Example.env_open Example.instance_created
              "compute.instance.create.end"
              (ODict {[ "instance_id" := VStr "i-1" ]})) with Example.world
    as (_ & Hall & _); [vm_compute; reflexivity..|].
  rewrite Hall.
  - vm_compute. reflexivity.
  - intros h Hh _. simpl in Hh.
    apply elem_of_cons in Hh as [->|Hh]; [reflexivity|].
    apply elem_of_cons in Hh as [->|Hh]; [reflexivity|].
    by apply elem_of_nil in Hh.
Defined.

(** Claim C8 as stated fails: both handlers declare the event type, the
    first one raises, and the second one is never called. *)
Lemma notification_dispatch_counterexample :
  let et := "compute.instance.create.end" in
  let payload := ODict {[ "instance_id" := VStr "i-1" ]} in
  handlers Example.env_broken_handler = [Example.broken; Example.nova] ∧
  et ∈ Handler.get_event_types Example.nova ∧
  _process_notification Example.env_broken_handler Example.instance_created
    Example.world
  = (Raise (Exception "handler failed"),
     mkWorld Example.store [HandlerCall "broken" (OVal (VStr et)) payload]).
Proof. simpl. split_and!; [reflexivity|by_evaluation|vm_compute; reflexivity]. Qed.

(** ** The rest of the service on the example deployment *)

(** The service after the only server was deleted. *)
Lemma example_last_server_deleted :
  delete_server Example.site Example.tenant_a "s1" Example.central
  = (Returned Example.ns1,
     journaled (stored Example.central Example.store_without_servers)
       [Notification "api" "server.delete" (RServer Example.ns1)]).
Proof. vm_compute. reflexivity. Qed.

(** Without the key [name], nothing is created. *)
Lemma create_domain_needs_a_name_witness :
  create_domain Example.env_open Example.tenant_a
    {[ "email" := VStr "root@example.net" ]} Example.world
  = (Raise (KeyError "name"), Example.world).
Proof.
  apply (proj1 (create_domain_needs_a_name Example.env_open Example.tenant_a
                  {[ "email" := VStr "root@example.net" ]} Example.world)).
  vm_compute. reflexivity.
Defined.

(** Tenant A creates [example.net.]; tenant B is then refused
    [www.example.net.]. *)
Lemma created_domain_guards_children_witness :
  create_domain Example.env_open Example.tenant_a
    {[ "name" := VStr "example.net." ]} Example.world
  = (Ok Example.example_net, Example.world_with_example_net) ∧
  ∃ msg,
    create_domain Example.env_open Example.tenant_b
      {[ "name" := VStr "www.example.net." ]} Example.world_with_example_net
    = (Raise (Forbidden msg), Example.world_with_example_net).
Proof.
  assert (create_domain Example.env_open Example.tenant_a
            {[ "name" := VStr "example.net." ]} Example.world
          = (Ok Example.example_net, Example.world_with_example_net)) as Hrun.
  { vm_compute. reflexivity. }
  split; [exact Hrun|].
  assert (({[ "name" := VStr "www.example.net." ]} : gmap string pyval)
            !! "name" = Some (VStr "www.example.net.")) as Hname
    by (vm_compute; reflexivity).
  destruct (proj1 (created_domain_guards_children Example.env_open
                     Example.tenant_a _ Example.world Example.example_net
                     Example.world_with_example_net Hrun Example.tenant_b
                     {[ "name" := VStr "www.example.net." ]}
                     "www.example.net."
                     (ex_intro _ "www" (conj eq_refl eq_refl)) Hname)
              eq_refl) as (e & Hrefused & Hforbidden).
  destruct Hforbidden as [msg ->];
    [apply example_valid_patterns; [reflexivity|by_evaluation]|].
  exists msg. exact Hrefused.
Defined.

(** A new top-level domain created with the id of another tenant's
    domain as parent keeps it. *)
Lemma create_domain_keeps_supplied_parent_witness :
  ∃ d w',
    create_domain Example.env_open Example.tenant_a
      {[ "name" := VStr "example.net."; "parent_domain_id" := VStr "d2" ]}
      Example.world = (Ok d, w') ∧
    Domain.parent_domain_id d = VStr "d2".
Proof.
  destruct (create_domain Example.env_open Example.tenant_a
              {[ "name" := VStr "example.net.";
                 "parent_domain_id" := VStr "d2" ]} Example.world)
    as [[d|e] w'] eqn:Hrun; [|by vm_compute in Hrun].
  exists d, w'. split; [reflexivity|].
  rewrite (create_domain_keeps_supplied_parent Example.env_open
             Example.tenant_a
             {[ "name" := VStr "example.net.";
                "parent_domain_id" := VStr "d2" ]}
             "example.net." Example.world d w').
  - vm_compute. reflexivity.
  - vm_compute. reflexivity.
  - vm_compute. reflexivity.
  - exact Hrun.
Defined.

(** Tenant B reads the domain of tenant A when the policy lets it. *)
Lemma get_domain_outcomes_witness :
  get_domain Example.env_open Example.tenant_b
    (Domain.id Example.example_com) Example.world
  = (Ok Example.example_com, Example.world).
Proof.
  apply (proj2 (proj2 (get_domain_outcomes Example.env_open Example.tenant_b
                         (Domain.id Example.example_com) Example.world))
           Example.example_com).
  - by_evaluation.
  - by_evaluation.
  - reflexivity.
Defined.

(** The contact of [example.com.] is changed. *)
Lemma update_domain_outcomes_witness :
  ∃ D' st',
    Domain.email D' = VStr "hostmaster@example.com" ∧
    StorageConn.get_domain Example.tenant_a "d1" st' = Ok D' ∧
    update_domain Example.env_open Example.tenant_a "d1"
      {[ "email" := VStr "hostmaster@example.com" ]} Example.world
    = (Ok D',
       mkWorld st' [BackendCall "update_domain" [EDomain D'];
                    Notify "api" "domain.update" (EDomain D')]).
Proof.
  destruct (update_domain_outcomes Example.env_open Example.tenant_a
              Example.world Example.example_com
              {[ "email" := VStr "hostmaster@example.com" ]})
    as (st' & Hget & _ & _ & Hrun).
  - by_evaluation.
  - by_evaluation.
  - intros name Hname. by vm_compute in Hname.
  - eexists _, st'. split_and!; [|exact Hget|exact Hrun].
    vm_compute. reflexivity.
Defined.

(** [example.com.] is deleted. *)
Lemma delete_domain_outcomes_witness :
  ∃ st',
    StorageConn.get_domain Example.tenant_a (Domain.id Example.example_com) st'
    = Raise DomainNotFound ∧
    delete_domain Example.env_open Example.tenant_a
      (Domain.id Example.example_com) Example.world
    = (Ok Example.example_com,
       mkWorld st'
         [BackendCall "delete_domain" [EDomain Example.example_com];
          Notify "api" "domain.delete" (EDomain Example.example_com)]).
Proof.
  destruct (delete_domain_outcomes Example.env_open Example.tenant_a
              Example.world Example.example_com)
    as (st' & Hgone & _ & Hrun).
  - by_evaluation.
  - by_evaluation.
  - exists st'. split; [exact Hgone|exact Hrun].
Defined.

(** The records of [example.com.]. *)
Lemma get_records_outcomes_witness :
  ∃ rs,
    (Example.www ∈ rs ∧ Example.mail ∉ rs) ∧
    get_records Example.env_open Example.tenant_a
      (Domain.id Example.example_com) None Example.world
    = (Ok rs, Example.world).
Proof.
  destruct (get_records_outcomes Example.env_open Example.tenant_a
              Example.world Example.example_com None)
    as (rs & Hrs & Hrun).
  - by_evaluation.
  - by_evaluation.
  - exists rs. split; [|exact Hrun]. split.
    + apply Hrs. split_and!; [by_evaluation|reflexivity|].
      apply map_empty_subseteq.
    + intros [_ [Hid _]]%Hrs. by vm_compute in Hid.
Defined.

(** A record created under [example.com.] is read back. *)
Lemma created_record_is_found_witness :
  create_record Example.env_open Example.tenant_a "d1"
    {[ "name" := VStr "ftp.example.com." ]} Example.world
  = (Ok Example.ftp, Example.world_with_ftp) ∧
  get_record Example.env_open Example.tenant_b "d1"
    (DnsRecord.id Example.ftp) Example.world_with_ftp
  = (Ok Example.ftp, Example.world_with_ftp).
Proof.
  assert (create_record Example.env_open Example.tenant_a "d1"
            {[ "name" := VStr "ftp.example.com." ]} Example.world
          = (Ok Example.ftp, Example.world_with_ftp)) as Hrun.
  { vm_compute. reflexivity. }
  split; [exact Hrun|].
  apply (proj2 (created_record_is_found Example.env_open Example.tenant_a
                  "d1" _ Example.world Example.ftp Example.world_with_ftp
                  example_storage_ok Hrun)
           Example.tenant_b Example.example_com).
  vm_compute. reflexivity.
Defined.

(** The record [www] of [example.com.] is deleted. *)
Lemma delete_record_outcomes_witness :
  ∃ st',
    get_record Example.env_open Example.tenant_a
      (Domain.id Example.example_com) (DnsRecord.id Example.www)
      (mkWorld st' []) = (Raise RecordNotFound, mkWorld st' []) ∧
    delete_record Example.env_open Example.tenant_a
      (Domain.id Example.example_com) (DnsRecord.id Example.www) Example.world
    = (Ok Example.www,
       mkWorld st'
         [BackendCall "delete_record"
            [EDomain Example.example_com; ERecord Example.www];
          Notify "api" "record.delete" (ERecord Example.www)]).
Proof.
  destruct (delete_record_outcomes Example.env_open Example.tenant_a
              Example.world Example.example_com Example.www)
    as (st' & Hgone & _ & Hrun).
  - by_evaluation.
  - by_evaluation.
  - by_evaluation.
  - reflexivity.
  - exists st'. split; [exact (Hgone Example.tenant_a)|exact Hrun].
Defined.

(** A notification of a declared event type without payload. *)
Lemma malformed_notification_witness :
  _process_notification Example.env_open
    {[ "event_type" := OVal (VStr "compute.instance.create.end") ]}
    Example.world
  = (Raise (KeyError "payload"), Example.world).
Proof.
  apply (proj2 (malformed_notification Example.env_open
                  {[ "event_type" :=
                       OVal (VStr "compute.instance.create.end") ]}
                  Example.world) "compute.instance.create.end").
  - vm_compute. reflexivity.
  - by_evaluation.
  - vm_compute. reflexivity.
Defined.

(** A record of [other.org.] is synchronised through [example.com.]. *)
Lemma sync_record_outcomes_witness :
  DnsRecord.domain_id Example.mail ≠ Domain.id Example.example_com ∧
  sync_record Example.site Example.tenant_a (Domain.id Example.example_com)
    (DnsRecord.id Example.mail) Example.central
  = (Returned (OVal VNone),
     journaled Example.central
       [DriverCall "sync_record"
          [RDomain Example.example_com; RRecord Example.mail]]).
Proof.
  split; [by_evaluation|].
  apply (sync_record_outcomes Example.site Example.tenant_a Example.central
           Example.example_com Example.mail).
  - by_evaluation.
  - by_evaluation.
  - by_evaluation.
Defined.

(** [example.com.] is synchronised with its one record. *)
Lemma sync_domain_outcomes_witness :
  records_of Example.store Example.example_com = [Example.www] ∧
  sync_domain Example.site Example.tenant_a (Domain.id Example.example_com)
    Example.central
  = (Returned (OVal VNone),
     journaled Example.central
       [DriverCall "sync_domain"
          [RDomain Example.example_com;
           RRecords (records_of Example.store Example.example_com)]]).
Proof.
  split; [vm_compute; reflexivity|].
  apply (sync_domain_outcomes Example.site Example.tenant_a Example.central
           Example.example_com).
  - by_evaluation.
  - by_evaluation.
Defined.

(** Both domains are synchronised, whoever owns them. *)
Lemma sync_all_outcomes_witness :
  ∃ results,
    sync_all Example.site Example.tenant_a Example.central
    = (Returned results,
       journaled Example.central
         (sync_call Example.store
            <$> [Example.example_com; Example.other_org])) ∧
    ∀ i, is_Some (results !! i) ↔
         ∃ d, d ∈ [Example.example_com; Example.other_org] ∧ Domain.id d = i.
Proof.
  apply (proj2 (sync_all_outcomes Example.site Example.tenant_a
                  Example.central)).
  - reflexivity.
  - intros j args. exists (OVal VNone). reflexivity.
Defined.

(** The server [ns1] is deleted; a second delete does not find it. *)
Lemma deleted_server_is_gone_witness :
  (delete_server Example.site Example.tenant_b "s1"
     (journaled (stored Example.central Example.store_without_servers)
        [Notification "api" "server.delete" (RServer Example.ns1)])).1
  = Failed ServerNotFound.
Proof.
  destruct (proj1 (deleted_server_is_gone Example.site Example.tenant_a "s1"
                     Example.central) _ _ example_last_server_deleted)
    as (s & _ & _ & _ & _ & _ & Hagain).
  exact (Hagain Example.tenant_b).
Defined.

(** Once [ns1] is deleted no domain can be created. *)
Lemma no_domain_after_last_server_witness :
  ∃ e,
    create_domain Example.env_open Example.tenant_a
      {[ "name" := VStr "example.net." ]} Example.world_without_servers
    = (Raise e, Example.world_without_servers).
Proof.
  apply (no_domain_after_last_server Example.site Example.tenant_a
           Example.central Example.ns1 _ _ eq_refl example_last_server_deleted
           Example.env_open Example.tenant_a).
Defined.

(** A second key is created. *)
Lemma create_tsigkey_outcomes_witness :
  (create_tsigkey Example.site Example.tenant_a
     {[ "name" := VStr "updates"; "algorithm" := VStr "hmac-sha256" ]}
     Example.central).1 = Returned Example.updates ∧
  tsigkeys (create_tsigkey Example.site Example.tenant_a
              {[ "name" := VStr "updates"; "algorithm" := VStr "hmac-sha256" ]}
              Example.central).2
  = [Example.transfer; Example.updates] ∧
  journal (create_tsigkey Example.site Example.tenant_a
             {[ "name" := VStr "updates"; "algorithm" := VStr "hmac-sha256" ]}
             Example.central).2
  = [DriverCall "create_tsigkey" [RTsigKey Example.updates];
     Notification "api" "tsigkey.create" (RTsigKey Example.updates)].
Proof.
  pose proof (proj2 (create_tsigkey_outcomes Example.site Example.tenant_a
                       {[ "name" := VStr "updates";
                          "algorithm" := VStr "hmac-sha256" ]}
                       Example.central) eq_refl) as Hrun.
  vm_compute in Hrun. destruct Hrun as (Hkeys & Hrun & Hjournal).
  vm_compute. split_and!; [exact Hrun|exact Hkeys|exact Hjournal].
Defined.

(** The key [transfer] is deleted. *)
Lemma delete_tsigkey_outcomes_witness :
  delete_tsigkey Example.site Example.tenant_a "k1" Example.central
  = (Returned Example.transfer,
     journaled (keyed Example.central [])
       [DriverCall "delete_tsigkey" [RTsigKey Example.transfer];
        Notification "api" "tsigkey.delete" (RTsigKey Example.transfer)]).
Proof.
  pose proof (delete_tsigkey_outcomes Example.site Example.tenant_a "k1"
                Example.central eq_refl) as Hrun.
  vm_compute in Hrun. destruct Hrun as [_ Hrun].
  vm_compute. exact Hrun.
Defined.

(** The three consumers of the two handlers. *)
Lemma setup_subscriptions_declares_witness :
  subscriptions Example.site
  = [DeclareTopicConsumer "moniker.notifications.nova_fixed.nova.monitor.info"
       "monitor.info" "nova";
     DeclareTopicConsumer "moniker.notifications.nova_fixed.nova.monitor.error"
       "monitor.error" "nova";
     DeclareTopicConsumer
       "moniker.notifications.quantum_floatingip.quantum.monitor.info"
       "monitor.info" "quantum"] ∧
  _setup_subscriptions Example.site Example.connected
  = (Returned (),
     journaled Example.connected (subscriptions Example.site)).
Proof.
  split; [vm_compute; reflexivity|].
  apply (setup_subscriptions_declares Example.site Example.connected).
  - reflexivity.
  - reflexivity.
Defined.

(** The service is built and started. *)
Lemma start_after_init_witness :
  (__init__ Example.site Example.central).2 = Example.connected ∧
  start Example.site (__init__ Example.site Example.central).2
  = (Returned (),
     journaled (__init__ Example.site Example.central).2
       ([DriverCall "start" []; SuperCall "start"]
        ++ subscriptions Example.site ++ [ConsumeInThreadGroup])).
Proof.
  split; [vm_compute; reflexivity|].
  apply (start_after_init Example.site Example.central).
  - intros j. exists (OVal VNone). reflexivity.
  - reflexivity.
  - reflexivity.
Defined.

(** A caller refused everything asks to create a domain and to delete
    [example.com.]. *)
Lemma refused_caller_changes_nothing_witness :
  rejected (create_domain Example.env_closed Example.tenant_a
              {[ "name" := VStr "example.net." ]}) Example.world ∧
  rejected (delete_domain Example.env_closed Example.tenant_a "d1")
    Example.world.
Proof.
  destruct (refused_caller_changes_nothing Example.env_closed Example.tenant_a
              (λ _ _, eq_refl) "d1" "r1" {[ "name" := VStr "example.net." ]}
              None Example.world)
    as (Hcreate & _ & _ & _ & Hdelete & _).
  split; [exact Hcreate|exact Hdelete].
Defined.

(** The same caller asks to delete the server and the key. *)
Lemma refused_caller_is_gated_witness :
  delete_server Example.closed_site Example.tenant_a "s1" Example.central
  = (Failed (Error policy_denied), Example.central) ∧
  delete_tsigkey Example.closed_site Example.tenant_a "k1" Example.central
  = (Failed (Error policy_denied), Example.central).
Proof.
  destruct (refused_caller_is_gated Example.closed_site Example.tenant_a
              (λ _ _, eq_refl) "s1" "k1" ∅ None Example.central)
    as (_ & _ & _ & _ & Hserver & _ & _ & _ & _ & Hkey & _).
  split; [exact Hserver|exact Hkey].
Defined.

(** The connection times out on [close]: [stop] raises the timeout and
    stops neither the parent service nor the backend. *)
Lemma stop_ignores_close_failure_witness :
  stop Example.site_closing_timeout Example.connected
  = (Failed (Error Example.timeout),
     journaled Example.connected [CloseConnection]).
Proof.
  exact (stop_ignores_close_failure Example.site_closing_timeout
           Example.connected).
Defined.
